(** * Inventario de licores: the relational store, the desktop handlers
      and the REST handlers, embedded and verified.

    Sources embedded here:
    - [Inventarios.py]: [LicorDB.create_tables] (the schema) and
      [LicorDB.create_admin_user]; [LoginWindow.cargar_locales] and
      [LoginWindow.validar_login]; [Producto.calcular_volumen]; and the
      [InventarioApp] handlers [actualizar_inventario], [registrar_peso],
      [agregar_botella_completa], [quitar_botella_completa],
      [eliminar_local], [eliminar_producto], [eliminar_usuario],
      [guardar_producto], [guardar_usuario] and
      [cargar_movimientos_recientes];
    - [API REST.py]: [get_productos], [movimientos] (GET and POST) and
      [login].

    Conventions of the embedding.
    - A table is the list of its rows in rowid order; [fetchone] is the
      first row of the result.
    - INTEGER columns are [Z], TEXT columns are [string], a nullable
      column is an [option].
    - SQLite REAL columns and Python floats are embedded twice.  Where a
      statement is about the quantities themselves (what is stored, what
      a sum amounts to) they are idealised as exact rationals ([Q]) and
      equalities between computed quantities are stated with [==].  Where
      the code branches on a comparison of computed floats (the kind of a
      reading, the low-stock flag, the range tests of the products form)
      the handlers are embedded again in the module [B64], over binary64
      with the IEEE 754 operations, and the statements about those
      branches are made there.
    - A REST handler is embedded from its request body, any JSON document
      ([api_login], [api_movimientos_post]); [login] and
      [movimientos_post] are what they do once the values are bound.
    - [fecha] (a CURRENT_TIMESTAMP text, whose lexicographic order is the
      chronological one) is the number of seconds it denotes; the clock is
      an argument of every handler that inserts a row.
    - A modal yes/no dialog is an argument: the answer the user gives.
    - A handler returns what happened together with the new store. *)

From Stdlib Require Import Floats.
From Stdlib Require Import ZArith QArith Qfield Lqa Lia.
From Stdlib Require Import Bool List String DecimalString.
From Stdlib Require Import Sorted Permutation.
Import ListNotations.

Set Warnings "-inexact-float,-register-all".

Open Scope Q_scope.

(** ** The schema ([LicorDB.create_tables]) *)

Module locales.
Record fila : Type := Fila {
  id : Z;
  nombre : string;
  direccion : option string;
  telefono : option string;
  activo : Z
}.
End locales.

Module usuarios.
Record fila : Type := Fila {
  id : Z;
  username : string;
  password : string;
  nombre : string;
  rol : string;
  local_id : option Z;
  activo : Z
}.
End usuarios.

Module productos.
Record fila : Type := Fila {
  id : Z;
  local_id : Z;
  nombre : string;
  marca : string;
  tipo : string;
  densidad : Q;
  capacidad_ml : Q;
  peso_envase : Q;
  activo : Z;
  botellas_completas : Z;
  minimo_inventario : Q;
  fecha_creacion : Z
}.

(** [UPDATE productos SET botellas_completas = botellas_completas + d]
    on one row. *)
Definition set_botellas (d : Z) (p : fila) : fila :=
  Fila (id p) (local_id p) (nombre p) (marca p) (tipo p) (densidad p)
       (capacidad_ml p) (peso_envase p) (activo p)
       (botellas_completas p + d)%Z
       (minimo_inventario p) (fecha_creacion p).
End productos.

(** [class Producto]: the volume that a gross weight stands for. *)
Module Producto.
Definition calcular_volumen (self : productos.fila) (peso_total : Q) : Q :=
  (peso_total - productos.peso_envase self) / productos.densidad self.
End Producto.

(** The [notas] texts the handlers write.  The f-string of
    [registrar_peso] is kept with its argument instead of its rendering. *)
Inductive Notas : Type :=
| Texto (s : string)
| RegistroManual (peso_total : Q).

Module movimientos.
Record fila : Type := Fila {
  id : Z;
  producto_id : Z;
  user_id : Z;
  tipo : string;
  cantidad_ml : Q;
  peso_bruto : option Q;
  notas : option Notas;
  fecha : Z
}.
End movimientos.

(** The store: the four tables and the [sqlite_sequence] entry of
    [movimientos] (ids are AUTOINCREMENT and no handler supplies one). *)
Record DB : Type := mkDB {
  t_locales : list locales.fila;
  t_usuarios : list usuarios.fila;
  t_productos : list productos.fila;
  t_movimientos : list movimientos.fila;
  seq_movimientos : Z
}.

(** The session fields of [InventarioApp.__init__]. *)
Record Sesion : Type := mkSesion {
  user_id : Z;
  user_role : string;
  local_id : option Z
}.

(** ** SQL fragments *)

Definition Qltb (a b : Q) : bool :=
  match a ?= b with Lt => true | _ => false end.

(** [SUM(...)]: NULL over no rows. *)
Definition suma (l : list Q) : Q := fold_right Qplus 0 l.

Definition SUM (l : list Q) : option Q :=
  match l with
  | [] => None
  | _ :: _ => Some (suma l)
  end.

Definition COALESCE (o : option Q) (d : Q) : Q :=
  match o with Some v => v | None => d end.

(** [FROM movimientos WHERE producto_id = ?] *)
Definition movimientos_de (db : DB) (pid : Z) : list movimientos.fila :=
  filter (fun m => Z.eqb (movimientos.producto_id m) pid) (t_movimientos db).

(** [INSERT INTO movimientos (producto_id, user_id, tipo, cantidad_ml,
    peso_bruto, notas) VALUES (...)]: the row is appended with the next id
    and the clock's timestamp. *)
Definition insertar_movimiento (ahora : Z) (producto_id user_id : Z)
    (tipo : string) (cantidad_ml : Q) (peso_bruto : option Q)
    (notas : option Notas) (db : DB) : DB :=
  let nuevo := (seq_movimientos db + 1)%Z in
  mkDB (t_locales db) (t_usuarios db) (t_productos db)
       (t_movimientos db ++
          [movimientos.Fila nuevo producto_id user_id tipo cantidad_ml
                            peso_bruto notas ahora])
       nuevo.

(** [SELECT ... FROM productos WHERE nombre = ?] with [fetchone]. *)
Definition producto_por_nombre (db : DB) (n : string)
  : option productos.fila :=
  find (fun p => String.eqb (productos.nombre p) n) (t_productos db).

(** [SELECT ... FROM productos WHERE id = ?] with [fetchone]. *)
Definition producto_por_id (db : DB) (i : Z) : option productos.fila :=
  find (fun p => Z.eqb (productos.id p) i) (t_productos db).

(** [ORDER BY nombre]: insertion by the byte order of the names. *)
Fixpoint insertar_ordenado (p : productos.fila) (l : list productos.fila)
  : list productos.fila :=
  match l with
  | [] => [p]
  | q :: l' =>
      if String.leb (productos.nombre p) (productos.nombre q)
      then p :: l
      else q :: insertar_ordenado p l'
  end.

Definition ORDER_BY_nombre (l : list productos.fila) : list productos.fila :=
  fold_right insertar_ordenado [] l.

(** ** Aggregation ([actualizar_inventario], [get_productos]) *)

(** The subquery of the desktop listing:
    [(SELECT SUM(cantidad_ml) FROM movimientos WHERE producto_id = p.id)]. *)
Definition total_ml (db : DB) (pid : Z) : option Q :=
  SUM (map movimientos.cantidad_ml (movimientos_de db pid)).

(** The subquery of [GET /api/productos]:
    [COALESCE((SELECT SUM(CASE WHEN tipo = 'entrada' THEN cantidad_ml
    ELSE -cantidad_ml END) FROM movimientos WHERE producto_id = p.id), 0)]. *)
Definition caso_api (m : movimientos.fila) : Q :=
  if String.eqb (movimientos.tipo m) "entrada"
  then movimientos.cantidad_ml m
  else - movimientos.cantidad_ml m.

Definition total_ml_api (db : DB) (pid : Z) : Q :=
  COALESCE (SUM (map caso_api (movimientos_de db pid))) 0.

Inductive Estado : Type := SinDatos | Bajo | OK.

Record FilaInventario : Type := mkFilaInventario {
  f_nombre : string;
  f_marca : string;
  f_tipo : string;
  f_disponible : option Q;      (* None is the text "No registrado" *)
  f_botellas : Z;
  f_activo : bool;              (* "Activo" / "Inactivo" *)
  f_estado : Estado             (* the row's tag *)
}.

(** The body of the loop of [actualizar_inventario] for one result row,
    over exact rationals ([B64.fila_inventario] is the one over
    binary64).  [None] is the exception of subscripting the missing
    result of [cap_query]. *)
Definition fila_inventario (db : DB) (p : productos.fila)
  : option FilaInventario :=
  let activo := negb (Z.eqb (productos.activo p) 0) in
  match total_ml db (productos.id p) with
  | None =>
      Some (mkFilaInventario (productos.nombre p) (productos.marca p)
              (productos.tipo p) None (productos.botellas_completas p)
              activo SinDatos)
  | Some total =>
      match producto_por_id db (productos.id p) with
      | None => None
      | Some fila_cap =>
          let capacidad := productos.capacidad_ml fila_cap in
          let estado :=
            if Qltb total (capacidad * (2 # 10)) then Bajo else OK in
          Some (mkFilaInventario (productos.nombre p) (productos.marca p)
                  (productos.tipo p) (Some total)
                  (productos.botellas_completas p) activo estado)
      end
  end.

(** The rows the listing query returns for the session. *)
Definition productos_visibles (s : Sesion) (db : DB) : list productos.fila :=
  if String.eqb (user_role s) "admin"
  then ORDER_BY_nombre (t_productos db)
  else
    ORDER_BY_nombre
      (filter (fun p =>
                 match local_id s with
                 | Some l => Z.eqb (productos.local_id p) l
                 | None => false
                 end) (t_productos db)).

Fixpoint filas_inventario (db : DB) (l : list productos.fila)
  : option (list FilaInventario) :=
  match l with
  | [] => Some []
  | p :: l' =>
      match fila_inventario db p with
      | None => None
      | Some f =>
          match filas_inventario db l' with
          | None => None
          | Some fs => Some (f :: fs)
          end
      end
  end.

Record Resumen : Type := mkResumen {
  total_productos : Z;
  total_botellas : Z;
  bajos_inventario : Z
}.

Definition es_bajo (f : FilaInventario) : bool :=
  match f_estado f with Bajo => true | _ => false end.

Definition resumen_de (fs : list FilaInventario) : Resumen :=
  mkResumen (Z.of_nat (List.length fs))
            (fold_left (fun acc f => (acc + f_botellas f)%Z) fs 0%Z)
            (Z.of_nat (List.length (filter es_bajo fs))).

(** [actualizar_inventario]: the contents of the tree and the summary
    labels.  It reads the store and never writes it. *)
Definition actualizar_inventario (s : Sesion) (db : DB)
  : option (list FilaInventario * Resumen) :=
  match filas_inventario db (productos_visibles s db) with
  | None => None
  | Some fs => Some (fs, resumen_de fs)
  end.

(** [GET /api/productos?local_id=...]: the active products, by name, each
    with its computed [total_ml]. *)
Definition get_productos (arg_local_id : option Z) (db : DB)
  : list (productos.fila * Q) :=
  let activos :=
    match arg_local_id with
    | Some l =>
        filter (fun p => Z.eqb (productos.local_id p) l
                         && Z.eqb (productos.activo p) 1) (t_productos db)
    | None =>
        filter (fun p => Z.eqb (productos.activo p) 1) (t_productos db)
    end in
  map (fun p => (p, total_ml_api db (productos.id p)))
      (ORDER_BY_nombre activos).

(** The level of section 3 of the specification, written from its words:
    the sum over the movements of the product of [+qty] for an inflow,
    [-qty] for an outflow and [+qty] for an adjustment. *)
Definition contribucion_spec (m : movimientos.fila) : Q :=
  if String.eqb (movimientos.tipo m) "entrada" then movimientos.cantidad_ml m
  else if String.eqb (movimientos.tipo m) "salida"
       then - movimientos.cantidad_ml m
  else if String.eqb (movimientos.tipo m) "ajuste"
       then movimientos.cantidad_ml m
  else 0.

Definition current_level_spec (db : DB) (pid : Z) : Q :=
  suma (map contribucion_spec (movimientos_de db pid)).

Definition tipo_valido (t : string) : Prop :=
  t = "entrada"%string \/ t = "salida"%string \/ t = "ajuste"%string.

(** ** The desktop handlers *)

Inductive Aviso : Type :=
| SeleccioneProducto        (* "Seleccione un producto primero" *)
| PesoInvalido              (* "Ingrese un peso valido" *)
| ProductoNoEncontrado      (* "Producto no encontrado" *)
| SinBotellas               (* "No hay botellas completas para quitar" *)
| SeleccioneLocal           (* "Seleccione un local primero" *)
| LocalConProductos         (* "... tiene productos asociados" *)
| LocalConUsuarios.         (* "... tiene usuarios asociados" *)

Inductive Resultado : Type :=
| Error (a : Aviso)                          (* showerror, then return *)
| Cancelado                                  (* the dialog was answered no *)
| Excepcion                                  (* an uncaught exception *)
| Registrado (volumen_ml : Q) (tipo : string) (* showinfo of registrar_peso *)
| Exito.                                     (* showinfo of the others *)

(** [SELECT cantidad_ml FROM movimientos WHERE producto_id = ?
    ORDER BY fecha DESC LIMIT 1].  Among rows of equal [fecha] SQL leaves
    the choice open; the model keeps the earliest row. *)
Definition mas_reciente (best : option movimientos.fila)
    (m : movimientos.fila) : option movimientos.fila :=
  match best with
  | None => Some m
  | Some b =>
      if (movimientos.fecha b <? movimientos.fecha m)%Z
      then Some m else Some b
  end.

Definition ultimo_query (db : DB) (pid : Z) : option Q :=
  option_map movimientos.cantidad_ml
    (fold_left mas_reciente (movimientos_de db pid) None).

(** "Determinar tipo de movimiento", over exact rationals
    ([B64.determinar_tipo] is the one over binary64): [None] is the
    [return] taken when the warning dialog is declined. *)
Definition determinar_tipo (volumen_ml : Q) (confirma : bool)
    (ultimo_ml : option Q) : option string :=
  if Qltb volumen_ml 0 then
    if confirma then Some "ajuste"%string else None
  else
    match ultimo_ml with
    | Some ultimo =>
        let diferencia := volumen_ml - ultimo in
        Some (if Qltb 0 diferencia then "entrada" else "salida")%string
    | None => Some "entrada"%string
    end.

(** [registrar_peso].  [seleccion] is the selected row of the inventory
    tree, [entry_peso] the parsed entry ([None] when [float] raises
    ValueError), [confirma] the answer to the warning dialog.  Dividing by
    a zero density raises ZeroDivisionError. *)
Definition registrar_peso (seleccion : option FilaInventario)
    (entry_peso : option Q) (confirma : bool) (ahora : Z)
    (s : Sesion) (db : DB) : Resultado * DB :=
  match seleccion with
  | None => (Error SeleccioneProducto, db)
  | Some item =>
  match entry_peso with
  | None => (Error PesoInvalido, db)
  | Some peso_total =>
  match producto_por_nombre db (f_nombre item) with
  | None => (Error ProductoNoEncontrado, db)
  | Some producto =>
      let id_prod := productos.id producto in
      let densidad := productos.densidad producto in
      let peso_envase := productos.peso_envase producto in
      let peso_licor := peso_total - peso_envase in
      if Qeq_bool densidad 0 then (Excepcion, db) else
      let volumen_ml := peso_licor / densidad in
      match determinar_tipo volumen_ml confirma (ultimo_query db id_prod) with
      | None => (Cancelado, db)
      | Some tipo =>
          (Registrado volumen_ml tipo,
           insertar_movimiento ahora id_prod (user_id s) tipo volumen_ml
             (Some peso_total) (Some (RegistroManual peso_total)) db)
      end
  end end end.

(** [UPDATE productos SET botellas_completas = botellas_completas + d
    WHERE id = ?] *)
Definition actualizar_botellas (d : Z) (id_prod : Z) (db : DB) : DB :=
  mkDB (t_locales db) (t_usuarios db)
       (map (fun p => if Z.eqb (productos.id p) id_prod
                      then productos.set_botellas d p else p)
            (t_productos db))
       (t_movimientos db) (seq_movimientos db).

(** [agregar_botella_completa] *)
Definition agregar_botella_completa (seleccion : option FilaInventario)
    (ahora : Z) (s : Sesion) (db : DB) : Resultado * DB :=
  match seleccion with
  | None => (Error SeleccioneProducto, db)
  | Some item =>
  match producto_por_nombre db (f_nombre item) with
  | None => (Error ProductoNoEncontrado, db)
  | Some producto =>
      let id_prod := productos.id producto in
      let capacidad := productos.capacidad_ml producto in
      let db1 := actualizar_botellas 1 id_prod db in
      (Exito,
       insertar_movimiento ahora id_prod (user_id s) "entrada" capacidad
         None (Some (Texto "Botella completa agregada")) db1)
  end end.

(** [quitar_botella_completa]: the guard reads the count shown in the
    selected row. *)
Definition quitar_botella_completa (seleccion : option FilaInventario)
    (ahora : Z) (s : Sesion) (db : DB) : Resultado * DB :=
  match seleccion with
  | None => (Error SeleccioneProducto, db)
  | Some item =>
  let botellas := f_botellas item in
  if (botellas <=? 0)%Z then (Error SinBotellas, db) else
  match producto_por_nombre db (f_nombre item) with
  | None => (Error ProductoNoEncontrado, db)
  | Some producto =>
      let id_prod := productos.id producto in
      let capacidad := productos.capacidad_ml producto in
      let db1 := actualizar_botellas (-1) id_prod db in
      (Exito,
       insertar_movimiento ahora id_prod (user_id s) "salida" capacidad
         None (Some (Texto "Botella completa retirada")) db1)
  end end.

(** [eliminar_local].  The selected row of the locations tree carries the
    id and the name; [confirmacion] is the answer to the dialog. *)
Definition productos_del_local (db : DB) (id_local : Z) : nat :=
  List.length (filter (fun p => Z.eqb (productos.local_id p) id_local)
                      (t_productos db)).

Definition usuarios_del_local (db : DB) (id_local : Z) : nat :=
  List.length
    (filter (fun u => match usuarios.local_id u with
                      | Some l => Z.eqb l id_local
                      | None => false
                      end) (t_usuarios db)).

Definition borrar_local (id_local : Z) (db : DB) : DB :=
  mkDB (filter (fun l => negb (Z.eqb (locales.id l) id_local)) (t_locales db))
       (t_usuarios db) (t_productos db) (t_movimientos db)
       (seq_movimientos db).

Definition eliminar_local (seleccion : option (Z * string))
    (confirmacion : bool) (db : DB) : Resultado * DB :=
  match seleccion with
  | None => (Error SeleccioneLocal, db)
  | Some (id_local, _) =>
      if (0 <? productos_del_local db id_local)%nat
      then (Error LocalConProductos, db)
      else if (0 <? usuarios_del_local db id_local)%nat
      then (Error LocalConUsuarios, db)
      else if negb confirmacion then (Cancelado, db)
      else (Exito, borrar_local id_local db)
  end.

(** ** The REST handlers *)

(** The two values of [POST /api/login] once they are bound, for a body
    that holds a text or a null under each key; [None] is a JSON null.
    [api_login] below starts from the request body. *)
Record LoginJson : Type := mkLoginJson {
  l_username : option string;
  l_password : option string
}.

Inductive CuerpoLogin : Type :=
| UsuarioJson (id : Z) (nombre rol : string) (local_id : option Z)
| ErrorJson (error : string).

(** [WHERE username = ? AND password = ? AND activo = 1]: a comparison
    with NULL selects nothing. *)
Definition credenciales_coinciden (data : LoginJson) (u : usuarios.fila)
  : bool :=
  match l_username data, l_password data with
  | Some usr, Some pwd =>
      String.eqb (usuarios.username u) usr
      && String.eqb (usuarios.password u) pwd
      && Z.eqb (usuarios.activo u) 1
  | _, _ => false
  end.

Definition rechazo : CuerpoLogin * Z :=
  (ErrorJson "Credenciales inválidas", 401%Z).

Definition login (data : LoginJson) (db : DB) : CuerpoLogin * Z :=
  match find (credenciales_coinciden data) (t_usuarios db) with
  | Some usuario =>
      (UsuarioJson (usuarios.id usuario) (usuarios.nombre usuario)
                   (usuarios.rol usuario) (usuarios.local_id usuario),
       200%Z)
  | None => rechazo
  end.

(** The six values of [POST /api/movimientos] once they are bound, for a
    body that has the four keys the handler subscripts and holds each
    value at the type of its column or null (an id being within 64
    bits); [None] is a JSON null.  [m_peso_bruto] is
    [data.get('peso_bruto')] (absent and null coincide); for [m_notas]
    the outer [None] is an absent key, which [data.get('notas', '')]
    turns into the empty text.  [api_movimientos_post] below starts from
    the request body. *)
Record MovimientoJson : Type := mkMovimientoJson {
  m_producto_id : option Z;
  m_user_id : option Z;
  m_tipo : option string;
  m_cantidad_ml : option Q;
  m_peso_bruto : option Q;
  m_notas : option (option string)
}.

Inductive RespuestaPost : Type :=
| Creado        (* {"status": "success"}, 201 *)
| Error500.     (* an uncaught exception, as IntegrityError: NOT NULL
                   constraint failed *)

Definition notas_de (n : option (option string)) : option Notas :=
  match n with
  | None => Some (Texto EmptyString)
  | Some None => None
  | Some (Some t) => Some (Texto t)
  end.

(** The INSERT of [movimientos] for the POST method, on bound values.
    [producto_id], [user_id], [tipo] and [cantidad_ml] are declared NOT
    NULL in [create_tables]; foreign keys are declared but the
    connection never enables their enforcement. *)
Definition movimientos_post (data : MovimientoJson) (ahora : Z) (db : DB)
  : RespuestaPost * DB :=
  match m_producto_id data, m_user_id data, m_tipo data,
        m_cantidad_ml data with
  | Some producto_id, Some user_id, Some tipo, Some cantidad_ml =>
      (Creado,
       insertar_movimiento ahora producto_id user_id tipo cantidad_ml
         (m_peso_bruto data) (notas_de (m_notas data)) db)
  | _, _, _, _ => (Error500, db)
  end.

(** ** Integrity constraints of the schema *)

(** PRIMARY KEY: no two rows of a table have the same id. *)
Fixpoint sin_repetidos (l : list Z) : bool :=
  match l with
  | [] => true
  | x :: l' => negb (existsb (Z.eqb x) l') && sin_repetidos l'
  end.

Definition clave_primaria_productos (db : DB) : bool :=
  sin_repetidos (map productos.id (t_productos db)).

Definition clave_primaria_locales (db : DB) : bool :=
  sin_repetidos (map locales.id (t_locales db)).

(** The counter of the product with a given id. *)
Definition botellas_de (db : DB) (i : Z) : option Z :=
  option_map productos.botellas_completas (producto_por_id db i).

(** ** Stores used as concrete inputs *)

Definition ron (i : Z) (botellas : Z) (minimo : Q) : productos.fila :=
  productos.Fila i 1 "Ron" "Bacardi" "Ron" (94 # 100) 1000 300 1 botellas
                 minimo 0.

Definition admin : Sesion := mkSesion 1 "admin" (Some 1%Z).

Definition mov (i : Z) (t : string) (q : Q) (f : Z) : movimientos.fila :=
  movimientos.Fila i 1 1 t q None None f.

(** One product and no movement. *)
Definition db_vacia : DB := mkDB [] [] [ron 1 0 (2 # 10)] [] 0.

(** One product whose only movement is an outflow of 100 ml. *)
Definition db_salida : DB :=
  mkDB [] [] [ron 1 0 (2 # 10)] [mov 1 "salida" 100 10] 1.

(** One product whose last reading is 200 ml. *)
Definition db_lectura : DB :=
  mkDB [] [] [ron 1 0 (2 # 10)] [mov 1 "entrada" 200 10] 1.

(** Two products of the same name, in two locations. *)
Definition ron_local_2 : productos.fila :=
  productos.Fila 2 2 "Ron" "Bacardi" "Ron" (94 # 100) 1000 300 1 1
                 (2 # 10) 0.

Definition db_homonimos : DB :=
  mkDB [] [] [ron 1 0 (2 # 10); ron_local_2] [] 0.

(** What the login compares, in the words of the claim: the submitted
    username and password equal those of the row, and the row is active. *)
Definition coincide (data : LoginJson) (u : usuarios.fila) : Prop :=
  l_username data = Some (usuarios.username u) /\
  l_password data = Some (usuarios.password u) /\
  usuarios.activo u = 1%Z.

(** [WHERE tipo = ?] and the column of quantities. *)
Definition es_tipo (t : string) (m : movimientos.fila) : bool :=
  String.eqb (movimientos.tipo m) t.

Definition cantidades (l : list movimientos.fila) : list Q :=
  map movimientos.cantidad_ml l.

(** Two locations; the first has the administrator's product. *)
Definition db_locales : DB :=
  mkDB [locales.Fila 1 "Local Principal" None None 1;
        locales.Fila 2 "Sucursal" None None 1]
       [usuarios.Fila 1 "admin" "admin123" "Administrador" "admin" None 1]
       [ron 1 0 (2 # 10)] [] 0.

(** From the store with one product and no movement: a complete bottle is
    added from the listed row, the listing is refreshed, and the bottle is
    removed again from the refreshed row. *)
Definition tras_agregar_y_quitar : option DB :=
  match fila_inventario db_vacia (ron 1 0 (2 # 10)) with
  | None => None
  | Some f0 =>
      let db1 := snd (agregar_botella_completa (Some f0) 20 admin db_vacia) in
      match producto_por_id db1 1 with
      | None => None
      | Some p1 =>
          match fila_inventario db1 p1 with
          | None => None
          | Some f1 =>
              Some (snd (quitar_botella_completa (Some f1) 30 admin db1))
          end
      end
  end.

(** ** The remaining handlers *)

(** What a form handler does: it refuses with a notice, it is called
    off in a dialog, it dies of an uncaught exception, or it succeeds. *)
Inductive Salida (E : Type) : Type :=
| Rechazado (e : E)
| Anulado
| Fallo
| Hecho.

Arguments Rechazado {E} e.
Arguments Anulado {E}.
Arguments Fallo {E}.
Arguments Hecho {E}.

(** [ORDER BY]: insertion into a list ordered by [le], from the last row
    of the result to the first, so that rows that compare equal keep
    their order. *)
Fixpoint insertar_por {A : Type} (le : A -> A -> bool) (x : A) (l : list A)
  : list A :=
  match l with
  | [] => [x]
  | y :: l' => if le x y then x :: l else y :: insertar_por le x l'
  end.

Definition ordenar_por {A : Type} (le : A -> A -> bool) (l : list A)
  : list A :=
  fold_right (insertar_por le) [] l.

(** [LIMIT n]: a negative [n] is no limit. *)
Definition LIMIT {A : Type} (n : Z) (l : list A) : list A :=
  if (n <? 0)%Z then l else firstn (Z.to_nat n) l.

(** *** [eliminar_producto] and [eliminar_usuario] *)

Inductive AvisoBorrado : Type :=
| SeleccioneProductoLista   (* "Seleccione un producto primero" *)
| SeleccioneUsuario         (* "Seleccione un usuario primero" *)
| NoEliminarseASiMismo.     (* "No puede eliminarse a si mismo" *)

(** [DELETE FROM movimientos WHERE producto_id = ?] *)
Definition borrar_movimientos_de_producto (id_producto : Z) (db : DB) : DB :=
  mkDB (t_locales db) (t_usuarios db) (t_productos db)
       (filter (fun m => negb (Z.eqb (movimientos.producto_id m) id_producto))
               (t_movimientos db))
       (seq_movimientos db).

(** [DELETE FROM productos WHERE id = ?] *)
Definition borrar_producto (id_producto : Z) (db : DB) : DB :=
  mkDB (t_locales db) (t_usuarios db)
       (filter (fun p => negb (Z.eqb (productos.id p) id_producto))
               (t_productos db))
       (t_movimientos db) (seq_movimientos db).

(** [eliminar_producto]: the selected row of the products tree carries
    the id and the name. *)
Definition eliminar_producto (seleccion : option (Z * string))
    (confirmacion : bool) (db : DB) : Salida AvisoBorrado * DB :=
  match seleccion with
  | None => (Rechazado SeleccioneProductoLista, db)
  | Some (id_producto, _) =>
      if negb confirmacion then (Anulado, db)
      else
        (Hecho,
         borrar_producto id_producto
           (borrar_movimientos_de_producto id_producto db))
  end.

(** [DELETE FROM movimientos WHERE user_id = ?] *)
Definition borrar_movimientos_de_usuario (id_usuario : Z) (db : DB) : DB :=
  mkDB (t_locales db) (t_usuarios db) (t_productos db)
       (filter (fun m => negb (Z.eqb (movimientos.user_id m) id_usuario))
               (t_movimientos db))
       (seq_movimientos db).

(** [DELETE FROM usuarios WHERE id = ?] *)
Definition borrar_usuario (id_usuario : Z) (db : DB) : DB :=
  mkDB (t_locales db)
       (filter (fun u => negb (Z.eqb (usuarios.id u) id_usuario))
               (t_usuarios db))
       (t_productos db) (t_movimientos db) (seq_movimientos db).

(** [eliminar_usuario]: the selected row of the users tree carries the id
    and the username. *)
Definition eliminar_usuario (seleccion : option (Z * string))
    (confirmacion : bool) (s : Sesion) (db : DB)
  : Salida AvisoBorrado * DB :=
  match seleccion with
  | None => (Rechazado SeleccioneUsuario, db)
  | Some (id_usuario, _) =>
      if Z.eqb id_usuario (user_id s)
      then (Rechazado NoEliminarseASiMismo, db)
      else if negb confirmacion then (Anulado, db)
      else
        (Hecho,
         borrar_usuario id_usuario
           (borrar_movimientos_de_usuario id_usuario db))
  end.

(** *** [GET /api/movimientos] and [cargar_movimientos_recientes] *)

(** [FROM movimientos m JOIN productos p ON m.producto_id = p.id
    JOIN usuarios u ON m.user_id = u.id] *)
Definition JOIN_movimientos (db : DB)
  : list (movimientos.fila * productos.fila * usuarios.fila) :=
  flat_map
    (fun m =>
       flat_map
         (fun p =>
            map (fun u => (m, p, u))
                (filter (fun u => Z.eqb (movimientos.user_id m)
                                        (usuarios.id u))
                        (t_usuarios db)))
         (filter (fun p => Z.eqb (movimientos.producto_id m) (productos.id p))
                 (t_productos db)))
    (t_movimientos db).

Definition fecha_de (r : movimientos.fila * productos.fila * usuarios.fila)
  : Z :=
  movimientos.fecha (fst (fst r)).

(** [ORDER BY m.fecha DESC] *)
Definition ORDER_BY_fecha_DESC
    (l : list (movimientos.fila * productos.fila * usuarios.fila))
  : list (movimientos.fila * productos.fila * usuarios.fila) :=
  ordenar_por (fun a b => (fecha_de b <=? fecha_de a)%Z) l.

(** One object of the endpoint's answer: [m.*], [producto_nombre] and
    [usuario_nombre]. *)
Record MovimientoJoin : Type := mkMovimientoJoin {
  mj_movimiento : movimientos.fila;
  mj_producto_nombre : string;
  mj_usuario_nombre : string
}.

Definition objeto_de (r : movimientos.fila * productos.fila * usuarios.fila)
  : MovimientoJoin :=
  mkMovimientoJoin (fst (fst r)) (productos.nombre (snd (fst r)))
                   (usuarios.nombre (snd r)).

(** [movimientos] for the GET method: [arg_producto_id] is the query
    argument when present, [limit] the (default 50) limit. *)
Definition movimientos_get (arg_producto_id : option Z) (limit : Z) (db : DB)
  : list MovimientoJoin :=
  let filas :=
    match arg_producto_id with
    | Some producto_id =>
        filter (fun r => Z.eqb (movimientos.producto_id (fst (fst r)))
                               producto_id)
               (JOIN_movimientos db)
    | None => JOIN_movimientos db
    end in
  map objeto_de (LIMIT limit (ORDER_BY_fecha_DESC filas)).

(** One row of the movements tree: fecha, product, kind, quantity,
    notes, user. *)
Definition fila_movimiento
    (r : movimientos.fila * productos.fila * usuarios.fila)
  : Z * string * string * Q * option Notas * string :=
  let m := fst (fst r) in
  (movimientos.fecha m, productos.nombre (snd (fst r)), movimientos.tipo m,
   movimientos.cantidad_ml m, movimientos.notas m, usuarios.nombre (snd r)).

(** [cargar_movimientos_recientes] *)
Definition cargar_movimientos_recientes (s : Sesion) (db : DB)
  : list (Z * string * string * Q * option Notas * string) :=
  let filas :=
    if String.eqb (user_role s) "admin" then JOIN_movimientos db
    else
      filter (fun r =>
                match local_id s with
                | Some l => Z.eqb (productos.local_id (snd (fst r))) l
                | None => false
                end) (JOIN_movimientos db) in
  map fila_movimiento (LIMIT 50 (ORDER_BY_fecha_DESC filas)).

(** *** [LoginWindow] *)

Definition string_of_Z (z : Z) : string :=
  NilZero.string_of_int (Z.to_int z).

(** The key of a location in the combobox: [f"{nombre} (ID: {id})"]. *)
Definition etiqueta (nombre : string) (id : Z) : string :=
  (nombre ++ " (ID: " ++ string_of_Z id ++ ")")%string.

(** [cargar_locales]: the dictionary [locales_data], in insertion order. *)
Definition cargar_locales (db : DB) : list (string * Z) :=
  map (fun l => (etiqueta (locales.nombre l) (locales.id l), locales.id l))
      (ordenar_por
         (fun a b => String.leb (locales.nombre a) (locales.nombre b))
         (filter (fun l => Z.eqb (locales.activo l) 1) (t_locales db))).

(** Subscripting a dictionary: the value stored last under the key. *)
Definition dict_get (k : string) (d : list (string * Z)) : option Z :=
  option_map snd (find (fun kv => String.eqb (fst kv) k) (rev d)).

Definition vacio (t : string) : bool :=
  match t with EmptyString => true | _ => false end.

Inductive ResultadoLogin : Type :=
| CamposObligatorios      (* "Todos los campos son obligatorios" *)
| LocalInvalido           (* "Seleccione un local valido" *)
| CredencialesIncorrectas (* "Credenciales incorrectas o no tiene acceso" *)
| SinLocal                (* InventarioApp.__init__ finds no such location *)
| Abre (s : Sesion) (user_name local_nombre : string).

(** [WHERE username = ? AND password = ? AND (local_id = ? OR rol =
    'admin') AND activo = 1] *)
Definition acceso_al_local (username password : string) (id_local : Z)
    (u : usuarios.fila) : bool :=
  String.eqb (usuarios.username u) username
  && String.eqb (usuarios.password u) password
  && ((match usuarios.local_id u with
       | Some l => Z.eqb l id_local
       | None => false
       end)
      || String.eqb (usuarios.rol u) "admin")
  && Z.eqb (usuarios.activo u) 1.

(** [validar_login], followed by the start of [InventarioApp.__init__]
    (which reads the name of the location).  [username] and [password]
    are the entries after [strip]; [local_str] is the text of the
    combobox. *)
Definition validar_login (locales_data : list (string * Z))
    (username password local_str : string) (db : DB) : ResultadoLogin :=
  if vacio username || vacio password || vacio local_str
  then CamposObligatorios
  else
    match dict_get local_str locales_data with
    | None => LocalInvalido
    | Some id_local =>
        match find (acceso_al_local username password id_local)
                   (t_usuarios db) with
        | None => CredencialesIncorrectas
        | Some usuario =>
            match find (fun l => Z.eqb (locales.id l) id_local)
                       (t_locales db) with
            | None => SinLocal
            | Some l =>
                Abre (mkSesion (usuarios.id usuario) (usuarios.rol usuario)
                               (Some id_local))
                     (usuarios.nombre usuario) (locales.nombre l)
            end
        end
    end.

(** *** Handlers that insert into the other tables *)

(** The store together with the [sqlite_sequence] entries of [locales],
    [usuarios] and [productos]. *)
Record Almacen : Type := mkAlmacen {
  datos : DB;
  seq_locales : Z;
  seq_usuarios : Z;
  seq_productos : Z
}.

(** The empty tables that [create_tables] makes in a new file. *)
Definition almacen_nuevo : Almacen := mkAlmacen (mkDB [] [] [] [] 0) 0 0 0.

(** [LicorDB.create_admin_user] *)
Definition create_admin_user (a : Almacen) : Almacen :=
  let db := datos a in
  match find (fun u => String.eqb (usuarios.username u) "admin")
             (t_usuarios db) with
  | Some _ => a
  | None =>
      let nuevo_usuario := (seq_usuarios a + 1)%Z in
      match find (fun l => String.eqb (locales.nombre l) "Local Principal")
                 (t_locales db) with
      | None =>
          let local_id := (seq_locales a + 1)%Z in
          mkAlmacen
            (mkDB (t_locales db ++
                     [locales.Fila local_id "Local Principal" None None 1])
                  (t_usuarios db ++
                     [usuarios.Fila nuevo_usuario "admin" "admin123"
                                    "Administrador" "admin" (Some local_id) 1])
                  (t_productos db) (t_movimientos db) (seq_movimientos db))
            local_id nuevo_usuario (seq_productos a)
      | Some local =>
          let local_id := locales.id local in
          mkAlmacen
            (mkDB (t_locales db)
                  (t_usuarios db ++
                     [usuarios.Fila nuevo_usuario "admin" "admin123"
                                    "Administrador" "admin" (Some local_id) 1])
                  (t_productos db) (t_movimientos db) (seq_movimientos db))
            (seq_locales a) nuevo_usuario (seq_productos a)
      end
  end.

Inductive Motivo : Type :=
| NoNumerico               (* ValueError of [float] *)
| DensidadFueraDeRango     (* "Densidad debe estar entre 0 y 2 g/ml" *)
| CapacidadNoPositiva      (* "La capacidad debe ser mayor que cero" *)
| PesoEnvaseNoPositivo     (* "El peso del envase debe ser mayor que cero" *)
| MinimoFueraDeRango.      (* "El minimo de inventario debe estar ..." *)

Inductive AvisoFormulario : Type :=
| LocalNoAsignado          (* "No se ha asignado un local valido" *)
| DatosInvalidos (m : Motivo)
| CamposDeUsuarioObligatorios
| LocalNoValido.           (* "Seleccione un local valido" *)

Definition con_usuarios (us : list usuarios.fila) (db : DB) : DB :=
  mkDB (t_locales db) us (t_productos db) (t_movimientos db)
       (seq_movimientos db).

(** [cargar_locales_usuarios]: the dictionary of the users form. *)
Definition cargar_locales_usuarios (db : DB) : list (string * Z) :=
  map (fun l => (etiqueta (locales.nombre l) (locales.id l), locales.id l))
      (ordenar_por
         (fun a b => String.leb (locales.nombre a) (locales.nombre b))
         (t_locales db)).

Definition editar_usuario (username password nombre rol : string)
    (local_id : option Z) (activo : Z) (u : usuarios.fila) : usuarios.fila :=
  usuarios.Fila (usuarios.id u) username password nombre rol local_id activo.

(** [guardar_usuario].  The first three texts are the entries after
    [strip]; [activo] says whether the combobox reads 'Activo';
    [seleccion] is the id in the selected row of the users tree.  The
    UNIQUE constraint on [username] makes the statement raise
    IntegrityError, which nothing catches. *)
Definition guardar_usuario (locales_usuarios_data : list (string * Z))
    (username password nombre rol local_str : string) (activo : bool)
    (seleccion : option Z) (a : Almacen)
  : Salida AvisoFormulario * Almacen :=
  if vacio username || vacio password || vacio nombre || vacio rol
  then (Rechazado CamposDeUsuarioObligatorios, a)
  else
    let local :=
      if vacio local_str then Some None
      else option_map Some (dict_get local_str locales_usuarios_data) in
    match local with
    | None => (Rechazado LocalNoValido, a)
    | Some local_id =>
        let activo := if activo then 1%Z else 0%Z in
        let us := t_usuarios (datos a) in
        match seleccion with
        | Some id_usuario =>
            if existsb (fun u => Z.eqb (usuarios.id u) id_usuario) us
               && existsb (fun u => negb (Z.eqb (usuarios.id u) id_usuario)
                                    && String.eqb (usuarios.username u)
                                                  username) us
            then (Fallo, a)
            else
              (Hecho,
               mkAlmacen
                 (con_usuarios
                    (map (fun u =>
                            if Z.eqb (usuarios.id u) id_usuario
                            then editar_usuario username password nombre rol
                                                local_id activo u
                            else u) us)
                    (datos a))
                 (seq_locales a) (seq_usuarios a) (seq_productos a))
        | None =>
            if existsb (fun u => String.eqb (usuarios.username u) username) us
            then (Fallo, a)
            else
              let nuevo := (seq_usuarios a + 1)%Z in
              (Hecho,
               mkAlmacen
                 (con_usuarios
                    (us ++ [usuarios.Fila nuevo username password nombre rol
                                          local_id activo])
                    (datos a))
                 (seq_locales a) nuevo (seq_productos a))
        end
    end.

(** ** Invariants of the store *)

(** No two rows of [usuarios] have the same [username] (UNIQUE). *)
Fixpoint sin_textos_repetidos (l : list string) : bool :=
  match l with
  | [] => true
  | x :: l' => negb (existsb (String.eqb x) l') && sin_textos_repetidos l'
  end.

Definition usernames_unicos (db : DB) : bool :=
  sin_textos_repetidos (map usuarios.username (t_usuarios db)).

(** The ids of [movimientos] are distinct and none is above the
    [sqlite_sequence] entry. *)
Definition ids_movimientos_ok (db : DB) : bool :=
  sin_repetidos (map movimientos.id (t_movimientos db))
  && forallb (fun m => (movimientos.id m <=? seq_movimientos db)%Z)
             (t_movimientos db).

(** Every movement refers to a stored product and to a stored user. *)
Definition sin_huerfanos (db : DB) : bool :=
  forallb (fun m =>
             existsb (fun p => Z.eqb (productos.id p)
                                     (movimientos.producto_id m))
                     (t_productos db)
             && existsb (fun u => Z.eqb (usuarios.id u)
                                        (movimientos.user_id m))
                        (t_usuarios db))
          (t_movimientos db).

(** Every product and every user with a location refer to a stored
    location. *)
Definition locales_referidos_existen (db : DB) : bool :=
  forallb (fun p => existsb (fun l => Z.eqb (locales.id l)
                                            (productos.local_id p))
                            (t_locales db))
          (t_productos db)
  && forallb (fun u => match usuarios.local_id u with
                       | Some i => existsb (fun l => Z.eqb (locales.id l) i)
                                           (t_locales db)
                       | None => true
                       end)
             (t_usuarios db).

(** The ranges that the products form enforces. *)
Definition rangos_validos (p : productos.fila) : Prop :=
  0 < productos.densidad p /\ productos.densidad p <= 2 /\
  0 < productos.capacidad_ml p /\
  0 < productos.peso_envase p /\
  0 < productos.minimo_inventario p /\ productos.minimo_inventario p <= 1.

(** Stores used as concrete inputs for the remaining handlers. *)
Definition empleado : usuarios.fila :=
  usuarios.Fila 2 "ana" "clave" "Ana" "empleado" (Some 2%Z) 1.

Definition db_bar : DB :=
  mkDB [locales.Fila 1 "Local Principal" None None 1;
        locales.Fila 2 "Sucursal" None None 1]
       [usuarios.Fila 1 "admin" "admin123" "Administrador" "admin"
                      (Some 1%Z) 1;
        empleado]
       [ron 1 0 (2 # 10); ron_local_2]
       [mov 1 "entrada" 200 10;
        movimientos.Fila 2 2 2 "entrada" 500 None None 20;
        movimientos.Fila 3 1 2 "salida" 50 None None 30]
       3.

(** The products that the session may see: all of them for an
    administrator, those of the session's location for the others. *)
Definition en_alcance (s : Sesion) (p : productos.fila) : bool :=
  String.eqb (user_role s) "admin"
  || match local_id s with
     | Some l => Z.eqb (productos.local_id p) l
     | None => false
     end.

Definition por_nombre (a b : string) : Prop := String.leb a b = true.

Definition mas_reciente_primero (a b : Z) : Prop := (b <= a)%Z.

(** A step of the store that leaves the locations and the users as they
    were and keeps every movement, with at most one more after them. *)
Definition solo_agrega (db db' : DB) : Prop :=
  t_locales db' = t_locales db /\
  t_usuarios db' = t_usuarios db /\
  exists nuevos,
    t_movimientos db' = t_movimientos db ++ nuevos /\
    (List.length nuevos <= 1)%nat.

Definition clave_primaria_usuarios (db : DB) : bool :=
  sin_repetidos (map usuarios.id (t_usuarios db)).

(** The object that the endpoint answers for a movement just posted for
    a stored product and a stored user. *)
Definition objeto_nuevo (db : DB) (ahora : Z) (p : productos.fila)
    (u : usuarios.fila) (tipo : string) (cantidad_ml : Q)
    (peso_bruto : option Q) (notas : option (option string))
  : MovimientoJoin :=
  mkMovimientoJoin
    (movimientos.Fila (seq_movimientos db + 1) (productos.id p)
                      (usuarios.id u) tipo cantidad_ml peso_bruto
                      (notas_de notas) ahora)
    (productos.nombre p) (usuarios.nombre u).

(** ** What the handlers hand to [sqlite3] *)

(** The signed 64-bit integers: what [sqlite3] can bind.  A Python int
    outside them raises OverflowError. *)
Definition en_int64 (z : Z) : bool :=
  ((- 2 ^ 63 <=? z) && (z <? 2 ^ 63))%Z.

(** A value read back from a row of a tree ([item['values'][i]]): ttk
    gives a text that reads as an integer back as that integer. *)
Inductive ValorTk : Type :=
| TkTexto (s : string)
| TkEntero (z : Z).

(** The text that [WHERE nombre = ?] compares the TEXT column with: a
    number is compared through its text.  [None] is the OverflowError of
    binding an integer outside 64 bits. *)
Definition texto_buscado (v : ValorTk) : option string :=
  match v with
  | TkTexto s => Some s
  | TkEntero z => if en_int64 z then Some (string_of_Z z) else None
  end.

(** ** The handlers that branch on computed floats, over binary64

    [registrar_peso], the loop body of [actualizar_inventario] and
    [guardar_producto] decide a kind, a flag or a range test by comparing
    Python floats.  They are embedded here a second time, with every
    REAL column and every Python float a binary64 value and every
    operation the IEEE 754 one, so that each such decision is the code's
    own at every input, a boundary included.  [agregar_botella_completa]
    comes with them, for the reading that follows a bottle. *)

Module B64.

(** The only float that differs from itself.  SQLite stores a NaN that
    is bound to a parameter as NULL. *)
Definition es_nan (x : float) : bool := negb (x =? x)%float.

(** The value that a REAL column takes from a bound float. *)
Definition REAL_o_NULL (x : float) : option float :=
  if es_nan x then None else Some x.

Module productos.
Record fila : Type := Fila {
  id : Z;
  local_id : Z;
  nombre : string;
  marca : string;
  tipo : string;
  densidad : float;
  capacidad_ml : float;
  peso_envase : float;
  activo : Z;
  botellas_completas : Z;
  minimo_inventario : option float;      (* the column is nullable *)
  fecha_creacion : Z
}.

Definition set_botellas (d : Z) (p : fila) : fila :=
  Fila (id p) (local_id p) (nombre p) (marca p) (tipo p) (densidad p)
       (capacidad_ml p) (peso_envase p) (activo p)
       (botellas_completas p + d)%Z
       (minimo_inventario p) (fecha_creacion p).
End productos.

Inductive Notas : Type :=
| Texto (s : string)
| RegistroManual (peso_total : float).

Module movimientos.
Record fila : Type := Fila {
  id : Z;
  producto_id : Z;
  user_id : Z;
  tipo : string;
  cantidad_ml : float;
  peso_bruto : option float;
  notas : option Notas;
  fecha : Z
}.
End movimientos.

(** The store, with the [sqlite_sequence] entries of [productos] and
    [movimientos]. *)
Record DB : Type := mkDB {
  t_locales : list locales.fila;
  t_usuarios : list usuarios.fila;
  t_productos : list productos.fila;
  t_movimientos : list movimientos.fila;
  seq_productos : Z;
  seq_movimientos : Z
}.

(** [FROM movimientos WHERE producto_id = ?] *)
Definition movimientos_de (db : DB) (pid : Z) : list movimientos.fila :=
  filter (fun m => Z.eqb (movimientos.producto_id m) pid) (t_movimientos db).

(** [INSERT INTO movimientos (...) VALUES (...)].  [cantidad_ml] is
    declared NOT NULL: a NaN, which arrives as NULL, makes the statement
    raise IntegrityError ([None]) and nothing is inserted. *)
Definition insertar_movimiento (ahora : Z) (producto_id user_id : Z)
    (tipo : string) (cantidad_ml : float) (peso_bruto : option float)
    (notas : option Notas) (db : DB) : option DB :=
  if es_nan cantidad_ml then None
  else
    let nuevo := (seq_movimientos db + 1)%Z in
    Some (mkDB (t_locales db) (t_usuarios db) (t_productos db)
               (t_movimientos db ++
                  [movimientos.Fila nuevo producto_id user_id tipo
                                    cantidad_ml peso_bruto notas ahora])
               (seq_productos db) nuevo).

(** [SELECT ... FROM productos WHERE nombre = ?] with [fetchone], for
    the name read back from the selected row.  The outer [None] is the
    exception of binding it. *)
Definition producto_por_nombre (db : DB) (nombre : ValorTk)
  : option (option productos.fila) :=
  match texto_buscado nombre with
  | None => None
  | Some n =>
      Some (find (fun p => String.eqb (productos.nombre p) n)
                 (t_productos db))
  end.

(** [SELECT capacidad_ml FROM productos WHERE id = ?] with [fetchone]. *)
Definition producto_por_id (db : DB) (i : Z) : option productos.fila :=
  find (fun p => Z.eqb (productos.id p) i) (t_productos db).

Inductive Resultado : Type :=
| Error (a : Aviso)
| Cancelado
| Excepcion
| Registrado (volumen_ml : float) (tipo : string)
| Exito.

(** [SELECT cantidad_ml FROM movimientos WHERE producto_id = ?
    ORDER BY fecha DESC LIMIT 1].  Among rows of equal [fecha] SQL leaves
    the choice open; the model keeps the earliest row. *)
Definition mas_reciente (best : option movimientos.fila)
    (m : movimientos.fila) : option movimientos.fila :=
  match best with
  | None => Some m
  | Some b =>
      if (movimientos.fecha b <? movimientos.fecha m)%Z
      then Some m else Some b
  end.

Definition ultimo_movimiento (db : DB) (pid : Z)
  : option movimientos.fila :=
  fold_left mas_reciente (movimientos_de db pid) None.

Definition ultimo_query (db : DB) (pid : Z) : option float :=
  option_map movimientos.cantidad_ml (ultimo_movimiento db pid).

(** "Determinar tipo de movimiento": [volumen_ml < 0], and
    [diferencia > 0] for [diferencia = volumen_ml - ultimo_ml[0]].
    [None] is the [return] taken when the warning dialog is declined. *)
Definition determinar_tipo (volumen_ml : float) (confirma : bool)
    (ultimo_ml : option float) : option string :=
  if (volumen_ml <? 0)%float then
    if confirma then Some "ajuste"%string else None
  else
    match ultimo_ml with
    | Some ultimo =>
        let diferencia := (volumen_ml - ultimo)%float in
        Some (if (0 <? diferencia)%float then "entrada" else "salida")%string
    | None => Some "entrada"%string
    end.

(** [registrar_peso].  [seleccion] is [item['values'][0]] of the selected
    row, [entry_peso] the parsed entry ([None] when [float] raises
    ValueError; 'nan' and 'inf' do parse) and [confirma] the answer to
    the warning dialog.  Dividing by a zero density raises
    ZeroDivisionError.  [Registrado] is the movement inserted; the
    refresh of the views and the final notice follow it. *)
Definition registrar_peso (seleccion : option ValorTk)
    (entry_peso : option float) (confirma : bool) (ahora : Z)
    (s : Sesion) (db : DB) : Resultado * DB :=
  match seleccion with
  | None => (Error SeleccioneProducto, db)
  | Some nombre =>
  match entry_peso with
  | None => (Error PesoInvalido, db)
  | Some peso_total =>
  match producto_por_nombre db nombre with
  | None => (Excepcion, db)
  | Some None => (Error ProductoNoEncontrado, db)
  | Some (Some producto) =>
      let id_prod := productos.id producto in
      let densidad := productos.densidad producto in
      let peso_envase := productos.peso_envase producto in
      let peso_licor := (peso_total - peso_envase)%float in
      if (densidad =? 0)%float then (Excepcion, db) else
      let volumen_ml := (peso_licor / densidad)%float in
      match determinar_tipo volumen_ml confirma (ultimo_query db id_prod) with
      | None => (Cancelado, db)
      | Some tipo =>
          match insertar_movimiento ahora id_prod (user_id s) tipo
                  volumen_ml (REAL_o_NULL peso_total)
                  (Some (RegistroManual peso_total)) db with
          | None => (Excepcion, db)
          | Some db' => (Registrado volumen_ml tipo, db')
          end
      end
  end end end.

(** [UPDATE productos SET botellas_completas = botellas_completas + d
    WHERE id = ?] *)
Definition actualizar_botellas (d : Z) (id_prod : Z) (db : DB) : DB :=
  mkDB (t_locales db) (t_usuarios db)
       (map (fun p => if Z.eqb (productos.id p) id_prod
                      then productos.set_botellas d p else p)
            (t_productos db))
       (t_movimientos db) (seq_productos db) (seq_movimientos db).

(** [agregar_botella_completa]: the counter is committed before the
    movement is inserted. *)
Definition agregar_botella_completa (seleccion : option ValorTk)
    (ahora : Z) (s : Sesion) (db : DB) : Resultado * DB :=
  match seleccion with
  | None => (Error SeleccioneProducto, db)
  | Some nombre =>
  match producto_por_nombre db nombre with
  | None => (Excepcion, db)
  | Some None => (Error ProductoNoEncontrado, db)
  | Some (Some producto) =>
      let id_prod := productos.id producto in
      let capacidad := productos.capacidad_ml producto in
      let db1 := actualizar_botellas 1 id_prod db in
      match insertar_movimiento ahora id_prod (user_id s) "entrada"
              capacidad None (Some (Texto "Botella completa agregada"))
              db1 with
      | None => (Excepcion, db1)
      | Some db2 => (Exito, db2)
      end
  end end.

(** *** The listing *)

Record FilaInventario : Type := mkFilaInventario {
  f_nombre : string;
  f_marca : string;
  f_tipo : string;
  f_disponible : option float;      (* None is the text "No registrado" *)
  f_botellas : Z;
  f_activo : bool;
  f_estado : Estado
}.

(** [total_ml or 0]: a zero of either sign becomes the integer 0. *)
Definition o_cero (x : float) : float :=
  if (x =? 0)%float then 0%float else x.

Section Listado.

(** SQLite's [SUM] over the REAL values of the selected rows, NULL over
    no rows.  How it accumulates (and so how it rounds) is SQLite's own
    and differs between its versions: it is left as a parameter. *)
Variable SUM : list float -> option float.

(** [(SELECT SUM(cantidad_ml) FROM movimientos WHERE producto_id = p.id)] *)
Definition total_ml (db : DB) (pid : Z) : option float :=
  SUM (map movimientos.cantidad_ml (movimientos_de db pid)).

(** The body of the loop of [actualizar_inventario] for one result row:
    [if total_ml < (capacidad * 0.2)].  [None] is the exception of
    subscripting the missing result of [cap_query]. *)
Definition fila_inventario (db : DB) (p : productos.fila)
  : option FilaInventario :=
  let activo := negb (Z.eqb (productos.activo p) 0) in
  match total_ml db (productos.id p) with
  | None =>
      Some (mkFilaInventario (productos.nombre p) (productos.marca p)
              (productos.tipo p) None (productos.botellas_completas p)
              activo SinDatos)
  | Some total =>
      match producto_por_id db (productos.id p) with
      | None => None
      | Some fila_cap =>
          let capacidad := productos.capacidad_ml fila_cap in
          let total_ml := o_cero total in
          let estado :=
            if (total_ml <? capacidad * 0.2)%float then Bajo else OK in
          Some (mkFilaInventario (productos.nombre p) (productos.marca p)
                  (productos.tipo p) (Some total_ml)
                  (productos.botellas_completas p) activo estado)
      end
  end.

End Listado.

(** An aggregate to run the listing on concrete stores: the values are
    added one by one in row order.  Every accumulation gives the same on
    a single row and on values whose partial sums are exact. *)
Definition SUM_en_orden (l : list float) : option float :=
  match l with
  | [] => None
  | _ :: _ => Some (fold_left PrimFloat.add l 0%float)
  end.

(** *** The products form *)

(** The [try] block of [guardar_producto]: the four conversions, then
    the four range tests.  An entry is [None] when [float] raises
    ValueError. *)
Definition validar_producto
    (entry_densidad entry_capacidad entry_peso_envase entry_minimo
       : option float)
  : Motivo + (float * float * float * float) :=
  match entry_densidad, entry_capacidad, entry_peso_envase, entry_minimo with
  | Some densidad, Some capacidad, Some peso_envase, Some porcentaje =>
      let minimo := (porcentaje / 100)%float in
      if (densidad <=? 0)%float || (2 <? densidad)%float
      then inl DensidadFueraDeRango
      else if (capacidad <=? 0)%float then inl CapacidadNoPositiva
      else if (peso_envase <=? 0)%float then inl PesoEnvaseNoPositivo
      else if (minimo <=? 0)%float || (1 <? minimo)%float
      then inl MinimoFueraDeRango
      else inr (densidad, capacidad, peso_envase, minimo)
  | _, _, _, _ => inl NoNumerico
  end.

(** [UPDATE productos SET nombre = ?, marca = ?, tipo = ?, densidad = ?,
    capacidad_ml = ?, peso_envase = ?, minimo_inventario = ?] on one row. *)
Definition editar_producto (nombre marca tipo : string)
    (densidad capacidad peso_envase : float) (minimo : option float)
    (p : productos.fila) : productos.fila :=
  productos.Fila (productos.id p) (productos.local_id p) nombre marca tipo
                 densidad capacidad peso_envase (productos.activo p)
                 (productos.botellas_completas p) minimo
                 (productos.fecha_creacion p).

Definition con_productos (ps : list productos.fila) (seq : Z) (db : DB)
  : DB :=
  mkDB (t_locales db) (t_usuarios db) ps (t_movimientos db) seq
       (seq_movimientos db).

(** [guardar_producto].  The three texts are the entries after [strip];
    [seleccion] is the id in the selected row of the products tree.
    [densidad], [capacidad_ml] and [peso_envase] are declared NOT NULL,
    so that a NaN in one of them makes the statement raise
    IntegrityError (the UPDATE only when it reaches a row);
    [minimo_inventario] is nullable and takes a NaN as NULL. *)
Definition guardar_producto (nombre marca tipo : string)
    (entry_densidad entry_capacidad entry_peso_envase entry_minimo
       : option float)
    (seleccion : option Z) (ahora : Z) (s : Sesion) (db : DB)
  : Salida AvisoFormulario * DB :=
  match local_id s with
  | None => (Rechazado LocalNoAsignado, db)
  | Some local =>
      match validar_producto entry_densidad entry_capacidad
                             entry_peso_envase entry_minimo with
      | inl m => (Rechazado (DatosInvalidos m), db)
      | inr (densidad, capacidad, peso_envase, minimo) =>
          let nulo := es_nan densidad || es_nan capacidad
                      || es_nan peso_envase in
          match seleccion with
          | Some id_producto =>
              if existsb (fun p => Z.eqb (productos.id p) id_producto)
                         (t_productos db) && nulo
              then (Fallo, db)
              else
                (Hecho,
                 con_productos
                   (map (fun p =>
                           if Z.eqb (productos.id p) id_producto
                           then editar_producto nombre marca tipo densidad
                                  capacidad peso_envase (REAL_o_NULL minimo) p
                           else p)
                        (t_productos db))
                   (seq_productos db) db)
          | None =>
              if nulo then (Fallo, db)
              else
                let nuevo := (seq_productos db + 1)%Z in
                (Hecho,
                 con_productos
                   (t_productos db ++
                      [productos.Fila nuevo local nombre marca tipo densidad
                         capacidad peso_envase 1 0 (REAL_o_NULL minimo)
                         ahora])
                   nuevo db)
          end
      end
  end.

(** The ranges that the products form tests, on a stored row. *)
Definition rangos_validos (p : productos.fila) : Prop :=
  (0 <? productos.densidad p)%float = true /\
  (productos.densidad p <=? 2)%float = true /\
  (0 <? productos.capacidad_ml p)%float = true /\
  (0 <? productos.peso_envase p)%float = true /\
  match productos.minimo_inventario p with
  | None => True
  | Some m => (0 <? m)%float = true /\ (m <=? 1)%float = true
  end.

(** Concrete stores. *)
Definition ron (minimo : option float) : productos.fila :=
  productos.Fila 1 1 "Ron" "Bacardi" "Ron" 0.94 1000 300 1 0 minimo 0.

Definition whisky : productos.fila :=
  productos.Fila 2 1 "Whisky" "Johnnie Walker" "Whisky" 0.94 330 300 1 0
                 (Some 0.2%float) 0.

Definition mov (i producto_id : Z) (t : string) (q : float) (f : Z)
  : movimientos.fila :=
  movimientos.Fila i producto_id 1 t q None None f.

(** Two products and no movement. *)
Definition db_vacia : DB :=
  mkDB [] [] [ron (Some 0.2%float); whisky] [] 2 0.

(** The readings of the first product are 100 ml and then 200 ml; the
    second product has a later movement of its own. *)
Definition db_lectura : DB :=
  mkDB [] [] [ron (Some 0.2%float); whisky]
       [mov 1 1 "entrada" 100 5; mov 2 1 "entrada" 200 10;
        mov 3 2 "entrada" 50 15] 2 3.

(** The first product after a reading of 500 g. *)
Definition db_repetida : DB :=
  mkDB [] [] [ron (Some 0.2%float); whisky]
       [mov 1 1 "entrada" ((500 - 300) / 0.94) 10] 2 1.

(** The second product after a complete bottle of 330 ml. *)
Definition db_botella : DB :=
  mkDB [] [] [ron (Some 0.2%float); whisky]
       [mov 1 2 "entrada" 330 10] 2 1.

(** A product with a threshold of one half, holding 300 ml of 1000. *)
Definition db_minimo : DB :=
  mkDB [] [] [ron (Some 0.5%float)] [mov 1 1 "entrada" 300 10] 1 1.

(** A product of capacity 3 ml holding 0.6 ml. *)
Definition frasco : productos.fila :=
  productos.Fila 1 1 "Esencia" "Casa" "Licor" 1 3 1 1 0 (Some 0.2%float) 0.

Definition db_frasco : DB :=
  mkDB [] [] [frasco] [mov 1 1 "entrada" 0.6 10] 1 1.

End B64.

(** ** The REST handlers, from the request body

    [request.json] is the parsed body, any JSON document (a request
    whose body is not JSON is refused before the handler reads it).  The
    handlers subscript it, hand the values to [sqlite3] as they come, and
    catch no exception. *)

(** A Python float other than NaN. *)
Inductive real : Type :=
| Finito (q : Q)                   (* by its exact value *)
| Infinito (negativo : bool).

(** What [json.loads] gives ([NaN] and [Infinity] are accepted). *)
Inductive json : Type :=
| JNull
| JBool (b : bool)
| JEntero (z : Z)                  (* a Python int, of any size *)
| JReal (r : real)
| JNaN
| JTexto (s : string)              (* a str, by its UTF-8 bytes *)
| JTextoSinCodificar               (* a str with a lone surrogate *)
| JLista (l : list json)
| JObjeto (campos : list (string * json)).

(** The dictionary of a JSON object: of two equal keys the later one
    stays. *)
Fixpoint campo (k : string) (campos : list (string * json)) : option json :=
  match campos with
  | [] => None
  | (k', v) :: resto =>
      match campo k resto with
      | Some v' => Some v'
      | None => if String.eqb k' k then Some v else None
      end
  end.

(** The values of SQLite. *)
Inductive ValorSQL : Type :=
| Nulo
| Entero (z : Z)
| Real (r : real)
| TextoSQL (s : string).

(** How [sqlite3] binds a Python value to a parameter; [None] is the
    exception it raises: OverflowError for an int outside 64 bits,
    UnicodeEncodeError for a lone surrogate, and a binding error for a
    list or a dict.  A bool is an int, and a NaN arrives as NULL. *)
Definition ligar (j : json) : option ValorSQL :=
  match j with
  | JNull => Some Nulo
  | JBool b => Some (Entero (if b then 1 else 0))
  | JEntero z => if en_int64 z then Some (Entero z) else None
  | JReal r => Some (Real r)
  | JNaN => Some Nulo
  | JTexto s => Some (TextoSQL s)
  | JTextoSinCodificar => None
  | JLista _ => None
  | JObjeto _ => None
  end.

(** What a handler without [try] does: it answers, or an exception ends
    it and Flask answers 500. *)
Inductive Respuesta (A : Type) : Type :=
| Responde (a : A)
| ErrorInterno.

Arguments Responde {A} a.
Arguments ErrorInterno {A}.

Section Login.

(** The text that SQLite renders a REAL value as.  It is SQLite's own
    and not part of the repository: it is left as a parameter. *)
Variable texto_de_real : real -> string.

(** The text that a bound value is compared as with a TEXT column: a
    text is itself, a number is its rendering, and NULL is none. *)
Definition texto_de (v : ValorSQL) : option string :=
  match v with
  | Nulo => None
  | Entero z => Some (string_of_Z z)
  | Real r => Some (texto_de_real r)
  | TextoSQL s => Some s
  end.

(** [columna = ?] for a TEXT column and a bound value. *)
Definition igual_a (columna : string) (v : ValorSQL) : bool :=
  match texto_de v with
  | Some s => String.eqb columna s
  | None => false
  end.

(** [login], from the request body: [data['username']] and
    [data['password']] raise KeyError on a missing key and TypeError on
    a body that is not an object. *)
Definition api_login (data : json) (db : DB) : Respuesta (CuerpoLogin * Z) :=
  match data with
  | JObjeto campos =>
      match campo "username" campos, campo "password" campos with
      | Some username, Some password =>
          match ligar username, ligar password with
          | Some usr, Some pwd =>
              match find (fun u => igual_a (usuarios.username u) usr
                                   && igual_a (usuarios.password u) pwd
                                   && Z.eqb (usuarios.activo u) 1)
                         (t_usuarios db) with
              | Some usuario =>
                  Responde
                    (UsuarioJson (usuarios.id usuario)
                                 (usuarios.nombre usuario)
                                 (usuarios.rol usuario)
                                 (usuarios.local_id usuario), 200%Z)
              | None => Responde rechazo
              end
          | _, _ => ErrorInterno
          end
      | _, _ => ErrorInterno
      end
  | _ => ErrorInterno
  end.

(** What the login compares, in the words of the claim: the username and
    the password of the row are the texts of the two submitted values,
    and the row is active. *)
Definition coincide_con (usr pwd : ValorSQL) (u : usuarios.fila) : Prop :=
  texto_de usr = Some (usuarios.username u) /\
  texto_de pwd = Some (usuarios.password u) /\
  usuarios.activo u = 1%Z.

End Login.

(** A key that is there with a value that [sqlite3] can bind. *)
Definition ligable (o : option json) : bool :=
  match o with
  | Some j => match ligar j with Some _ => true | None => false end
  | None => false
  end.

(** A rendering to run the login on bodies without floats. *)
Definition sin_reales (r : real) : string := EmptyString.

(** What the INSERT of [POST /api/movimientos] finds in a column. *)
Inductive Dato (A : Type) : Type :=
| EsNulo
| Valor (a : A)
| OtroTipo.      (* a value that SQLite keeps or converts under its
                    dynamic typing, and the store here cannot hold *)

Arguments EsNulo {A}.
Arguments Valor {A} a.
Arguments OtroTipo {A}.

Definition col_INTEGER (v : ValorSQL) : Dato Z :=
  match v with
  | Nulo => EsNulo
  | Entero z => Valor z
  | _ => OtroTipo
  end.

Definition col_TEXT (v : ValorSQL) : Dato string :=
  match v with
  | Nulo => EsNulo
  | TextoSQL s => Valor s
  | _ => OtroTipo
  end.

(** A REAL column turns an integer into the float of the same value,
    which is exact up to 2^53. *)
Definition col_REAL (v : ValorSQL) : Dato Q :=
  match v with
  | Nulo => EsNulo
  | Real (Finito q) => Valor q
  | Entero z =>
      if ((- 2 ^ 53 <=? z) && (z <=? 2 ^ 53))%Z then Valor (inject_Z z)
      else OtroTipo
  | _ => OtroTipo
  end.

Definition es_nulo (v : ValorSQL) : bool :=
  match v with Nulo => true | _ => false end.

Definition opcional {A : Type} (d : Dato A) : option (option A) :=
  match d with
  | EsNulo => Some None
  | Valor a => Some (Some a)
  | OtroTipo => None
  end.

(** The outcome of the POST: an answer together with the new store, or
    [FilaSinTipo]: a row was inserted, and 201 answered, that holds a
    value which is not of its column's type (a text in a numeric column,
    a number in a TEXT column, an infinite or a rounded number), and
    which the store here cannot hold. *)
Inductive ResultadoPost : Type :=
| Respondido (r : RespuestaPost) (db : DB)
| FilaSinTipo.


(** [movimientos] for the POST method, from the request body.  The four
    subscripts raise KeyError on a missing key; [data.get] gives None,
    or the empty text, for the other two.  The NOT NULL constraint is
    checked on the bound values. *)
Definition api_movimientos_post (data : json) (ahora : Z) (db : DB)
  : ResultadoPost :=
  match data with
  | JObjeto campos =>
      match campo "producto_id" campos, campo "user_id" campos,
            campo "tipo" campos, campo "cantidad_ml" campos with
      | Some producto_id, Some user_id, Some tipo, Some cantidad_ml =>
          let peso_bruto :=
            match campo "peso_bruto" campos with
            | Some j => j
            | None => JNull
            end in
          let notas :=
            match campo "notas" campos with
            | Some j => j
            | None => JTexto EmptyString
            end in
          match ligar producto_id, ligar user_id, ligar tipo,
                ligar cantidad_ml, ligar peso_bruto, ligar notas with
          | Some vp, Some vu, Some vt, Some vc, Some vb, Some vn =>
              if es_nulo vp || es_nulo vu || es_nulo vt || es_nulo vc
              then Respondido Error500 db
              else
                match col_INTEGER vp, col_INTEGER vu, col_TEXT vt,
                      col_REAL vc, opcional (col_REAL vb),
                      opcional (col_TEXT vn) with
                | Valor p, Valor u, Valor t, Valor c, Some b, Some n =>
                    let (r, db') :=
                      movimientos_post
                        (mkMovimientoJson (Some p) (Some u) (Some t)
                                          (Some c) b (Some n)) ahora db in
                    Respondido r db'
                | _, _, _, _, _, _ => FilaSinTipo
                end
          | _, _, _, _, _, _ => Respondido Error500 db
          end
      | _, _, _, _ => Respondido Error500 db
      end
  | _ => Respondido Error500 db
  end.

(** The body with the four keys and nothing else. *)
Definition cuerpo (producto_id user_id tipo cantidad_ml : json) : json :=
  JObjeto [("producto_id"%string, producto_id); ("user_id"%string, user_id);
           ("tipo"%string, tipo); ("cantidad_ml"%string, cantidad_ml)].





(** A store whose only user has numerals for credentials. *)
Definition db_numerico : DB :=
  mkDB [] [usuarios.Fila 1 "123" "456" "Ana" "empleado" None 1] [] [] 0.

(** ** Histories of the store *)

(** One step: any handler that writes or deletes movements, on any
    input. *)
Inductive paso : DB -> DB -> Prop :=
| paso_registrar_peso seleccion entry_peso confirma ahora s db :
    paso db (snd (registrar_peso seleccion entry_peso confirma ahora s db))
| paso_agregar_botella seleccion ahora s db :
    paso db (snd (agregar_botella_completa seleccion ahora s db))
| paso_quitar_botella seleccion ahora s db :
    paso db (snd (quitar_botella_completa seleccion ahora s db))
| paso_post data ahora db r db' :
    api_movimientos_post data ahora db = Respondido r db' ->
    paso db db'
| paso_eliminar_producto seleccion confirmacion db :
    paso db (snd (eliminar_producto seleccion confirmacion db))
| paso_eliminar_usuario seleccion confirmacion s db :
    paso db (snd (eliminar_usuario seleccion confirmacion s db))
| paso_eliminar_local seleccion confirmacion db :
    paso db (snd (eliminar_local seleccion confirmacion db)).

(** Any number of steps. *)
Inductive historia : DB -> DB -> Prop :=
| historia_vacia db : historia db db
| historia_paso db db' db'' :
    historia db db' -> paso db' db'' -> historia db db''.

(** From one store to a later one the sequence has not gone down, and a
    movement that was not there has an id above the earlier sequence. *)
Definition avanza (db db' : DB) : Prop :=
  (seq_movimientos db <= seq_movimientos db')%Z /\
  forall m, In m (t_movimientos db') ->
            In m (t_movimientos db) \/
            (seq_movimientos db < movimientos.id m)%Z.

(** [db_bar] after the second user is deleted and a movement is then
    posted. *)
Definition db_bar_despues : DB :=
  mkDB [locales.Fila 1 "Local Principal" None None 1;
        locales.Fila 2 "Sucursal" None None 1]
       [usuarios.Fila 1 "admin" "admin123" "Administrador" "admin"
                      (Some 1%Z) 1]
       [ron 1 0 (2 # 10); ron_local_2]
       [mov 1 "entrada" 200 10;
        movimientos.Fila 4 1 1 "entrada" 10 None (Some (Texto EmptyString))
                         40]
       4.

(** ** Basic facts *)

Lemma Qltb_lt (a b : Q) : Qltb a b = true <-> a < b.
Proof.
  unfold Qltb. rewrite Qlt_alt.
  destruct (a ?= b); split; intro H; congruence.
Qed.

Lemma Qltb_ge (a b : Q) : Qltb a b = false <-> b <= a.
Proof.
  split; intro H.
  - destruct (Qlt_le_dec a b) as [Hlt | Hle]; [| exact Hle].
    apply Qltb_lt in Hlt. congruence.
  - destruct (Qltb a b) eqn:E; [| reflexivity].
    apply Qltb_lt in E. exfalso. exact (Qlt_not_le _ _ E H).
Qed.

Lemma suma_app (l1 l2 : list Q) : suma (l1 ++ l2) == suma l1 + suma l2.
Proof.
  induction l1 as [| x l1 IH]; simpl.
  - ring.
  - rewrite IH. ring.
Qed.

Lemma existsb_eqb_In (x : Z) (l : list Z) :
  existsb (Z.eqb x) l = true <-> In x l.
Proof.
  rewrite existsb_exists. split.
  - intros [y [Hy E]]. apply Z.eqb_eq in E. now subst.
  - intro H. exists x. split; [exact H | apply Z.eqb_refl].
Qed.

(** Under the primary key, the lookup by id of a stored row is that row. *)
Lemma producto_por_id_In (db : DB) (p : productos.fila) :
  clave_primaria_productos db = true ->
  In p (t_productos db) ->
  producto_por_id db (productos.id p) = Some p.
Proof.
  unfold clave_primaria_productos, producto_por_id.
  induction (t_productos db) as [| q l IH]; simpl; intros Hpk Hin.
  - contradiction.
  - apply andb_true_iff in Hpk. destruct Hpk as [Hq Hl].
    destruct Hin as [-> | Hin].
    + now rewrite Z.eqb_refl.
    + destruct (Z.eqb_spec (productos.id q) (productos.id p)) as [E | _].
      * apply negb_true_iff in Hq.
        assert (Hc : existsb (Z.eqb (productos.id q))
                             (map productos.id l) = true).
        { apply existsb_eqb_In. rewrite E. now apply in_map. }
        congruence.
      * now apply IH.
Qed.

(** The effect of the counter update on the lookup by id. *)
Lemma producto_por_id_actualizar (d i j : Z) (db : DB) :
  producto_por_id (actualizar_botellas d i db) j =
  option_map (fun p => if Z.eqb (productos.id p) i
                       then productos.set_botellas d p else p)
             (producto_por_id db j).
Proof.
  unfold producto_por_id, actualizar_botellas. simpl.
  induction (t_productos db) as [| q l IH]; simpl.
  - reflexivity.
  - destruct (Z.eqb (productos.id q) i) eqn:Ei; simpl;
      destruct (Z.eqb (productos.id q) j) eqn:Ej; simpl;
      try rewrite Ei; auto.
Qed.

Lemma producto_por_id_insertar ahora a b t q pb n db j :
  producto_por_id (insertar_movimiento ahora a b t q pb n db) j =
  producto_por_id db j.
Proof. reflexivity. Qed.

(** The latest reading exists exactly when the product has a movement. *)
Lemma fold_mas_reciente_Some (l : list movimientos.fila)
    (b : movimientos.fila) :
  exists m, fold_left mas_reciente l (Some b) = Some m.
Proof.
  revert b. induction l as [| x l IH]; intro b; simpl.
  - now exists b.
  - destruct (movimientos.fecha b <? movimientos.fecha x)%Z; apply IH.
Qed.

Lemma ultimo_query_None (db : DB) (pid : Z) :
  ultimo_query db pid = None <-> movimientos_de db pid = [].
Proof.
  unfold ultimo_query. destruct (movimientos_de db pid) as [| x l]; simpl.
  - tauto.
  - destruct (fold_mas_reciente_Some l x) as [m ->]. simpl.
    split; discriminate.
Qed.

(** The latest reading is the quantity of a movement of the product that
    no other movement of the product is later than. *)
Lemma fold_mas_reciente_max (l : list movimientos.fila)
    (b m : movimientos.fila) :
  fold_left mas_reciente l (Some b) = Some m ->
  (m = b \/ In m l) /\
  (movimientos.fecha b <= movimientos.fecha m)%Z /\
  (forall x, In x l -> (movimientos.fecha x <= movimientos.fecha m)%Z).
Proof.
  revert b. induction l as [| x l IH]; intros b; simpl.
  - intros [= ->]. repeat split; try tauto; lia.
  - destruct (Z.ltb_spec (movimientos.fecha b) (movimientos.fecha x))
      as [Hlt | Hge]; intro H; apply IH in H;
      destruct H as [Hin [Hb Hall]].
    + repeat split; [destruct Hin as [-> | Hin]; auto | lia |].
      intros y [<- | Hy]; [exact Hb | now apply Hall].
    + repeat split; [destruct Hin as [-> | Hin]; auto | exact Hb |].
      intros y [<- | Hy]; [lia | now apply Hall].
Qed.

(** X7.  The reading that a new weight is compared with is the quantity of a
    movement of the product that no movement of the product is later
    than. *)
Lemma ultimo_query_es_el_mas_reciente (db : DB) (pid : Z) (u : Q) :
  ultimo_query db pid = Some u ->
  exists m, In m (movimientos_de db pid) /\
            movimientos.cantidad_ml m = u /\
            forall x, In x (movimientos_de db pid) ->
                      (movimientos.fecha x <= movimientos.fecha m)%Z.
Proof.
  unfold ultimo_query. destruct (movimientos_de db pid) as [| x l]; simpl.
  - discriminate.
  - destruct (fold_left mas_reciente l (Some x)) as [m |] eqn:E; simpl;
      [| discriminate].
    intros [= <-]. apply fold_mas_reciente_max in E.
    destruct E as [Hin [Hb Hall]]. exists m. repeat split.
    + destruct Hin as [-> | Hin]; [now left | now right].
    + intros y [<- | Hy]; [exact Hb | now apply Hall].
Qed.

(** ** The level after an insertion *)

Lemma movimientos_de_insertar ahora pid uid t q pb n db pid' :
  movimientos_de (insertar_movimiento ahora pid uid t q pb n db) pid' =
  movimientos_de db pid' ++
  (if Z.eqb pid pid'
   then [movimientos.Fila (seq_movimientos db + 1) pid uid t q pb n ahora]
   else []).
Proof.
  unfold movimientos_de, insertar_movimiento. simpl.
  rewrite filter_app. simpl. now destruct (Z.eqb pid pid').
Qed.

(** The desktop level of a product after one more movement is the level
    before (0 when there was none) plus the quantity of the movement,
    whatever its kind. *)
Lemma total_ml_tras_insertar ahora pid uid t q pb n db :
  exists total,
    total_ml (insertar_movimiento ahora pid uid t q pb n db) pid
    = Some total /\
    total == COALESCE (total_ml db pid) 0 + q.
Proof.
  unfold total_ml. rewrite movimientos_de_insertar, Z.eqb_refl, map_app.
  simpl.
  destruct (map movimientos.cantidad_ml (movimientos_de db pid))
    as [| x l] eqn:E; simpl.
  - eexists. split; [reflexivity |]. ring.
  - eexists. split; [reflexivity |]. rewrite suma_app. simpl. ring.
Qed.

(** ** The three sums compared *)

(** The unsigned sum of the desktop exceeds the signed sum of the
    specification by twice the outflows. *)
Lemma suma_escritorio_vs_spec (l : list movimientos.fila) :
  (forall m, In m l -> tipo_valido (movimientos.tipo m)) ->
  suma (cantidades l) ==
  suma (map contribucion_spec l)
  + 2 * suma (cantidades (filter (es_tipo "salida") l)).
Proof.
  unfold cantidades.
  induction l as [| m l IH]; intros Hval; simpl.
  - ring.
  - rewrite IH by (intros x Hx; apply Hval; now right).
    unfold contribucion_spec, es_tipo.
    destruct (Hval m (or_introl eq_refl)) as [E | [E | E]];
      rewrite E; simpl; ring.
Qed.

(** The sum of the endpoint falls short of the signed sum of the
    specification by twice the adjustments. *)
Lemma suma_api_vs_spec (l : list movimientos.fila) :
  (forall m, In m l -> tipo_valido (movimientos.tipo m)) ->
  suma (map caso_api l) ==
  suma (map contribucion_spec l)
  - 2 * suma (cantidades (filter (es_tipo "ajuste") l)).
Proof.
  unfold cantidades.
  induction l as [| m l IH]; intros Hval; simpl.
  - ring.
  - rewrite IH by (intros x Hx; apply Hval; now right).
    unfold contribucion_spec, caso_api, es_tipo.
    destruct (Hval m (or_introl eq_refl)) as [E | [E | E]];
      rewrite E; simpl; ring.
Qed.

(** On a history of inflows only, and not empty, the desktop level, the
    endpoint's level and the level of the specification coincide. *)
Lemma niveles_solo_entradas (db : DB) (pid : Z) :
  movimientos_de db pid <> [] ->
  (forall m, In m (movimientos_de db pid) ->
             movimientos.tipo m = "entrada"%string) ->
  exists t, total_ml db pid = Some t /\
            t == total_ml_api db pid /\
            t == current_level_spec db pid.
Proof.
  unfold total_ml, total_ml_api, current_level_spec.
  intros Hne Hent.
  assert (Hsame : suma (map movimientos.cantidad_ml (movimientos_de db pid))
                  == suma (map caso_api (movimientos_de db pid))
                  /\ suma (map movimientos.cantidad_ml (movimientos_de db pid))
                  == suma (map contribucion_spec (movimientos_de db pid))).
  { clear Hne. induction (movimientos_de db pid) as [| m l IH]; simpl.
    - split; reflexivity.
    - destruct IH as [IH1 IH2]; [intros x Hx; apply Hent; now right |].
      unfold caso_api at 1, contribucion_spec at 1.
      rewrite (Hent m (or_introl eq_refl)). simpl.
      rewrite <- IH1, <- IH2. split; reflexivity. }
  destruct (movimientos_de db pid) as [| m l]; [congruence |].
  exists (suma (map movimientos.cantidad_ml (m :: l))).
  destruct Hsame as [H1 H2]. repeat split; assumption.
Qed.

(** A product without movements has no level on the desktop ("No
    registrado") and level 0 at the endpoint. *)
Lemma niveles_sin_movimientos (db : DB) (pid : Z) :
  movimientos_de db pid = [] ->
  total_ml db pid = None /\ total_ml_api db pid = 0.
Proof.
  unfold total_ml, total_ml_api. intros ->. split; reflexivity.
Qed.

(** C1 (the code departs from the claim).  At the store whose only
    movement is an outflow of 100 ml, the inventory listing shows a level
    of +100 ml, while the signed sum of the claim is -100 ml: the
    aggregation query adds [cantidad_ml] whatever the kind.  Likewise,
    after a complete bottle of 1000 ml is added and removed again, the
    listing shows 2000 ml where the signed sum is 0. *)
Theorem C1_listado_suma_las_salidas :
  (forall m, In m (movimientos_de db_salida 1) ->
             tipo_valido (movimientos.tipo m)) /\
  (exists f r,
      actualizar_inventario admin db_salida = Some ([f], r) /\
      f_disponible f = Some 100 /\
      current_level_spec db_salida 1 == - (100) /\
      ~ 100 == current_level_spec db_salida 1) /\
  (exists db f r,
      tras_agregar_y_quitar = Some db /\
      map movimientos.tipo (t_movimientos db)
      = ["entrada"; "salida"]%string /\
      actualizar_inventario admin db = Some ([f], r) /\
      f_disponible f = Some 2000 /\
      current_level_spec db 1 == 0).
Proof.
  split; [| split].
  - intros m [<- | []]. right; left; reflexivity.
  - eexists. eexists. split; [vm_compute; reflexivity |].
    split; [reflexivity |]. split.
    + vm_compute. reflexivity.
    + intro H. vm_compute in H. discriminate.
  - eexists. eexists. eexists. split; [vm_compute; reflexivity |].
    split; [reflexivity |]. split; [vm_compute; reflexivity |].
    split; [reflexivity |]. vm_compute. reflexivity.
Qed.

(** C4 (the code departs from the claim).  At the same store the
    endpoint answers [total_ml] = -100 for the product for which the
    desktop aggregation gives +100. *)
Theorem C4_api_y_escritorio_difieren :
  exists p t,
    get_productos None db_salida = [(p, t)] /\
    productos.id p = 1%Z /\
    t == - (100) /\
    total_ml db_salida 1 = Some 100 /\
    ~ 100 == t.
Proof.
  eexists. eexists. split; [vm_compute; reflexivity |].
  split; [reflexivity |]. split; [vm_compute; reflexivity |].
  split; [reflexivity |].
  intro H. vm_compute in H. discriminate.
Qed.

(** ** The order of binary64 *)

Lemma SFcompare_antisym (a b : spec_float) :
  SFcompare b a = option_map CompOpp (SFcompare a b).
Proof.
  destruct a as [sa | sa | | sa ma ea], b as [sb | sb | | sb mb eb];
    simpl; try reflexivity;
    try (destruct sa; reflexivity); try (destruct sb; reflexivity);
    try (destruct sa, sb; reflexivity).
  destruct sa, sb; simpl; try reflexivity;
    rewrite (Z.compare_antisym ea eb);
    destruct (Z.compare ea eb); simpl; try reflexivity;
    change (Pos.compare_cont Eq mb ma) with (Pos.compare mb ma);
    change (Pos.compare_cont Eq ma mb) with (Pos.compare ma mb);
    rewrite (Pos.compare_antisym ma mb);
    destruct (Pos.compare ma mb); reflexivity.
Qed.

Lemma SFcompare_refl (a : spec_float) :
  a <> S754_nan -> SFcompare a a = Some Eq.
Proof.
  destruct a as [s | s | | s m e]; simpl; intro H;
    try (destruct s; reflexivity); try congruence.
  change (Pos.compare_cont Eq m m) with (Pos.compare m m).
  destruct s; rewrite Z.compare_refl, Pos.compare_refl; reflexivity.
Qed.

Lemma SFcompare_None (a b : spec_float) :
  SFcompare a b = None -> a = S754_nan \/ b = S754_nan.
Proof.
  destruct a as [sa | sa | | sa ma ea], b as [sb | sb | | sb mb eb];
    simpl; auto; discriminate.
Qed.

Lemma es_nan_false (x : float) :
  B64.es_nan x = false <-> Prim2SF x <> S754_nan.
Proof.
  unfold B64.es_nan. rewrite negb_false_iff, FloatAxioms.eqb_spec.
  unfold SFeqb. split.
  - intros H E. rewrite E in H. discriminate.
  - intro H. now rewrite (SFcompare_refl _ H).
Qed.

Lemma leb_ltb_false (x y : float) :
  (x <=? y)%float = true -> (y <? x)%float = false.
Proof.
  rewrite FloatAxioms.leb_spec, FloatAxioms.ltb_spec.
  unfold SFleb, SFltb.
  rewrite (SFcompare_antisym (Prim2SF x) (Prim2SF y)).
  destruct (SFcompare (Prim2SF x) (Prim2SF y)) as [[| |] |];
    simpl; congruence.
Qed.

Lemma ltb_leb_false (x y : float) :
  (x <? y)%float = true -> (y <=? x)%float = false.
Proof.
  rewrite FloatAxioms.leb_spec, FloatAxioms.ltb_spec.
  unfold SFleb, SFltb.
  rewrite (SFcompare_antisym (Prim2SF x) (Prim2SF y)).
  destruct (SFcompare (Prim2SF x) (Prim2SF y)) as [[| |] |];
    simpl; congruence.
Qed.

Lemma leb_false_ltb (x y : float) :
  B64.es_nan x = false -> B64.es_nan y = false ->
  (x <=? y)%float = false -> (y <? x)%float = true.
Proof.
  rewrite !es_nan_false, FloatAxioms.leb_spec, FloatAxioms.ltb_spec.
  unfold SFleb, SFltb.
  intros Hx Hy.
  rewrite (SFcompare_antisym (Prim2SF x) (Prim2SF y)).
  destruct (SFcompare (Prim2SF x) (Prim2SF y)) as [[| |] |] eqn:E;
    simpl; try congruence.
  apply SFcompare_None in E. tauto.
Qed.

Lemma ltb_false_leb (x y : float) :
  B64.es_nan x = false -> B64.es_nan y = false ->
  (x <? y)%float = false -> (y <=? x)%float = true.
Proof.
  rewrite !es_nan_false, FloatAxioms.leb_spec, FloatAxioms.ltb_spec.
  unfold SFleb, SFltb.
  intros Hx Hy.
  rewrite (SFcompare_antisym (Prim2SF x) (Prim2SF y)).
  destruct (SFcompare (Prim2SF x) (Prim2SF y)) as [[| |] |] eqn:E;
    simpl; try congruence.
  apply SFcompare_None in E. tauto.
Qed.

Lemma ltb_no_nan (x y : float) :
  (x <? y)%float = true -> B64.es_nan x = false /\ B64.es_nan y = false.
Proof.
  rewrite !es_nan_false, FloatAxioms.ltb_spec. unfold SFltb.
  destruct (Prim2SF x), (Prim2SF y); simpl; try discriminate;
    intros _; split; discriminate.
Qed.

Lemma leb_no_nan (x y : float) :
  (x <=? y)%float = true -> B64.es_nan x = false /\ B64.es_nan y = false.
Proof.
  rewrite !es_nan_false, FloatAxioms.leb_spec. unfold SFleb.
  destruct (Prim2SF x), (Prim2SF y); simpl; try discriminate;
    intros _; split; discriminate.
Qed.

(** Both zeros compare alike. *)
Lemma ltb_o_cero (t x : float) :
  (B64.o_cero t <? x)%float = (t <? x)%float.
Proof.
  unfold B64.o_cero. destruct (t =? 0)%float eqn:E; [| reflexivity].
  rewrite FloatAxioms.eqb_spec in E. rewrite !FloatAxioms.ltb_spec.
  unfold SFeqb in E.
  change (Prim2SF 0) with (S754_zero false) in *.
  destruct (Prim2SF t) as [s | s | | s m e]; simpl in E; try discriminate.
  - reflexivity.
  - destruct s; discriminate.
  - destruct s; discriminate.
Qed.

(** ** The low-stock flag over binary64 *)

Lemma B64_producto_por_id_In (db : B64.DB) (p : B64.productos.fila) :
  sin_repetidos (map B64.productos.id (B64.t_productos db)) = true ->
  In p (B64.t_productos db) ->
  B64.producto_por_id db (B64.productos.id p) = Some p.
Proof.
  unfold B64.producto_por_id.
  induction (B64.t_productos db) as [| q l IH]; simpl; intros Hpk Hin.
  - contradiction.
  - apply andb_true_iff in Hpk. destruct Hpk as [Hq Hl].
    destruct Hin as [-> | Hin].
    + now rewrite Z.eqb_refl.
    + destruct (Z.eqb_spec (B64.productos.id q) (B64.productos.id p))
        as [E | _].
      * apply negb_true_iff in Hq.
        assert (Hc : existsb (Z.eqb (B64.productos.id q))
                             (map B64.productos.id l) = true).
        { apply existsb_eqb_In. rewrite E. now apply in_map. }
        congruence.
      * now apply IH.
Qed.

(** C5, as amended.  A product with a recorded level is flagged "Bajo"
    by the inventory listing exactly when the level that the aggregate
    returns is below [capacidad_ml * 0.2], the product and the comparison
    being those of binary64, whatever its [minimo_inventario]. *)
Theorem C5_bajo_es_menos_del_20_por_ciento :
  forall (SUM : list float -> option float) (db : B64.DB)
         (p : B64.productos.fila) (total : float),
    sin_repetidos (map B64.productos.id (B64.t_productos db)) = true ->
    In p (B64.t_productos db) ->
    B64.total_ml SUM db (B64.productos.id p) = Some total ->
    exists f,
      B64.fila_inventario SUM db p = Some f /\
      B64.f_disponible f = Some (B64.o_cero total) /\
      (B64.f_estado f = Bajo <->
       (total <? B64.productos.capacidad_ml p * 0.2)%float = true).
Proof.
  intros SUM db p total Hpk Hin Htot.
  unfold B64.fila_inventario. rewrite Htot.
  rewrite (B64_producto_por_id_In db p Hpk Hin).
  eexists. split; [reflexivity |]. split; [reflexivity |]. simpl.
  rewrite ltb_o_cero.
  destruct (total <? B64.productos.capacidad_ml p * 0.2)%float.
  - tauto.
  - split; discriminate.
Qed.

(** At the boundary: 0.6 ml in a product of capacity 3 ml is flagged,
    since 3 * 0.2 is 0.6000000000000001 in binary64. *)
Lemma C5_bajo_witness :
  exists f,
    B64.fila_inventario B64.SUM_en_orden B64.db_frasco B64.frasco = Some f /\
    B64.f_disponible f = Some 0.6%float /\
    B64.f_estado f = Bajo /\
    (3 * 0.2)%float = 0.6000000000000001%float.
Proof.
  destruct (C5_bajo_es_menos_del_20_por_ciento B64.SUM_en_orden B64.db_frasco
              B64.frasco 0.6%float)
    as [f [Hf [Hd Hb]]]; [reflexivity | simpl; auto | reflexivity |].
  exists f. split; [exact Hf |]. split; [exact Hd |].
  split; [apply Hb |]; reflexivity.
Defined.

(** C5, as stated, fails: a product with threshold one half and capacity
    1000 ml holding 300 ml is below its own threshold (500 ml) and is
    listed "OK". *)
Lemma C5_counterexample :
  exists f total,
    B64.fila_inventario B64.SUM_en_orden B64.db_minimo
      (B64.ron (Some 0.5%float)) = Some f /\
    B64.total_ml B64.SUM_en_orden B64.db_minimo 1 = Some total /\
    B64.productos.minimo_inventario (B64.ron (Some 0.5%float))
    = Some 0.5%float /\
    ~ (B64.f_estado f = Bajo <->
       (total <? 0.5 * B64.productos.capacidad_ml (B64.ron (Some 0.5%float)))
         %float = true).
Proof.
  eexists. eexists. split; [reflexivity |].
  split; [reflexivity |]. split; [reflexivity |].
  intros [_ H]. specialize (H eq_refl). discriminate.
Qed.

(** ** Weight registration *)

Section RegistrarPeso.

Variables (item : FilaInventario) (peso_total : Q) (ahora : Z)
          (s : Sesion) (db : DB) (producto : productos.fila).

Hypothesis encontrado :
  producto_por_nombre db (f_nombre item) = Some producto.
Hypothesis densidad_no_nula : ~ productos.densidad producto == 0.

(** The handler, once the product is found and the division defined. *)
Lemma registrar_peso_encontrado (confirma : bool) :
  registrar_peso (Some item) (Some peso_total) confirma ahora s db =
  match determinar_tipo (Producto.calcular_volumen producto peso_total)
          confirma (ultimo_query db (productos.id producto)) with
  | None => (Cancelado, db)
  | Some tipo =>
      (Registrado (Producto.calcular_volumen producto peso_total) tipo,
       insertar_movimiento ahora (productos.id producto) (user_id s) tipo
         (Producto.calcular_volumen producto peso_total)
         (Some peso_total) (Some (RegistroManual peso_total)) db)
  end.
Proof.
  unfold registrar_peso. rewrite encontrado.
  destruct (Qeq_bool (productos.densidad producto) 0) eqn:E.
  - apply Qeq_bool_iff in E. contradiction.
  - reflexivity.
Qed.

End RegistrarPeso.

Lemma determinar_tipo_no_negativo (volumen_ml : Q) (confirma : bool)
    (ultimo : option Q) :
  0 <= volumen_ml ->
  determinar_tipo volumen_ml confirma ultimo =
  Some (match ultimo with
        | None => "entrada"
        | Some u => if Qltb 0 (volumen_ml - u) then "entrada" else "salida"
        end)%string.
Proof.
  intro H. unfold determinar_tipo.
  apply Qltb_ge in H. rewrite H. now destruct ultimo.
Qed.


(** X10.  Each registered reading is added to the level that the listing
    shows: after it the level is the level before plus the whole reading. *)
Lemma lecturas_se_acumulan (item : FilaInventario) (peso_total : Q)
    (confirma : bool) (ahora : Z) (s : Sesion) (db : DB)
    (producto : productos.fila) :
  producto_por_nombre db (f_nombre item) = Some producto ->
  ~ productos.densidad producto == 0 ->
  0 <= Producto.calcular_volumen producto peso_total ->
  exists total,
    total_ml (snd (registrar_peso (Some item) (Some peso_total) confirma
                     ahora s db)) (productos.id producto)
    = Some total /\
    total == COALESCE (total_ml db (productos.id producto)) 0
             + Producto.calcular_volumen producto peso_total.
Proof.
  intros Hf Hd Hv.
  rewrite (registrar_peso_encontrado item peso_total ahora s db producto
             Hf Hd confirma).
  rewrite (determinar_tipo_no_negativo _ confirma _ Hv). simpl.
  apply total_ml_tras_insertar.
Qed.

(** ** Weight registration over binary64 *)

Lemma B64_fold_mas_reciente_Some (l : list B64.movimientos.fila)
    (b : B64.movimientos.fila) :
  exists m, fold_left B64.mas_reciente l (Some b) = Some m.
Proof.
  revert b. induction l as [| x l IH]; intro b; simpl.
  - now exists b.
  - destruct (B64.movimientos.fecha b <? B64.movimientos.fecha x)%Z;
      apply IH.
Qed.

Lemma B64_fold_mas_reciente_max (l : list B64.movimientos.fila)
    (b m : B64.movimientos.fila) :
  fold_left B64.mas_reciente l (Some b) = Some m ->
  (m = b \/ In m l) /\
  (B64.movimientos.fecha b <= B64.movimientos.fecha m)%Z /\
  (forall x, In x l ->
             (B64.movimientos.fecha x <= B64.movimientos.fecha m)%Z).
Proof.
  revert b. induction l as [| x l IH]; intros b; simpl.
  - intros [= ->]. repeat split; try tauto; lia.
  - destruct (Z.ltb_spec (B64.movimientos.fecha b)
                         (B64.movimientos.fecha x))
      as [Hlt | Hge]; intro H; apply IH in H;
      destruct H as [Hin [Hb Hall]].
    + repeat split; [destruct Hin as [-> | Hin]; auto | lia |].
      intros y [<- | Hy]; [exact Hb | now apply Hall].
    + repeat split; [destruct Hin as [-> | Hin]; auto | exact Hb |].
      intros y [<- | Hy]; [lia | now apply Hall].
Qed.

(** A product without movements has no latest movement. *)
Lemma B64_ultimo_movimiento_ninguno (db : B64.DB) (pid : Z) :
  (forall m, In m (B64.t_movimientos db) ->
             B64.movimientos.producto_id m <> pid) ->
  B64.ultimo_movimiento db pid = None.
Proof.
  intro H. unfold B64.ultimo_movimiento, B64.movimientos_de.
  induction (B64.t_movimientos db) as [| x l IH]; simpl; [reflexivity |].
  destruct (Z.eqb_spec (B64.movimientos.producto_id x) pid) as [E | _].
  - exfalso. apply (H x); simpl; auto.
  - apply IH. intros m Hm. apply H. now right.
Qed.

(** A product with a movement has a latest one: a movement of the
    product that none of its movements is later than. *)
Lemma B64_ultimo_movimiento_max (db : B64.DB) (pid : Z)
    (m0 : B64.movimientos.fila) :
  In m0 (B64.t_movimientos db) ->
  B64.movimientos.producto_id m0 = pid ->
  exists m,
    B64.ultimo_movimiento db pid = Some m /\
    In m (B64.t_movimientos db) /\
    B64.movimientos.producto_id m = pid /\
    forall x, In x (B64.t_movimientos db) ->
              B64.movimientos.producto_id x = pid ->
              (B64.movimientos.fecha x <= B64.movimientos.fecha m)%Z.
Proof.
  intros Hin0 Hp0.
  assert (Hde : forall x, In x (B64.movimientos_de db pid) <->
                          In x (B64.t_movimientos db) /\
                          B64.movimientos.producto_id x = pid).
  { intro x. unfold B64.movimientos_de. rewrite filter_In, Z.eqb_eq.
    tauto. }
  unfold B64.ultimo_movimiento.
  destruct (B64.movimientos_de db pid) as [| b l] eqn:E.
  - exfalso. apply (proj2 (Hde m0)). auto.
  - simpl. destruct (B64_fold_mas_reciente_Some l b) as [m Hm].
    exists m. split; [exact Hm |].
    apply B64_fold_mas_reciente_max in Hm. destruct Hm as [Hin [Hb Hall]].
    assert (Hm : In m (b :: l)).
    { destruct Hin as [-> | Hin]; [now left | now right]. }
    apply Hde in Hm. destruct Hm as [Hm1 Hm2].
    split; [exact Hm1 |]. split; [exact Hm2 |].
    intros x Hx Hpx.
    destruct (proj2 (Hde x) (conj Hx Hpx)) as [<- | Hxl];
      [exact Hb | now apply Hall].
Qed.

(** The handler, once the product is found, the division defined and
    the computed volume not negative. *)
Lemma B64_registrar_peso_no_negativo (nombre : ValorTk) (peso_total : float)
    (confirma : bool) (ahora : Z) (s : Sesion) (db : B64.DB)
    (producto : B64.productos.fila) :
  B64.producto_por_nombre db nombre = Some (Some producto) ->
  (B64.productos.densidad producto =? 0)%float = false ->
  (0 <=? (peso_total - B64.productos.peso_envase producto)
         / B64.productos.densidad producto)%float = true ->
  B64.registrar_peso (Some nombre) (Some peso_total) confirma ahora s db =
  let volumen_ml := ((peso_total - B64.productos.peso_envase producto)
                     / B64.productos.densidad producto)%float in
  let tipo :=
    match B64.ultimo_movimiento db (B64.productos.id producto) with
    | None => "entrada"%string
    | Some m =>
        if (0 <? volumen_ml - B64.movimientos.cantidad_ml m)%float
        then "entrada"%string else "salida"%string
    end in
  (B64.Registrado volumen_ml tipo,
   B64.mkDB (B64.t_locales db) (B64.t_usuarios db) (B64.t_productos db)
     (B64.t_movimientos db ++
        [B64.movimientos.Fila (B64.seq_movimientos db + 1)
           (B64.productos.id producto) (user_id s) tipo volumen_ml
           (B64.REAL_o_NULL peso_total)
           (Some (B64.RegistroManual peso_total)) ahora])
     (B64.seq_productos db) (B64.seq_movimientos db + 1)).
Proof.
  intros Hf Hd Hv. unfold B64.registrar_peso. rewrite Hf, Hd.
  unfold B64.determinar_tipo, B64.insertar_movimiento, B64.ultimo_query.
  rewrite (leb_ltb_false _ _ Hv).
  rewrite (proj2 (leb_no_nan _ _ Hv)).
  destruct (B64.ultimo_movimiento db (B64.productos.id producto));
    reflexivity.
Qed.

(** C2.  For a non-negative computed volume, the registration reports
    [volumen_ml = (peso_total - peso_envase) / densidad], the difference
    and the quotient being those of binary64, as the code computes them.
    The kind is 'entrada' when the table holds no movement of the
    product.  When it holds one, the kind is decided by a latest movement
    of the product (a row of the table with the product's id that none
    of its rows is later than; the one row that is later than all the
    others, when there is one): with [ultimo_ml] its quantity, the kind
    is 'entrada' when the computed [volumen_ml - ultimo_ml] is above 0
    and 'salida' otherwise, a computed difference of 0 included. *)
Theorem C2_derivacion_y_clasificacion :
  forall (nombre : ValorTk) (peso_total : float) (confirma : bool)
         (ahora : Z) (s : Sesion) (db : B64.DB)
         (producto : B64.productos.fila),
    B64.producto_por_nombre db nombre = Some (Some producto) ->
    (B64.productos.densidad producto =? 0)%float = false ->
    (0 <=? (peso_total - B64.productos.peso_envase producto)
           / B64.productos.densidad producto)%float = true ->
    exists tipo,
      fst (B64.registrar_peso (Some nombre) (Some peso_total) confirma
             ahora s db)
      = B64.Registrado ((peso_total - B64.productos.peso_envase producto)
                        / B64.productos.densidad producto)%float tipo /\
      ((forall m, In m (B64.t_movimientos db) ->
                  B64.movimientos.producto_id m
                  <> B64.productos.id producto) ->
       tipo = "entrada"%string) /\
      (forall m0,
          In m0 (B64.t_movimientos db) ->
          B64.movimientos.producto_id m0 = B64.productos.id producto ->
          exists m,
            In m (B64.t_movimientos db) /\
            B64.movimientos.producto_id m = B64.productos.id producto /\
            (forall x, In x (B64.t_movimientos db) ->
                       B64.movimientos.producto_id x
                       = B64.productos.id producto ->
                       (B64.movimientos.fecha x
                        <= B64.movimientos.fecha m)%Z) /\
            tipo =
            if (0 <? (peso_total - B64.productos.peso_envase producto)
                     / B64.productos.densidad producto
                     - B64.movimientos.cantidad_ml m)%float
            then "entrada"%string else "salida"%string) /\
      (forall m,
          In m (B64.t_movimientos db) ->
          B64.movimientos.producto_id m = B64.productos.id producto ->
          (forall x, In x (B64.t_movimientos db) ->
                     B64.movimientos.producto_id x
                     = B64.productos.id producto ->
                     x = m \/
                     (B64.movimientos.fecha x
                      < B64.movimientos.fecha m)%Z) ->
          tipo =
          if (0 <? (peso_total - B64.productos.peso_envase producto)
                   / B64.productos.densidad producto
                   - B64.movimientos.cantidad_ml m)%float
          then "entrada"%string else "salida"%string).
Proof.
  intros nombre peso_total confirma ahora s db producto Hf Hd Hv.
  rewrite (B64_registrar_peso_no_negativo nombre peso_total confirma ahora
             s db producto Hf Hd Hv).
  cbv zeta. eexists. split; [reflexivity |].
  split; [| split].
  - intro Hno. now rewrite (B64_ultimo_movimiento_ninguno _ _ Hno).
  - intros m0 Hin0 Hp0.
    destruct (B64_ultimo_movimiento_max db _ m0 Hin0 Hp0)
      as [m [Hu [Hin [Hp Hmax]]]].
    exists m. rewrite Hu. auto.
  - intros m Hin Hp Hunico.
    destruct (B64_ultimo_movimiento_max db _ m Hin Hp)
      as [m' [Hu [Hin' [Hp' Hmax]]]].
    rewrite Hu.
    destruct (Hunico m' Hin' Hp') as [-> | Hlt]; [reflexivity |].
    specialize (Hmax m Hin Hp). lia.
Qed.

(** The two readings of the specification, and two at the boundary.
    500 g on a product without movements: about 212.77 ml, an inflow.
    441 g, that is 150 ml, on a product whose movements are 100 ml and
    then 200 ml, while another product has a later movement of 50 ml: an
    outflow.  500 g again after a reading of 500 g: the difference is 0,
    an outflow.  610.2 g on a bottle of 300 g at 0.94 g/ml whose latest
    movement is 330 ml: the quotient is 330.00000000000006, an inflow. *)
Lemma C2_derivacion_witness :
  (exists v,
      fst (B64.registrar_peso (Some (TkTexto "Ron")) (Some 500%float) false
             20 admin B64.db_vacia)
      = B64.Registrado v "entrada" /\
      ((212.765 <=? v) && (v <? 212.775))%float = true) /\
  fst (B64.registrar_peso (Some (TkTexto "Ron")) (Some 441%float) false
         20 admin B64.db_lectura)
  = B64.Registrado 150 "salida" /\
  (exists v,
      fst (B64.registrar_peso (Some (TkTexto "Ron")) (Some 500%float) false
             20 admin B64.db_repetida)
      = B64.Registrado v "salida" /\
      (v - (500 - 300) / 0.94 =? 0)%float = true) /\
  fst (B64.registrar_peso (Some (TkTexto "Whisky")) (Some 610.2%float)
         false 20 admin B64.db_botella)
  = B64.Registrado 330.00000000000006%float "entrada".
Proof.
  split; [| split; [| split]].
  - destruct (C2_derivacion_y_clasificacion (TkTexto "Ron") 500%float false
                20 admin B64.db_vacia (B64.ron (Some 0.2%float)))
      as [tipo [Hr [Hprimero _]]]; [reflexivity | reflexivity | reflexivity |].
    rewrite Hprimero in Hr by (intros m []).
    eexists. split; [exact Hr | reflexivity].
  - destruct (C2_derivacion_y_clasificacion (TkTexto "Ron") 441%float false
                20 admin B64.db_lectura (B64.ron (Some 0.2%float)))
      as [tipo [Hr [_ [_ Hultimo]]]];
      [reflexivity | reflexivity | reflexivity |].
    rewrite (Hultimo (B64.mov 2 1 "entrada" 200 10)) in Hr.
    + exact Hr.
    + simpl. auto.
    + reflexivity.
    + intros x [<- | [<- | [<- | []]]]; simpl; intro H;
        solve [right; reflexivity | left; reflexivity | discriminate H].
  - destruct (C2_derivacion_y_clasificacion (TkTexto "Ron") 500%float false
                20 admin B64.db_repetida (B64.ron (Some 0.2%float)))
      as [tipo [Hr [_ [_ Hultimo]]]];
      [reflexivity | reflexivity | reflexivity |].
    rewrite (Hultimo (B64.mov 1 1 "entrada" ((500 - 300) / 0.94) 10)) in Hr.
    + eexists. split; [exact Hr | reflexivity].
    + simpl. auto.
    + reflexivity.
    + intros x [<- | []] _. now left.
  - destruct (C2_derivacion_y_clasificacion (TkTexto "Whisky") 610.2%float
                false 20 admin B64.db_botella B64.whisky)
      as [tipo [Hr [_ [_ Hultimo]]]];
      [reflexivity | reflexivity | reflexivity |].
    rewrite (Hultimo (B64.mov 1 2 "entrada" 330 10)) in Hr.
    + exact Hr.
    + simpl. auto.
    + reflexivity.
    + intros x [<- | []] _. now left.
Defined.

(** C3.  Whenever the reading is classified as an inflow or an outflow,
    exactly one movement is appended, and it stores the new reading
    [volumen_ml] itself as [cantidad_ml], whatever the previous reading,
    and [peso_total] as [peso_bruto]. *)
Theorem C3_se_guarda_la_lectura_absoluta :
  forall (item : FilaInventario) (peso_total : Q) (confirma : bool)
         (ahora : Z) (s : Sesion) (db : DB) (producto : productos.fila),
    producto_por_nombre db (f_nombre item) = Some producto ->
    ~ productos.densidad producto == 0 ->
    0 <= (peso_total - productos.peso_envase producto)
         / productos.densidad producto ->
    exists tipo,
      (tipo = "entrada"%string \/ tipo = "salida"%string) /\
      registrar_peso (Some item) (Some peso_total) confirma ahora s db =
      (Registrado ((peso_total - productos.peso_envase producto)
                   / productos.densidad producto) tipo,
       mkDB (t_locales db) (t_usuarios db) (t_productos db)
            (t_movimientos db ++
               [movimientos.Fila (seq_movimientos db + 1)
                  (productos.id producto) (user_id s) tipo
                  ((peso_total - productos.peso_envase producto)
                   / productos.densidad producto)
                  (Some peso_total) (Some (RegistroManual peso_total))
                  ahora])
            (seq_movimientos db + 1)).
Proof.
  intros item peso_total confirma ahora s db producto Hf Hd Hv.
  rewrite (registrar_peso_encontrado item peso_total ahora s db producto
             Hf Hd confirma).
  unfold Producto.calcular_volumen.
  rewrite (determinar_tipo_no_negativo _ confirma _ Hv).
  eexists. split; [| reflexivity].
  destruct (ultimo_query db (productos.id producto)) as [u |]; [| now left].
  destruct (Qltb 0 _); [now left | now right].
Qed.

(** After a reading of 200 ml, a reading of 150 ml is stored as 150 ml
    (neither -50 nor 50), with the 441 g weighed. *)
Lemma C3_lectura_witness :
  exists tipo m,
    (tipo = "entrada"%string \/ tipo = "salida"%string) /\
    t_movimientos
      (snd (registrar_peso
              (Some (mkFilaInventario "Ron" "Bacardi" "Ron" (Some 200) 0
                       true OK))
              (Some 441) false 20 admin db_lectura))
    = t_movimientos db_lectura ++ [m] /\
    movimientos.tipo m = tipo /\
    movimientos.cantidad_ml m == 150 /\
    movimientos.peso_bruto m = Some 441.
Proof.
  destruct (C3_se_guarda_la_lectura_absoluta
              (mkFilaInventario "Ron" "Bacardi" "Ron" (Some 200) 0 true OK)
              441 false 20 admin db_lectura (ron 1 0 (2 # 10)))
    as [tipo [Ht Hr]].
  - reflexivity.
  - intro H. vm_compute in H. discriminate.
  - vm_compute. discriminate.
  - exists tipo. eexists. split; [exact Ht |].
    rewrite Hr. split; [reflexivity |]. split; [reflexivity |].
    split; [vm_compute |]; reflexivity.
Defined.



(** ** Complete bottles *)

Lemma producto_por_id_id (db : DB) (j : Z) (q : productos.fila) :
  producto_por_id db j = Some q -> productos.id q = j.
Proof.
  unfold producto_por_id. intro H. apply find_some in H.
  now apply Z.eqb_eq.
Qed.

(** C7.  The code departs from the claim when two products have the same
    name.  With the row of the second one selected (one bottle shown),
    the removal passes its guard on the count of the selected row and is
    carried out on the first product, which the lookup by name finds:
    the counter of the selected product stays at 1, and the counter of
    the other, which was already 0, drops to -1.  Adding a bottle
    likewise raises the counter of the first product and not that of the
    selected one. *)
Theorem C7_botella_de_otro_producto :
  exists item db_q db_a,
    clave_primaria_productos db_homonimos = true /\
    In ron_local_2 (t_productos db_homonimos) /\
    fila_inventario db_homonimos ron_local_2 = Some item /\
    botellas_de db_homonimos 2 = Some 1%Z /\
    botellas_de db_homonimos 1 = Some 0%Z /\
    quitar_botella_completa (Some item) 20 admin db_homonimos
    = (Exito, db_q) /\
    botellas_de db_q 2 = Some 1%Z /\
    botellas_de db_q 1 = Some (-1)%Z /\
    agregar_botella_completa (Some item) 20 admin db_homonimos
    = (Exito, db_a) /\
    botellas_de db_a 2 = Some 1%Z /\
    botellas_de db_a 1 = Some 1%Z.
Proof.
  eexists. eexists. eexists.
  split; [reflexivity |]. split; [simpl; auto |].
  split; [reflexivity |]. split; [reflexivity |]. split; [reflexivity |].
  split; [reflexivity |]. split; [reflexivity |]. split; [reflexivity |].
  split; [reflexivity |]. split; reflexivity.
Qed.

(** ** Deleting a location *)

Lemma productos_del_local_cero (db : DB) (id_local : Z) :
  (0 <? productos_del_local db id_local)%nat = false <->
  forall p, In p (t_productos db) -> productos.local_id p <> id_local.
Proof.
  unfold productos_del_local.
  induction (t_productos db) as [| q l IH]; simpl.
  - split; [intros _ p [] | reflexivity].
  - destruct (Z.eqb_spec (productos.local_id q) id_local) as [E | N]; simpl.
    + split; [discriminate |]. intro H. exfalso. exact (H q (or_introl eq_refl) E).
    + rewrite IH. split.
      * intros H p [<- | Hp]; [exact N | now apply H].
      * intros H p Hp. apply H. now right.
Qed.

Lemma usuarios_del_local_cero (db : DB) (id_local : Z) :
  (0 <? usuarios_del_local db id_local)%nat = false <->
  forall u, In u (t_usuarios db) -> usuarios.local_id u <> Some id_local.
Proof.
  unfold usuarios_del_local.
  induction (t_usuarios db) as [| q l IH]; simpl.
  - split; [intros _ u [] | reflexivity].
  - destruct (usuarios.local_id q) as [x |] eqn:Eq.
    + destruct (Z.eqb_spec x id_local) as [E | N]; simpl.
      * split; [discriminate |]. intro H. exfalso.
        apply (H q (or_introl eq_refl)). now rewrite Eq, E.
      * rewrite IH. split.
        -- intros H u [<- | Hu]; [rewrite Eq; congruence | now apply H].
        -- intros H u Hu. apply H. now right.
    + rewrite IH. split.
      * intros H u [<- | Hu]; [rewrite Eq; discriminate | now apply H].
      * intros H u Hu. apply H. now right.
Qed.

(** Under the primary key, deleting by id removes one row when a row has
    that id. *)
Lemma borrar_una_fila (l : list locales.fila) (x : locales.fila) :
  sin_repetidos (map locales.id l) = true ->
  In x l ->
  List.length l =
  S (List.length
       (filter (fun y => negb (Z.eqb (locales.id y) (locales.id x))) l)).
Proof.
  induction l as [| y l IH]; simpl; intros Hpk Hin.
  - contradiction.
  - apply andb_true_iff in Hpk. destruct Hpk as [Hy Hl].
    apply negb_true_iff in Hy.
    destruct (Z.eqb_spec (locales.id y) (locales.id x)) as [E | N]; simpl.
    + f_equal. f_equal. symmetry. apply forallb_filter_id.
      apply forallb_forall. intros z Hz. apply negb_true_iff.
      destruct (Z.eqb_spec (locales.id z) (locales.id x)) as [Ez | _];
        [| reflexivity].
      assert (Hc : existsb (Z.eqb (locales.id y)) (map locales.id l) = true).
      { apply existsb_eqb_In. rewrite E, <- Ez. now apply in_map. }
      congruence.
    + f_equal. destruct Hin as [-> | Hin]; [congruence | now apply IH].
Qed.

(** C8.  Deleting a location that a product or a user refers to is
    refused and the store is left as it was, whatever is answered to the
    dialog.  Deleting (and confirming the deletion of) a location that
    nothing refers to leaves the other tables as they were and removes
    from [locales] the rows of that id and no other: exactly one row, by
    the primary key, when the location is stored. *)
Theorem C8_eliminar_local :
  forall (db : DB) (id_local : Z) (nombre : string),
    (forall confirmacion,
        (exists p, In p (t_productos db) /\ productos.local_id p = id_local)
        \/ (exists u, In u (t_usuarios db)
                      /\ usuarios.local_id u = Some id_local) ->
        exists aviso,
          (aviso = LocalConProductos \/ aviso = LocalConUsuarios) /\
          eliminar_local (Some (id_local, nombre)) confirmacion db
          = (Error aviso, db)) /\
    ((forall p, In p (t_productos db) -> productos.local_id p <> id_local) ->
     (forall u, In u (t_usuarios db) ->
                usuarios.local_id u <> Some id_local) ->
     exists db',
       eliminar_local (Some (id_local, nombre)) true db = (Exito, db') /\
       t_usuarios db' = t_usuarios db /\
       t_productos db' = t_productos db /\
       t_movimientos db' = t_movimientos db /\
       (forall l, In l (t_locales db') <->
                  In l (t_locales db) /\ locales.id l <> id_local) /\
       (clave_primaria_locales db = true ->
        forall l, In l (t_locales db) -> locales.id l = id_local ->
                  List.length (t_locales db)
                  = S (List.length (t_locales db')))).
Proof.
  intros db id_local nombre. split.
  - intros confirmacion Hdep. unfold eliminar_local.
    destruct (0 <? productos_del_local db id_local)%nat eqn:Ep.
    + exists LocalConProductos. auto.
    + destruct (0 <? usuarios_del_local db id_local)%nat eqn:Eu.
      * exists LocalConUsuarios. auto.
      * exfalso. destruct Hdep as [[p [Hp E]] | [u [Hu E]]].
        -- exact (proj1 (productos_del_local_cero db id_local) Ep p Hp E).
        -- exact (proj1 (usuarios_del_local_cero db id_local) Eu u Hu E).
  - intros Hp Hu. unfold eliminar_local.
    rewrite (proj2 (productos_del_local_cero db id_local) Hp).
    rewrite (proj2 (usuarios_del_local_cero db id_local) Hu). simpl.
    eexists. split; [reflexivity |]. simpl.
    split; [reflexivity |]. split; [reflexivity |]. split; [reflexivity |].
    split.
    + intro l. rewrite filter_In, negb_true_iff, Z.eqb_neq. tauto.
    + intros Hpk l Hl <-. now apply borrar_una_fila.
Qed.

Lemma C8_eliminar_local_witness :
  (exists aviso,
      (aviso = LocalConProductos \/ aviso = LocalConUsuarios) /\
      eliminar_local (Some (1%Z, "Local Principal"%string)) true db_locales
      = (Error aviso, db_locales)) /\
  (exists db',
      eliminar_local (Some (2%Z, "Sucursal"%string)) true db_locales
      = (Exito, db') /\
      t_locales db' = [locales.Fila 1 "Local Principal" None None 1]).
Proof.
  split.
  - apply (proj1 (C8_eliminar_local db_locales 1 "Local Principal")).
    left. exists (ron 1 0 (2 # 10)). split; [simpl; auto | reflexivity].
  - destruct (proj2 (C8_eliminar_local db_locales 2 "Sucursal"))
      as [db' [Hr _]].
    + intros p [<- | []]. simpl. lia.
    + intros u [<- | []]. simpl. discriminate.
    + exists db'. split; [exact Hr |].
      vm_compute in Hr. now injection Hr as <-.
Defined.

(** ** The REST handlers *)

Lemma credenciales_coinciden_iff (data : LoginJson) (u : usuarios.fila) :
  credenciales_coinciden data u = true <-> coincide data u.
Proof.
  unfold credenciales_coinciden, coincide.
  destruct (l_username data) as [usr |], (l_password data) as [pwd |];
    try (split; [discriminate | intros [H1 [H2 _]]; discriminate]).
  rewrite !andb_true_iff, !String.eqb_eq, Z.eqb_eq.
  split.
  - intros [[-> ->] H]. auto.
  - intros [[= ->] [[= ->] H]]. auto.
Qed.

(** C9, as amended.  For every request body that is an object holding
    under [username] and under [password] a value that can be bound (a
    text, a number, a boolean or null), the login answers the record
    (id, nombre, rol, local_id) of a user, with status 200, exactly when
    some row of [usuarios] has for username and for password the texts
    of the two submitted values and has [activo] = 1, and the record is
    that of such a row.  The text of a text is the text itself, so that
    texts are compared byte for byte; a number is compared through its
    rendering; null has no text.  Every other such body gets one and the
    same answer, the 401 rejection, whichever field failed.  A body that
    is not an object, that lacks one of the two keys or that holds a
    value that cannot be bound is not answered at all: the handler ends
    in an exception. *)
Theorem C9_login :
  forall (texto_de_real : real -> string) (data : json) (db : DB),
    (forall campos username password usr pwd,
        data = JObjeto campos ->
        campo "username" campos = Some username ->
        campo "password" campos = Some password ->
        ligar username = Some usr ->
        ligar password = Some pwd ->
        ((exists u, In u (t_usuarios db) /\
                    coincide_con texto_de_real usr pwd u) <->
         (exists i n r l,
             api_login texto_de_real data db
             = Responde (UsuarioJson i n r l, 200%Z))) /\
        (forall i n r l,
            api_login texto_de_real data db
            = Responde (UsuarioJson i n r l, 200%Z) ->
            exists u, In u (t_usuarios db) /\
                      coincide_con texto_de_real usr pwd u /\
                      i = usuarios.id u /\ n = usuarios.nombre u /\
                      r = usuarios.rol u /\ l = usuarios.local_id u) /\
        (~ (exists u, In u (t_usuarios db) /\
                      coincide_con texto_de_real usr pwd u) ->
         api_login texto_de_real data db = Responde rechazo)) /\
    ((forall campos,
         data = JObjeto campos ->
         ligable (campo "username" campos)
         && ligable (campo "password" campos) = false) ->
     api_login texto_de_real data db = ErrorInterno).
Proof.
  intros texto_de_real data db. split.
  - intros campos username password usr pwd -> Hu Hp Hlu Hlp.
    unfold api_login. rewrite Hu, Hp, Hlu, Hlp.
    assert (Hiff : forall u,
               igual_a texto_de_real (usuarios.username u) usr
               && igual_a texto_de_real (usuarios.password u) pwd
               && Z.eqb (usuarios.activo u) 1 = true <->
               coincide_con texto_de_real usr pwd u).
    { intro u. unfold igual_a, coincide_con.
      rewrite !andb_true_iff, Z.eqb_eq.
      destruct (texto_de texto_de_real usr) as [a |],
               (texto_de texto_de_real pwd) as [b |];
        rewrite ?String.eqb_eq; split;
        try (intros [[H1 H2] H3]; try discriminate; subst; auto);
        try (intros [H1 [H2 H3]]; try discriminate).
      injection H1 as ->. injection H2 as ->. auto. }
    destruct (find _ (t_usuarios db)) as [u |] eqn:E.
    + apply find_some in E. destruct E as [Hin Hc]. apply Hiff in Hc.
      split; [| split].
      * split; intros _; [now repeat eexists | now exists u].
      * intros i n r l [= <- <- <- <-]. exists u. tauto.
      * intro H. exfalso. apply H. now exists u.
    + assert (Hnone : ~ exists u, In u (t_usuarios db) /\
                                  coincide_con texto_de_real usr pwd u).
      { intros [u [Hin Hc]]. apply Hiff in Hc.
        pose proof (find_none _ _ E u Hin) as Hf. simpl in Hf.
        congruence. }
      split; [| split].
      * split; [intro H; contradiction |].
        intros [i [n [r [l H]]]]. discriminate.
      * intros i n r l H. discriminate.
      * reflexivity.
  - intro H. destruct data as [| | | | | | | | campos]; try reflexivity.
    specialize (H campos eq_refl). unfold api_login, ligable in *.
    destruct (campo "username" campos) as [ju |]; [| reflexivity].
    destruct (campo "password" campos) as [jp |]; [| reflexivity].
    destruct (ligar ju); [| reflexivity].
    destruct (ligar jp); [discriminate | reflexivity].
Qed.

(** The default administrator logs in; a wrong password, an unknown
    user and a null get the same rejection. *)
Lemma C9_login_witness :
  api_login sin_reales
    (JObjeto [("username"%string, JTexto "admin");
              ("password"%string, JTexto "admin123")]) db_locales
  = Responde (UsuarioJson 1 "Administrador" "admin" None, 200%Z) /\
  api_login sin_reales
    (JObjeto [("username"%string, JTexto "admin");
              ("password"%string, JTexto "admin124")]) db_locales
  = Responde rechazo /\
  api_login sin_reales
    (JObjeto [("username"%string, JTexto "nadie");
              ("password"%string, JTexto "admin123")]) db_locales
  = Responde rechazo /\
  api_login sin_reales
    (JObjeto [("username"%string, JTexto "admin");
              ("password"%string, JNull)]) db_locales
  = Responde rechazo.
Proof.
  split; [reflexivity |].
  split; [| split].
  - apply (proj2 (proj2 (proj1 (C9_login sin_reales
                                  (JObjeto [("username"%string, JTexto "admin");
                                     ("password"%string, JTexto "admin124")])
                                  db_locales)
                           [("username"%string, JTexto "admin");
                         ("password"%string, JTexto "admin124")]
                           (JTexto "admin") (JTexto "admin124")
                           (TextoSQL "admin") (TextoSQL "admin124")
                           eq_refl eq_refl eq_refl eq_refl eq_refl))).
    intros [u [[<- | []] [_ [H _]]]]. discriminate.
  - apply (proj2 (proj2 (proj1 (C9_login sin_reales
                                  (JObjeto [("username"%string, JTexto "nadie");
                                     ("password"%string, JTexto "admin123")])
                                  db_locales)
                           [("username"%string, JTexto "nadie");
                         ("password"%string, JTexto "admin123")]
                           (JTexto "nadie") (JTexto "admin123")
                           (TextoSQL "nadie") (TextoSQL "admin123")
                           eq_refl eq_refl eq_refl eq_refl eq_refl))).
    intros [u [[<- | []] [H _]]]. discriminate.
  - apply (proj2 (proj2 (proj1 (C9_login sin_reales
                                  (JObjeto [("username"%string, JTexto "admin");
                                     ("password"%string, JNull)])
                                  db_locales)
                           [("username"%string, JTexto "admin");
                         ("password"%string, JNull)]
                           (JTexto "admin") JNull
                           (TextoSQL "admin") Nulo
                           eq_refl eq_refl eq_refl eq_refl eq_refl))).
    intros [u [_ [_ [H _]]]]. discriminate.
Defined.

(** C9, as stated, fails.  A body without [password] is not answered
    with the 401 rejection: the subscript raises KeyError and the answer
    is an internal error.  And the numbers 123 and 456 open the session
    of the user whose username and password are the texts '123' and
    '456', which they do not equal: SQLite compares a number with a TEXT
    column through its text. *)
Lemma C9_counterexample :
  api_login sin_reales (JObjeto [("username"%string, JTexto "admin")])
            db_locales
  = ErrorInterno /\
  api_login sin_reales
    (JObjeto [("username"%string, JEntero 123);
              ("password"%string, JEntero 456)]) db_numerico
  = Responde (UsuarioJson 1 "Ana" "empleado" None, 200%Z) /\
  ~ (forall data db,
        (exists i n r l,
            api_login sin_reales data db
            = Responde (UsuarioJson i n r l, 200%Z)) \/
        api_login sin_reales data db = Responde rechazo).
Proof.
  split; [reflexivity |]. split; [reflexivity |].
  intro H.
  destruct (H (JObjeto [("username"%string, JTexto "admin")]) db_locales)
    as [[i [n [r [l E]]]] | E]; discriminate.
Qed.

(** On a body that holds a text or a null under each of the two keys,
    the handler is [login] on the two values. *)
Lemma api_login_sobre_textos (texto_de_real : real -> string)
    (campos : list (string * json)) (usr pwd : option string) (db : DB) :
  campo "username" campos
  = Some (match usr with Some s => JTexto s | None => JNull end) ->
  campo "password" campos
  = Some (match pwd with Some s => JTexto s | None => JNull end) ->
  api_login texto_de_real (JObjeto campos) db
  = Responde (login (mkLoginJson usr pwd) db).
Proof.
  intros Hu Hp. unfold api_login, login. rewrite Hu, Hp.
  assert (Hext : forall l,
             find (fun u =>
                     igual_a texto_de_real (usuarios.username u)
                       match usr with Some s => TextoSQL s | None => Nulo end
                     && igual_a texto_de_real (usuarios.password u)
                          match pwd with
                          | Some s => TextoSQL s
                          | None => Nulo
                          end
                     && Z.eqb (usuarios.activo u) 1) l
             = find (credenciales_coinciden (mkLoginJson usr pwd)) l).
  { induction l as [| u l IH]; simpl; [reflexivity |].
    rewrite IH. unfold credenciales_coinciden, igual_a. simpl.
    destruct usr, pwd; simpl; rewrite ?andb_false_r; reflexivity. }
  destruct usr, pwd; simpl; rewrite Hext;
    destruct (find _ (t_usuarios db)); reflexivity.
Qed.

(** What the endpoint does to the store when it answers: nothing, or
    the insertion of one row. *)
Lemma api_movimientos_post_efecto (data : json) (ahora : Z) (db db' : DB)
    (r : RespuestaPost) :
  api_movimientos_post data ahora db = Respondido r db' ->
  (r = Error500 /\ db' = db) \/
  (r = Creado /\
   exists p u t c b n,
     db' = insertar_movimiento ahora p u t c b n db).
Proof.
  unfold api_movimientos_post.
  destruct data as [| | | | | | | | campos];
    try (intros [= <- <-]; left; split; reflexivity).
  destruct (campo "producto_id" campos) as [jp |];
    [| intros [= <- <-]; left; split; reflexivity].
  destruct (campo "user_id" campos) as [ju |];
    [| intros [= <- <-]; left; split; reflexivity].
  destruct (campo "tipo" campos) as [jt |];
    [| intros [= <- <-]; left; split; reflexivity].
  destruct (campo "cantidad_ml" campos) as [jc |];
    [| intros [= <- <-]; left; split; reflexivity].
  destruct (ligar jp) as [vp |];
    [| intros [= <- <-]; left; split; reflexivity].
  destruct (ligar ju) as [vu |];
    [| intros [= <- <-]; left; split; reflexivity].
  destruct (ligar jt) as [vt |];
    [| intros [= <- <-]; left; split; reflexivity].
  destruct (ligar jc) as [vc |];
    [| intros [= <- <-]; left; split; reflexivity].
  destruct (ligar _) as [vb |];
    [| intros [= <- <-]; left; split; reflexivity].
  destruct (ligar _) as [vn |];
    [| intros [= <- <-]; left; split; reflexivity].
  destruct (es_nulo vp || es_nulo vu || es_nulo vt || es_nulo vc);
    [intros [= <- <-]; left; split; reflexivity |].
  destruct (col_INTEGER vp) as [| p |]; try discriminate.
  destruct (col_INTEGER vu) as [| u |]; try discriminate.
  destruct (col_TEXT vt) as [| t |]; try discriminate.
  destruct (col_REAL vc) as [| c |]; try discriminate.
  destruct (opcional (col_REAL vb)) as [b |]; try discriminate.
  destruct (opcional (col_TEXT vn)) as [n |]; try discriminate.
  simpl. intros [= <- <-]. right. split; [reflexivity |].
  now repeat eexists.
Qed.








(** ** Ordered results *)

Section Ordenar.

Context {A : Type} (le : A -> A -> bool).

Hypothesis le_total : forall a b, le a b = true \/ le b a = true.

Lemma insertar_por_perm (x : A) (l : list A) :
  Permutation (insertar_por le x l) (x :: l).
Proof.
  induction l as [| y l IH]; simpl.
  - apply Permutation_refl.
  - destruct (le x y).
    + apply Permutation_refl.
    + apply perm_trans with (y :: x :: l).
      * now apply perm_skip.
      * apply perm_swap.
Qed.

Lemma ordenar_por_perm (l : list A) : Permutation (ordenar_por le l) l.
Proof.
  induction l as [| x l IH]; simpl.
  - apply perm_nil.
  - apply perm_trans with (x :: ordenar_por le l).
    + apply insertar_por_perm.
    + now apply perm_skip.
Qed.

Lemma insertar_por_HdRel (a x : A) (l : list A) :
  le a x = true ->
  HdRel (fun u v => le u v = true) a l ->
  HdRel (fun u v => le u v = true) a (insertar_por le x l).
Proof.
  intros Hax Hl. destruct l as [| y l]; simpl.
  - now constructor.
  - destruct (le x y); constructor; [exact Hax |].
    now inversion Hl.
Qed.

Lemma insertar_por_sorted (x : A) (l : list A) :
  Sorted (fun u v => le u v = true) l ->
  Sorted (fun u v => le u v = true) (insertar_por le x l).
Proof.
  induction l as [| y l IH]; simpl; intro Hs.
  - repeat constructor.
  - destruct (le x y) eqn:E.
    + constructor; [exact Hs | now constructor].
    + inversion Hs as [| ? ? Hs' Hhd]; subst.
      constructor; [now apply IH |].
      apply insertar_por_HdRel; [| exact Hhd].
      destruct (le_total x y) as [H | H]; congruence.
Qed.

Lemma ordenar_por_sorted (l : list A) :
  Sorted (fun u v => le u v = true) (ordenar_por le l).
Proof.
  induction l as [| x l IH]; simpl.
  - constructor.
  - now apply insertar_por_sorted.
Qed.

End Ordenar.

Lemma Sorted_map {A B : Type} (f : A -> B) (R : B -> B -> Prop)
    (l : list A) :
  Sorted (fun a b => R (f a) (f b)) l -> Sorted R (map f l).
Proof.
  induction 1 as [| a l Hs IH Hhd]; simpl; constructor; auto.
  destruct Hhd; simpl; now constructor.
Qed.

Lemma ORDER_BY_nombre_ordenar (l : list productos.fila) :
  ORDER_BY_nombre l =
  ordenar_por (fun p q => String.leb (productos.nombre p) (productos.nombre q))
              l.
Proof.
  unfold ORDER_BY_nombre, ordenar_por.
  induction l as [| p l IH]; simpl; [reflexivity |].
  rewrite IH. clear IH.
  induction (fold_right
               (insertar_por
                  (fun p q => String.leb (productos.nombre p)
                                         (productos.nombre q))) [] l)
    as [| q r IHr]; simpl; [reflexivity |].
  now rewrite IHr.
Qed.

Lemma ORDER_BY_nombre_perm (l : list productos.fila) :
  Permutation (ORDER_BY_nombre l) l.
Proof. rewrite ORDER_BY_nombre_ordenar. apply ordenar_por_perm. Qed.

Lemma ORDER_BY_nombre_sorted (l : list productos.fila) :
  Sorted por_nombre (map productos.nombre (ORDER_BY_nombre l)).
Proof.
  rewrite ORDER_BY_nombre_ordenar. apply Sorted_map.
  apply (ordenar_por_sorted
           (fun p q => String.leb (productos.nombre p) (productos.nombre q))).
  intros a b. apply String.leb_total.
Qed.

(** ** The inventory listing *)

Lemma filter_todos {A : Type} (f : A -> bool) (l : list A) :
  (forall x, In x l -> f x = true) -> filter f l = l.
Proof.
  induction l as [| x l IH]; simpl; intro H; [reflexivity |].
  rewrite (H x (or_introl eq_refl)). f_equal. apply IH.
  intros y Hy. apply H. now right.
Qed.

Lemma productos_visibles_alcance (s : Sesion) (db : DB) :
  productos_visibles s db =
  ORDER_BY_nombre (filter (en_alcance s) (t_productos db)).
Proof.
  unfold productos_visibles, en_alcance.
  destruct (String.eqb (user_role s) "admin"); simpl.
  - now rewrite filter_todos.
  - reflexivity.
Qed.

Lemma productos_visibles_In (s : Sesion) (db : DB) (p : productos.fila) :
  In p (productos_visibles s db) <->
  In p (t_productos db) /\ en_alcance s p = true.
Proof.
  rewrite productos_visibles_alcance, <- filter_In.
  split; apply Permutation_in;
    [| apply Permutation_sym]; apply ORDER_BY_nombre_perm.
Qed.

Lemma producto_por_id_existe (db : DB) (p : productos.fila) :
  In p (t_productos db) ->
  exists q, producto_por_id db (productos.id p) = Some q.
Proof.
  intro Hin. unfold producto_por_id.
  destruct (find (fun q => Z.eqb (productos.id q) (productos.id p))
                 (t_productos db)) as [q |] eqn:E.
  - now exists q.
  - pose proof (find_none _ _ E p Hin) as H. simpl in H.
    rewrite Z.eqb_refl in H. discriminate.
Qed.

Lemma fila_inventario_existe (db : DB) (p : productos.fila) :
  In p (t_productos db) ->
  exists f, fila_inventario db p = Some f /\
            f_nombre f = productos.nombre p /\
            f_botellas f = productos.botellas_completas p /\
            f_disponible f = total_ml db (productos.id p) /\
            (f_estado f = Bajo -> total_ml db (productos.id p) <> None).
Proof.
  intro Hin. unfold fila_inventario.
  destruct (total_ml db (productos.id p)) as [t |].
  - destruct (producto_por_id_existe db p Hin) as [q ->].
    eexists. split; [reflexivity |]. simpl. repeat split; discriminate.
  - eexists. split; [reflexivity |]. simpl. repeat split; discriminate.
Qed.

Lemma filas_inventario_existen (db : DB) (l : list productos.fila) :
  (forall p, In p l -> In p (t_productos db)) ->
  exists fs,
    filas_inventario db l = Some fs /\
    map f_nombre fs = map productos.nombre l /\
    map f_botellas fs = map productos.botellas_completas l /\
    map f_disponible fs = map (fun p => total_ml db (productos.id p)) l.
Proof.
  induction l as [| p l IH]; simpl; intro Hsub.
  - exists []. repeat split; reflexivity.
  - destruct (fila_inventario_existe db p (Hsub p (or_introl eq_refl)))
      as [f [-> [Hn [Hb [Hd _]]]]].
    destruct IH as [fs [-> [Hns [Hbs Hds]]]];
      [intros q Hq; apply Hsub; now right |].
    exists (f :: fs). simpl. rewrite Hn, Hb, Hd, Hns, Hbs, Hds.
    repeat split; reflexivity.
Qed.

(** X1.  The listing never fails: it shows one row for each product in the
    scope of the session, no other row, in the byte order of the names,
    each with the unsigned sum of the product's movements. *)
Theorem listado_completo_y_ordenado :
  forall (s : Sesion) (db : DB),
  exists fs r,
    actualizar_inventario s db = Some (fs, r) /\
    Sorted por_nombre (map f_nombre fs) /\
    Permutation (map f_nombre fs)
                (map productos.nombre
                     (filter (en_alcance s) (t_productos db))) /\
    map f_disponible fs =
    map (fun p => total_ml db (productos.id p)) (productos_visibles s db).
Proof.
  intros s db. unfold actualizar_inventario.
  destruct (filas_inventario_existen db (productos_visibles s db))
    as [fs [-> [Hn [_ Hd]]]].
  - intros p Hp. now apply productos_visibles_In in Hp.
  - exists fs, (resumen_de fs). split; [reflexivity |].
    rewrite Hn. split; [| split; [| exact Hd]].
    + rewrite productos_visibles_alcance. apply ORDER_BY_nombre_sorted.
    + rewrite productos_visibles_alcance. apply Permutation_map.
      apply ORDER_BY_nombre_perm.
Qed.


(** X2.  The scope of the listing query: an administrator gets every product,
    another role gets the products of the session's location and no
    other, and a session without location gets none. *)
Theorem alcance_del_listado :
  forall (s : Sesion) (db : DB) (p : productos.fila),
    In p (productos_visibles s db) <->
    In p (t_productos db) /\
    (user_role s = "admin"%string \/
     local_id s = Some (productos.local_id p)).
Proof.
  intros s db p. rewrite productos_visibles_In. unfold en_alcance.
  rewrite orb_true_iff, String.eqb_eq.
  destruct (local_id s) as [l |].
  - rewrite Z.eqb_eq. split; intros [Hin [H | H]]; split; auto.
    + right. now subst.
    + right. now injection H as ->.
  - split; intros [Hin [H | H]]; split; auto; discriminate.
Qed.

Lemma suma_Z_perm (l l' : list Z) :
  Permutation l l' -> fold_right Z.add 0%Z l = fold_right Z.add 0%Z l'.
Proof.
  induction 1; simpl; lia.
Qed.

Lemma fold_left_botellas (fs : list FilaInventario) (acc : Z) :
  fold_left (fun a f => (a + f_botellas f)%Z) fs acc =
  (acc + fold_right Z.add 0%Z (map f_botellas fs))%Z.
Proof.
  revert acc. induction fs as [| f fs IH]; intro acc; simpl.
  - lia.
  - rewrite IH. lia.
Qed.

(** X3.  The summary labels: the number of products is the number of products
    in scope, the number of complete bottles is the sum of their
    counters, and the number of low products lies between 0 and the
    number of products that have a movement. *)
Theorem resumen_del_listado :
  forall (s : Sesion) (db : DB),
  exists fs r,
    actualizar_inventario s db = Some (fs, r) /\
    total_productos r
    = Z.of_nat (List.length (filter (en_alcance s) (t_productos db))) /\
    total_botellas r
    = fold_right Z.add 0%Z
        (map productos.botellas_completas
             (filter (en_alcance s) (t_productos db))) /\
    (0 <= bajos_inventario r
     <= Z.of_nat (List.length
                    (filter (fun p => match total_ml db (productos.id p) with
                                      | Some _ => true
                                      | None => false
                                      end)
                            (productos_visibles s db))))%Z.
Proof.
  intros s db. unfold actualizar_inventario.
  destruct (filas_inventario_existen db (productos_visibles s db))
    as [fs [Hfs [Hn [Hb Hd]]]].
  - intros p Hp. now apply productos_visibles_In in Hp.
  - rewrite Hfs. exists fs, (resumen_de fs). split; [reflexivity |].
    assert (Hperm : Permutation (productos_visibles s db)
                                (filter (en_alcance s) (t_productos db))).
    { rewrite productos_visibles_alcance. apply ORDER_BY_nombre_perm. }
    unfold resumen_de. simpl. split; [| split].
    + rewrite <- (Permutation_length Hperm).
      rewrite <- (length_map f_nombre fs), Hn, length_map. reflexivity.
    + rewrite fold_left_botellas, Hb. simpl.
      apply suma_Z_perm. now apply Permutation_map.
    + split; [lia |]. apply inj_le.
      clear Hn Hb Hperm.
      revert fs Hfs Hd.
      induction (productos_visibles s db) as [| p l IH]; simpl;
        intros fs Hfs Hd.
      * injection Hfs as <-. simpl. lia.
      * destruct (fila_inventario db p) as [f |] eqn:Ef; [| discriminate].
        destruct (filas_inventario db l) as [fs' |] eqn:Efs;
          [| discriminate].
        injection Hfs as <-. simpl in Hd. injection Hd as Hdf Hd.
        specialize (IH fs' eq_refl Hd).
        cbn [filter].
        destruct (es_bajo f) eqn:Eb.
        -- assert (Hsome : total_ml db (productos.id p) <> None).
           { unfold fila_inventario in Ef.
             destruct (total_ml db (productos.id p)); [discriminate |].
             injection Ef as <-. discriminate. }
           destruct (total_ml db (productos.id p)); [| congruence].
           cbn [List.length]. lia.
        -- destruct (total_ml db (productos.id p)); cbn [List.length]; lia.
Qed.

(** ** [GET /api/productos] *)

(** X4.  The endpoint answers exactly the active products (of the requested
    location, when one is requested), each with its signed total, in the
    byte order of the names. *)
Theorem get_productos_activos_y_ordenados :
  forall (arg_local_id : option Z) (db : DB),
    (forall p t,
        In (p, t) (get_productos arg_local_id db) <->
        In p (t_productos db) /\ productos.activo p = 1%Z /\
        (forall l, arg_local_id = Some l -> productos.local_id p = l) /\
        t = total_ml_api db (productos.id p)) /\
    Sorted por_nombre
           (map (fun pt => productos.nombre (fst pt))
                (get_productos arg_local_id db)).
Proof.
  intros arg db. unfold get_productos. split.
  - intros p t. rewrite in_map_iff. split.
    + intros [q [[= <- <-] Hq]].
      apply (Permutation_in _ (ORDER_BY_nombre_perm _)) in Hq.
      destruct arg as [l |]; apply filter_In in Hq; destruct Hq as [Hin Hf].
      * apply andb_true_iff in Hf. destruct Hf as [Hl Ha].
        apply Z.eqb_eq in Hl, Ha. repeat split; auto.
        intros l' [= <-]. exact Hl.
      * apply Z.eqb_eq in Hf. repeat split; auto. discriminate.
    + intros [Hin [Ha [Hl ->]]]. exists p. split; [reflexivity |].
      apply (Permutation_in _ (Permutation_sym (ORDER_BY_nombre_perm _))).
      destruct arg as [l |]; apply filter_In; split; auto.
      * rewrite (Hl l eq_refl), Ha, !Z.eqb_refl. reflexivity.
      * rewrite Ha. reflexivity.
  - rewrite map_map. simpl. apply ORDER_BY_nombre_sorted.
Qed.


(** ** Movements are only ever appended *)

Lemma solo_agrega_refl (db : DB) : solo_agrega db db.
Proof.
  repeat split. exists []. split; [now rewrite app_nil_r | simpl; lia].
Qed.

Lemma solo_agrega_insertar ahora pid uid t q pb n db :
  solo_agrega db (insertar_movimiento ahora pid uid t q pb n db).
Proof.
  repeat split. eexists. split; [reflexivity | simpl; lia].
Qed.

Lemma solo_agrega_botellas ahora pid uid t q pb n d i db :
  solo_agrega db
    (insertar_movimiento ahora pid uid t q pb n (actualizar_botellas d i db)).
Proof.
  repeat split. eexists. split; [reflexivity | simpl; lia].
Qed.

(** X5.  Whatever they are given, the weight registration, the two bottle
    handlers and the POST endpoint never delete or change a stored
    movement, never touch the locations or the users, and add at most
    one movement, after the stored ones. *)
Theorem movimientos_solo_se_agregan :
  forall (db : DB) (s : Sesion) (ahora : Z),
    (forall seleccion entry_peso confirma,
        solo_agrega db
          (snd (registrar_peso seleccion entry_peso confirma ahora s db))) /\
    (forall seleccion,
        solo_agrega db
          (snd (agregar_botella_completa seleccion ahora s db))) /\
    (forall seleccion,
        solo_agrega db
          (snd (quitar_botella_completa seleccion ahora s db))) /\
    (forall data,
        solo_agrega db (snd (movimientos_post data ahora db))).
Proof.
  intros db s ahora. split; [| split; [| split]].
  - intros seleccion entry_peso confirma. unfold registrar_peso.
    destruct seleccion as [item |]; [| apply solo_agrega_refl].
    destruct entry_peso as [peso |]; [| apply solo_agrega_refl].
    destruct (producto_por_nombre db (f_nombre item)) as [p |];
      [| apply solo_agrega_refl].
    destruct (Qeq_bool (productos.densidad p) 0); [apply solo_agrega_refl |].
    destruct (determinar_tipo _ _ _);
      [apply solo_agrega_insertar | apply solo_agrega_refl].
  - intros seleccion. unfold agregar_botella_completa.
    destruct seleccion as [item |]; [| apply solo_agrega_refl].
    destruct (producto_por_nombre db (f_nombre item)) as [p |];
      [apply solo_agrega_botellas | apply solo_agrega_refl].
  - intros seleccion. unfold quitar_botella_completa.
    destruct seleccion as [item |]; [| apply solo_agrega_refl].
    destruct (f_botellas item <=? 0)%Z; [apply solo_agrega_refl |].
    destruct (producto_por_nombre db (f_nombre item)) as [p |];
      [apply solo_agrega_botellas | apply solo_agrega_refl].
  - intros data. unfold movimientos_post.
    destruct (m_producto_id data), (m_user_id data), (m_tipo data),
      (m_cantidad_ml data);
      first [apply solo_agrega_insertar | apply solo_agrega_refl].
Qed.

(** ** The ids of the movements *)

Lemma sin_repetidos_app_nuevo (l : list Z) (x : Z) :
  sin_repetidos l = true ->
  (forall y, In y l -> (y < x)%Z) ->
  sin_repetidos (l ++ [x]) = true.
Proof.
  induction l as [| y l IH]; simpl; intros Hl Hlt; [reflexivity |].
  apply andb_true_iff in Hl. destruct Hl as [Hy Hl].
  apply andb_true_iff. split.
  - apply negb_true_iff. apply negb_true_iff in Hy.
    rewrite existsb_app, Hy. simpl.
    destruct (Z.eqb_spec y x) as [E | _]; [| reflexivity].
    specialize (Hlt y (or_introl eq_refl)). lia.
  - apply IH; [exact Hl |]. intros z Hz. apply Hlt. now right.
Qed.

Lemma sin_repetidos_filter {A : Type} (f : A -> Z) (g : A -> bool)
    (l : list A) :
  sin_repetidos (map f l) = true ->
  sin_repetidos (map f (filter g l)) = true.
Proof.
  induction l as [| x l IH]; simpl; intro H; [reflexivity |].
  apply andb_true_iff in H. destruct H as [Hx Hl].
  destruct (g x); simpl; [| now apply IH].
  apply andb_true_iff. split; [| now apply IH].
  apply negb_true_iff. apply negb_true_iff in Hx.
  destruct (existsb (Z.eqb (f x)) (map f (filter g l))) eqn:E;
    [| reflexivity].
  apply existsb_eqb_In in E. apply in_map_iff in E.
  destruct E as [y [Hy Hin]]. apply filter_In in Hin.
  assert (Hc : existsb (Z.eqb (f x)) (map f l) = true).
  { apply existsb_eqb_In. rewrite <- Hy. apply in_map. tauto. }
  congruence.
Qed.

Lemma ids_ok_insertar ahora pid uid t q pb n db :
  ids_movimientos_ok db = true ->
  ids_movimientos_ok (insertar_movimiento ahora pid uid t q pb n db) = true.
Proof.
  unfold ids_movimientos_ok, insertar_movimiento. simpl.
  rewrite !andb_true_iff, !forallb_forall. intros [Hnd Hle]. split.
  - rewrite map_app. simpl. apply sin_repetidos_app_nuevo; [exact Hnd |].
    intros y Hy. apply in_map_iff in Hy. destruct Hy as [m [<- Hm]].
    specialize (Hle m Hm). apply Z.leb_le in Hle. lia.
  - intros m Hm. apply in_app_iff in Hm. apply Z.leb_le.
    destruct Hm as [Hm | [<- | []]]; simpl; [| lia].
    specialize (Hle m Hm). apply Z.leb_le in Hle. lia.
Qed.

Lemma ids_ok_filter (g : movimientos.fila -> bool) (db : DB) :
  ids_movimientos_ok db = true ->
  ids_movimientos_ok
    (mkDB (t_locales db) (t_usuarios db) (t_productos db)
          (filter g (t_movimientos db)) (seq_movimientos db)) = true.
Proof.
  unfold ids_movimientos_ok. simpl.
  rewrite !andb_true_iff, !forallb_forall. intros [Hnd Hle]. split.
  - now apply sin_repetidos_filter.
  - intros m Hm. apply filter_In in Hm. now apply Hle.
Qed.

Lemma avanza_refl (db : DB) : avanza db db.
Proof. split; [lia | auto]. Qed.

Lemma avanza_trans (a b c : DB) : avanza a b -> avanza b c -> avanza a c.
Proof.
  intros [H1 H2] [H3 H4]. split; [lia |].
  intros m Hm. destruct (H4 m Hm) as [Hb | Hlt]; [| right; lia].
  exact (H2 m Hb).
Qed.

Lemma avanza_insertar ahora pid uid t q pb n db db1 :
  t_movimientos db1 = t_movimientos db ->
  seq_movimientos db1 = seq_movimientos db ->
  avanza db (insertar_movimiento ahora pid uid t q pb n db1).
Proof.
  intros Hm Hs. unfold avanza, insertar_movimiento. simpl.
  rewrite Hm, Hs. split; [lia |].
  intros m Hin. apply in_app_iff in Hin.
  destruct Hin as [Hin | [<- | []]]; [now left |]. right. simpl. lia.
Qed.

Lemma avanza_filter (db db' : DB) (g : movimientos.fila -> bool) :
  t_movimientos db' = filter g (t_movimientos db) ->
  seq_movimientos db' = seq_movimientos db ->
  avanza db db'.
Proof.
  intros Hm Hs. unfold avanza. rewrite Hm, Hs. split; [lia |].
  intros m Hin. apply filter_In in Hin. tauto.
Qed.

Lemma ids_ok_mismos (db db' : DB) :
  t_movimientos db' = t_movimientos db ->
  seq_movimientos db' = seq_movimientos db ->
  ids_movimientos_ok db = true -> ids_movimientos_ok db' = true.
Proof.
  unfold ids_movimientos_ok. now intros -> ->.
Qed.

(** One step keeps the ids distinct and below the sequence, does not
    lower the sequence, and numbers a new row above it. *)
Lemma paso_avanza (db db' : DB) :
  paso db db' ->
  avanza db db' /\
  (ids_movimientos_ok db = true -> ids_movimientos_ok db' = true).
Proof.
  intros [seleccion entry_peso confirma ahora s d
         | seleccion ahora s d | seleccion ahora s d
         | data ahora d r d' Hpost
         | seleccion confirmacion d | seleccion confirmacion s d
         | seleccion confirmacion d].
  - unfold registrar_peso.
    destruct seleccion as [item |]; [| split; [apply avanza_refl | auto]].
    destruct entry_peso as [peso |]; [| split; [apply avanza_refl | auto]].
    destruct (producto_por_nombre d (f_nombre item)) as [p |];
      [| split; [apply avanza_refl | auto]].
    destruct (Qeq_bool (productos.densidad p) 0);
      [split; [apply avanza_refl | auto] |].
    destruct (determinar_tipo _ _ _);
      [| split; [apply avanza_refl | auto]].
    simpl. split; [now apply avanza_insertar | apply ids_ok_insertar].
  - unfold agregar_botella_completa.
    destruct seleccion as [item |]; [| split; [apply avanza_refl | auto]].
    destruct (producto_por_nombre d (f_nombre item)) as [p |];
      [| split; [apply avanza_refl | auto]].
    simpl. split; [now apply avanza_insertar |].
    intro H. now apply ids_ok_insertar.
  - unfold quitar_botella_completa.
    destruct seleccion as [item |]; [| split; [apply avanza_refl | auto]].
    destruct (f_botellas item <=? 0)%Z;
      [split; [apply avanza_refl | auto] |].
    destruct (producto_por_nombre d (f_nombre item)) as [p |];
      [| split; [apply avanza_refl | auto]].
    simpl. split; [now apply avanza_insertar |].
    intro H. now apply ids_ok_insertar.
  - apply api_movimientos_post_efecto in Hpost.
    destruct Hpost as [[_ ->] | [_ [p [u [t [c [b [n ->]]]]]]]].
    + split; [apply avanza_refl | auto].
    + split; [now apply avanza_insertar | apply ids_ok_insertar].
  - unfold eliminar_producto.
    destruct seleccion as [[i n] |]; [| split; [apply avanza_refl | auto]].
    destruct confirmacion; simpl; [| split; [apply avanza_refl | auto]].
    split; [| intro H; now apply (ids_ok_filter _ d)].
    apply avanza_filter
      with (g := fun m => negb (Z.eqb (movimientos.producto_id m) i));
      reflexivity.
  - unfold eliminar_usuario.
    destruct seleccion as [[i n] |]; [| split; [apply avanza_refl | auto]].
    destruct (Z.eqb i (user_id s)); [split; [apply avanza_refl | auto] |].
    destruct confirmacion; simpl; [| split; [apply avanza_refl | auto]].
    split; [| intro H; now apply (ids_ok_filter _ d)].
    apply avanza_filter
      with (g := fun m => negb (Z.eqb (movimientos.user_id m) i));
      reflexivity.
  - unfold eliminar_local.
    destruct seleccion as [[i n] |]; [| split; [apply avanza_refl | auto]].
    destruct (0 <? productos_del_local d i)%nat;
      [split; [apply avanza_refl | auto] |].
    destruct (0 <? usuarios_del_local d i)%nat;
      [split; [apply avanza_refl | auto] |].
    destruct confirmacion; simpl; [| split; [apply avanza_refl | auto]].
    split; [split; simpl; [lia | auto] |].
    now apply ids_ok_mismos.
Qed.

Lemma historia_avanza (db db' : DB) :
  historia db db' ->
  avanza db db' /\
  (ids_movimientos_ok db = true -> ids_movimientos_ok db' = true).
Proof.
  induction 1 as [db | db db' db'' _ [IH1 IH2] Hp].
  - split; [apply avanza_refl | auto].
  - apply paso_avanza in Hp. destruct Hp as [Hp1 Hp2].
    split; [exact (avanza_trans _ _ _ IH1 Hp1) | auto].
Qed.

Lemma sin_repetidos_inyectiva {A : Type} (f : A -> Z) (l : list A)
    (a b : A) :
  sin_repetidos (map f l) = true ->
  In a l -> In b l -> f a = f b -> a = b.
Proof.
  induction l as [| x l IH]; simpl; [contradiction |].
  intros H Ha Hb E. apply andb_true_iff in H. destruct H as [Hx Hl].
  apply negb_true_iff in Hx.
  assert (Hno : forall y, In y l -> f x <> f y).
  { intros y Hy Exy.
    assert (Hc : existsb (Z.eqb (f x)) (map f l) = true).
    { apply existsb_eqb_In. rewrite Exy. now apply in_map. }
    congruence. }
  destruct Ha as [-> | Ha], Hb as [-> | Hb]; auto.
  - exfalso. exact (Hno b Hb E).
  - exfalso. exact (Hno a Ha (eq_sym E)).
Qed.

(** X6.  An id is never given twice, not even after deletions.  Along
    any history of the handlers that starts from a store whose ids are
    distinct and at most the sequence number, between an earlier store
    and a later one: the sequence number has not gone down; every id of
    the earlier store is at most its sequence number, and every movement
    of the later store that is not a movement of the earlier one has an
    id above it; so a movement of the later store that has the id of a
    movement of the earlier store is that movement. *)
Theorem ids_de_movimientos_unicos :
  forall (db0 db1 db2 : DB),
    ids_movimientos_ok db0 = true ->
    historia db0 db1 ->
    historia db1 db2 ->
    (seq_movimientos db1 <= seq_movimientos db2)%Z /\
    (forall m, In m (t_movimientos db1) ->
               (movimientos.id m <= seq_movimientos db1)%Z) /\
    (forall m, In m (t_movimientos db2) ->
               In m (t_movimientos db1) \/
               (seq_movimientos db1 < movimientos.id m)%Z) /\
    (forall m1 m2,
        In m1 (t_movimientos db1) -> In m2 (t_movimientos db2) ->
        movimientos.id m1 = movimientos.id m2 -> m2 = m1).
Proof.
  intros db0 db1 db2 H0 H01 H12.
  apply historia_avanza in H01. destruct H01 as [_ Hok1].
  specialize (Hok1 H0).
  apply historia_avanza in H12. destruct H12 as [[Hseq Hnew] _].
  unfold ids_movimientos_ok in Hok1. apply andb_true_iff in Hok1.
  destruct Hok1 as [Hnd Hle]. rewrite forallb_forall in Hle.
  assert (Hle' : forall m, In m (t_movimientos db1) ->
                           (movimientos.id m <= seq_movimientos db1)%Z).
  { intros m Hm. apply Z.leb_le. now apply Hle. }
  split; [exact Hseq |]. split; [exact Hle' |]. split; [exact Hnew |].
  intros m1 m2 Hm1 Hm2 E.
  destruct (Hnew m2 Hm2) as [Hin | Hlt].
  - symmetry. exact (sin_repetidos_inyectiva movimientos.id _ m1 m2 Hnd
                       Hm1 Hin E).
  - specialize (Hle' m1 Hm1). lia.
Qed.

(** The second user of [db_bar] is deleted, and with the user the
    movements 2 and 3; the movement posted next is numbered 4. *)
Lemma ids_de_movimientos_witness :
  historia db_bar db_bar_despues /\
  (seq_movimientos db_bar <= seq_movimientos db_bar_despues)%Z /\
  forall m, In m (t_movimientos db_bar_despues) ->
            In m (t_movimientos db_bar) \/ (3 < movimientos.id m)%Z.
Proof.
  assert (H : historia db_bar db_bar_despues).
  { apply (historia_paso db_bar
             (snd (eliminar_usuario (Some (2%Z, "ana"%string)) true admin
                     db_bar))).
    - apply (historia_paso db_bar db_bar); [apply historia_vacia |].
      apply paso_eliminar_usuario.
    - apply (paso_post
               (cuerpo (JEntero 1) (JEntero 1) (JTexto "entrada")
                       (JEntero 10)) 40 _ Creado).
      reflexivity. }
  split; [exact H |].
  destruct (ids_de_movimientos_unicos db_bar db_bar db_bar_despues eq_refl
              (historia_vacia db_bar) H) as [Hs [_ [Hn _]]].
  split; [exact Hs | exact Hn].
Defined.

(** ** The reading a new weight is compared with *)



Lemma producto_por_nombre_actualizar (d i : Z) (db : DB) (n : string) :
  producto_por_nombre (actualizar_botellas d i db) n =
  option_map (fun p => if Z.eqb (productos.id p) i
                       then productos.set_botellas d p else p)
             (producto_por_nombre db n).
Proof.
  unfold producto_por_nombre, actualizar_botellas. simpl.
  induction (t_productos db) as [| q l IH]; simpl; [reflexivity |].
  destruct (Z.eqb (productos.id q) i) eqn:Ei;
    unfold productos.set_botellas; simpl;
    destruct (String.eqb (productos.nombre q) n); simpl;
    try rewrite Ei; auto.
Qed.



Lemma B64_ultimo_movimiento_tras_insertar (db : B64.DB) (ps : list
    B64.productos.fila) (r : B64.movimientos.fila) (sp sm : Z) :
  (forall m, In m (B64.t_movimientos db) ->
             B64.movimientos.producto_id m
             = B64.movimientos.producto_id r ->
             (B64.movimientos.fecha m < B64.movimientos.fecha r)%Z) ->
  B64.ultimo_movimiento
    (B64.mkDB (B64.t_locales db) (B64.t_usuarios db) ps
              (B64.t_movimientos db ++ [r]) sp sm)
    (B64.movimientos.producto_id r)
  = Some r.
Proof.
  intro Hant. unfold B64.ultimo_movimiento, B64.movimientos_de. simpl.
  rewrite filter_app. simpl. rewrite Z.eqb_refl, fold_left_app. simpl.
  destruct (fold_left B64.mas_reciente
              (filter (fun m => (B64.movimientos.producto_id m
                                 =? B64.movimientos.producto_id r)%Z)
                      (B64.t_movimientos db)) None) as [b |] eqn:E;
    simpl; [| reflexivity].
  assert (Hb : In b (filter (fun m => (B64.movimientos.producto_id m
                                       =? B64.movimientos.producto_id r)%Z)
                            (B64.t_movimientos db))).
  { destruct (filter _ (B64.t_movimientos db)) as [| x l];
      [discriminate |]. simpl in E.
    apply B64_fold_mas_reciente_max in E. destruct E as [[-> | H] _];
      [now left | now right]. }
  apply filter_In in Hb. destruct Hb as [Hb1 Hb2].
  apply Z.eqb_eq in Hb2. specialize (Hant b Hb1 Hb2).
  apply Z.ltb_lt in Hant. now rewrite Hant.
Qed.

Lemma B64_producto_por_nombre_actualizar (d i : Z) (db : B64.DB)
    (nombre : ValorTk) :
  B64.producto_por_nombre (B64.actualizar_botellas d i db) nombre =
  option_map
    (option_map (fun p => if Z.eqb (B64.productos.id p) i
                          then B64.productos.set_botellas d p else p))
    (B64.producto_por_nombre db nombre).
Proof.
  unfold B64.producto_por_nombre, B64.actualizar_botellas. simpl.
  destruct (texto_buscado nombre) as [n |]; [| reflexivity]. simpl.
  f_equal.
  induction (B64.t_productos db) as [| q l IH]; simpl; [reflexivity |].
  destruct (Z.eqb (B64.productos.id q) i) eqn:Ei;
    unfold B64.productos.set_botellas; simpl;
    destruct (String.eqb (B64.productos.nombre q) n); simpl;
    try rewrite Ei; auto.
Qed.

(** X9.  A weight registered after a complete bottle was added is compared
    with the capacity of the bottle, which is the quantity of the latest
    movement: the reading is an inflow exactly when the computed
    difference between its volume and [capacidad_ml] is above 0, and an
    outflow otherwise. *)
Theorem lectura_tras_botella_completa :
  forall (nombre : ValorTk) (peso_total : float) (confirma : bool)
         (t1 t2 : Z) (s : Sesion) (db : B64.DB)
         (producto : B64.productos.fila),
    B64.producto_por_nombre db nombre = Some (Some producto) ->
    B64.es_nan (B64.productos.capacidad_ml producto) = false ->
    (B64.productos.densidad producto =? 0)%float = false ->
    (0 <=? (peso_total - B64.productos.peso_envase producto)
           / B64.productos.densidad producto)%float = true ->
    (forall m, In m (B64.t_movimientos db) ->
               B64.movimientos.producto_id m = B64.productos.id producto ->
               (B64.movimientos.fecha m < t1)%Z) ->
    fst (B64.registrar_peso (Some nombre) (Some peso_total) confirma t2 s
           (snd (B64.agregar_botella_completa (Some nombre) t1 s db)))
    = B64.Registrado
        ((peso_total - B64.productos.peso_envase producto)
         / B64.productos.densidad producto)%float
        (if (0 <? (peso_total - B64.productos.peso_envase producto)
                  / B64.productos.densidad producto
                  - B64.productos.capacidad_ml producto)%float
         then "entrada" else "salida").
Proof.
  intros nombre peso confirma t1 t2 s db producto Hf Hc Hd Hv Hant.
  unfold B64.agregar_botella_completa, B64.insertar_movimiento.
  rewrite Hf, Hc. cbv zeta. simpl snd.
  match goal with
  | |- context [B64.registrar_peso _ _ _ _ _ ?d] => set (db2 := d)
  end.
  assert (Hf2 : B64.producto_por_nombre db2 nombre
                = Some (Some (B64.productos.set_botellas 1 producto))).
  { change (B64.producto_por_nombre
              (B64.actualizar_botellas 1 (B64.productos.id producto) db)
              nombre
            = Some (Some (B64.productos.set_botellas 1 producto))).
    rewrite B64_producto_por_nombre_actualizar, Hf. simpl.
    now rewrite Z.eqb_refl. }
  rewrite (B64_registrar_peso_no_negativo nombre peso confirma t2 s db2
             (B64.productos.set_botellas 1 producto) Hf2 Hd Hv).
  cbv zeta. simpl fst.
  change (B64.productos.id (B64.productos.set_botellas 1 producto))
    with (B64.productos.id producto).
  unfold db2, B64.actualizar_botellas. simpl B64.seq_movimientos.
  simpl B64.t_movimientos. simpl B64.t_locales. simpl B64.t_usuarios.
  simpl B64.seq_productos.
  rewrite (B64_ultimo_movimiento_tras_insertar db _
             (B64.movimientos.Fila (B64.seq_movimientos db + 1)
                (B64.productos.id producto) (user_id s) "entrada"
                (B64.productos.capacidad_ml producto) None
                (Some (B64.Texto "Botella completa agregada")) t1)
             _ _ Hant).
  reflexivity.
Qed.

(** A bottle of 330 ml is added to a whisky of 0.94 g/ml in a bottle of
    300 g.  A reading of 610.2 g, whose quotient is 330.00000000000006,
    is an inflow; one of 600 g is an outflow. *)
Lemma lectura_tras_botella_witness :
  fst (B64.registrar_peso (Some (TkTexto "Whisky")) (Some 610.2%float)
         false 30 admin
         (snd (B64.agregar_botella_completa (Some (TkTexto "Whisky")) 20 admin
                 B64.db_vacia)))
  = B64.Registrado 330.00000000000006%float "entrada" /\
  exists v,
    fst (B64.registrar_peso (Some (TkTexto "Whisky")) (Some 600%float)
           false 30 admin
           (snd (B64.agregar_botella_completa (Some (TkTexto "Whisky")) 20
                   admin B64.db_vacia)))
    = B64.Registrado v "salida".
Proof.
  split.
  - apply (lectura_tras_botella_completa (TkTexto "Whisky") 610.2%float
             false 20 30 admin B64.db_vacia B64.whisky); try reflexivity.
    intros m [].
  - eexists.
    apply (lectura_tras_botella_completa (TkTexto "Whisky") 600%float false
             20 30 admin B64.db_vacia B64.whisky); try reflexivity.
    intros m [].
Defined.

(** 150 ml read after 200 ml: the listing shows 350 ml. *)
Lemma lecturas_se_acumulan_witness :
  exists total,
    total_ml
      (snd (registrar_peso
              (Some (mkFilaInventario "Ron" "Bacardi" "Ron" (Some 200) 0
                                      true OK))
              (Some 441) false 20 admin db_lectura)) 1
    = Some total /\
    total == 350.
Proof.
  destruct (lecturas_se_acumulan
              (mkFilaInventario "Ron" "Bacardi" "Ron" (Some 200) 0 true OK)
              441 false 20 admin db_lectura (ron 1 0 (2 # 10)))
    as [total [Ht He]].
  - reflexivity.
  - intro H. vm_compute in H. discriminate.
  - vm_compute. discriminate.
  - exists total. split; [exact Ht |]. rewrite He. vm_compute. reflexivity.
Defined.

(** ** The level of the desktop against the level of the endpoint *)

Lemma COALESCE_SUM (l : list Q) : COALESCE (SUM l) 0 = suma l.
Proof. now destruct l. Qed.

(** X11.  For every product and every history, the level of the desktop (0
    when it shows none) exceeds the total of the endpoint by twice the
    quantities of the movements whose kind is not 'entrada'. *)
Theorem escritorio_menos_api :
  forall (db : DB) (pid : Z),
    COALESCE (total_ml db pid) 0 - total_ml_api db pid ==
    2 * suma (cantidades
                (filter (fun m => negb (es_tipo "entrada" m))
                        (movimientos_de db pid))).
Proof.
  intros db pid. unfold total_ml, total_ml_api, cantidades.
  rewrite !COALESCE_SUM.
  induction (movimientos_de db pid) as [| m l IH]; simpl.
  - ring.
  - unfold caso_api at 1, es_tipo at 1.
    destruct (String.eqb (movimientos.tipo m) "entrada"); simpl; lra.
Qed.


(** ** Deleting a product or a user *)

Lemma filter_filter_comm {A : Type} (f g : A -> bool) (l : list A) :
  filter f (filter g l) = filter g (filter f l).
Proof.
  induction l as [| x l IH]; simpl; [reflexivity |].
  destruct (f x) eqn:Ef, (g x) eqn:Eg; simpl;
    rewrite ?Ef, ?Eg, IH; reflexivity.
Qed.

Lemma movimientos_de_tras_borrar_producto (i j : Z) (db : DB) :
  movimientos_de
    (borrar_producto i (borrar_movimientos_de_producto i db)) j
  = if Z.eqb j i then [] else movimientos_de db j.
Proof.
  unfold movimientos_de, borrar_producto, borrar_movimientos_de_producto.
  simpl. induction (t_movimientos db) as [| m l IH]; simpl.
  - now destruct (Z.eqb j i).
  - destruct (Z.eqb_spec (movimientos.producto_id m) i) as [E | N]; simpl.
    + rewrite IH. destruct (Z.eqb_spec j i) as [-> | Nj]; [reflexivity |].
      destruct (Z.eqb_spec (movimientos.producto_id m) j); [congruence |].
      reflexivity.
    + destruct (Z.eqb_spec (movimientos.producto_id m) j) as [Ej | Nj];
        rewrite IH; destruct (Z.eqb_spec j i); try congruence; reflexivity.
Qed.

(** X12.  A confirmed deletion of a product removes its row and its movements
    and nothing else: no movement refers to the product any more, the
    product has no level left, and every other product keeps its
    movements and so its level, on the desktop and at the endpoint.  A
    declined deletion changes nothing. *)
Theorem eliminar_producto_en_cascada :
  forall (db : DB) (id_producto : Z) (nombre : string),
    eliminar_producto (Some (id_producto, nombre)) false db = (Anulado, db) /\
    exists db',
      eliminar_producto (Some (id_producto, nombre)) true db = (Hecho, db') /\
      (forall p, In p (t_productos db') <->
                 In p (t_productos db) /\ productos.id p <> id_producto) /\
      (forall m, In m (t_movimientos db') <->
                 In m (t_movimientos db)
                 /\ movimientos.producto_id m <> id_producto) /\
      total_ml db' id_producto = None /\
      (forall j, j <> id_producto ->
                 movimientos_de db' j = movimientos_de db j /\
                 total_ml db' j = total_ml db j /\
                 total_ml_api db' j = total_ml_api db j).
Proof.
  intros db i n. split; [reflexivity |].
  eexists. split; [reflexivity |]. split; [| split; [| split]].
  - intro p. simpl. rewrite filter_In, negb_true_iff, Z.eqb_neq. tauto.
  - intro m. simpl. rewrite filter_In, negb_true_iff, Z.eqb_neq. tauto.
  - unfold total_ml. rewrite movimientos_de_tras_borrar_producto.
    now rewrite Z.eqb_refl.
  - intros j Hj. unfold total_ml, total_ml_api.
    rewrite movimientos_de_tras_borrar_producto.
    destruct (Z.eqb_spec j i); [congruence |]. repeat split.
Qed.

Lemma movimientos_de_tras_borrar_usuario (i j : Z) (db : DB) :
  movimientos_de (borrar_usuario i (borrar_movimientos_de_usuario i db)) j
  = filter (fun m => negb (Z.eqb (movimientos.user_id m) i))
           (movimientos_de db j).
Proof.
  unfold movimientos_de, borrar_usuario, borrar_movimientos_de_usuario.
  simpl. apply filter_filter_comm.
Qed.

(** X13.  Nobody deletes his own user: the handler refuses whatever is
    answered to the dialog.  A confirmed deletion of another user removes
    the user and, with him, every movement he recorded: the level of each
    product becomes the sum of the movements recorded by the others. *)
Theorem eliminar_usuario_en_cascada :
  forall (db : DB) (s : Sesion) (id_usuario : Z) (username : string),
    (forall confirmacion,
        eliminar_usuario (Some (user_id s, username)) confirmacion s db
        = (Rechazado NoEliminarseASiMismo, db)) /\
    (id_usuario <> user_id s ->
     eliminar_usuario (Some (id_usuario, username)) false s db
     = (Anulado, db) /\
     exists db',
       eliminar_usuario (Some (id_usuario, username)) true s db
       = (Hecho, db') /\
       (forall u, In u (t_usuarios db') <->
                  In u (t_usuarios db) /\ usuarios.id u <> id_usuario) /\
       (forall m, In m (t_movimientos db') <->
                  In m (t_movimientos db)
                  /\ movimientos.user_id m <> id_usuario) /\
       t_productos db' = t_productos db /\
       (forall pid,
           total_ml db' pid =
           SUM (cantidades
                  (filter (fun m => negb (Z.eqb (movimientos.user_id m)
                                                id_usuario))
                          (movimientos_de db pid))))).
Proof.
  intros db s i n. split.
  - intro c. unfold eliminar_usuario. now rewrite Z.eqb_refl.
  - intro Hne. unfold eliminar_usuario.
    destruct (Z.eqb_spec i (user_id s)); [congruence |].
    split; [reflexivity |]. eexists. split; [reflexivity |].
    split; [| split; [| split]].
    + intro u. simpl. rewrite filter_In, negb_true_iff, Z.eqb_neq. tauto.
    + intro m. simpl. rewrite filter_In, negb_true_iff, Z.eqb_neq. tauto.
    + reflexivity.
    + intro pid. unfold total_ml, cantidades.
      now rewrite movimientos_de_tras_borrar_usuario.
Qed.

(** The user who entered the second movements is deleted: the level of
    the first product goes from 250 ml to 200 ml. *)
Lemma eliminar_usuario_witness :
  total_ml db_bar 1 = Some (200 + (50 + 0)) /\
  exists db',
    eliminar_usuario (Some (2%Z, "ana"%string)) true admin db_bar
    = (Hecho, db') /\
    total_ml db' 1 = Some (200 + 0).
Proof.
  split; [reflexivity |].
  destruct (proj2 (eliminar_usuario_en_cascada db_bar admin 2 "ana"))
    as [_ [db' [Hr [_ [_ [_ Ht]]]]]].
  - simpl. lia.
  - exists db'. split; [exact Hr |]. rewrite Ht. reflexivity.
Defined.

(** ** Referential integrity *)

Lemma existsb_id_map (f : productos.fila -> productos.fila) (j : Z)
    (l : list productos.fila) :
  (forall p, productos.id (f p) = productos.id p) ->
  existsb (fun p => Z.eqb (productos.id p) j) (map f l)
  = existsb (fun p => Z.eqb (productos.id p) j) l.
Proof.
  intro Hid. induction l as [| p l IH]; simpl; [reflexivity |].
  now rewrite Hid, IH.
Qed.

Lemma sin_huerfanos_insertar ahora pid uid t q pb n db :
  sin_huerfanos db = true ->
  existsb (fun p => Z.eqb (productos.id p) pid) (t_productos db) = true ->
  existsb (fun u => Z.eqb (usuarios.id u) uid) (t_usuarios db) = true ->
  sin_huerfanos (insertar_movimiento ahora pid uid t q pb n db) = true.
Proof.
  unfold sin_huerfanos, insertar_movimiento. simpl.
  intros H Hp Hu. rewrite forallb_app, H. simpl. now rewrite Hp, Hu.
Qed.

Lemma sin_huerfanos_botellas (d i : Z) (db : DB) :
  sin_huerfanos (actualizar_botellas d i db) = sin_huerfanos db.
Proof.
  unfold sin_huerfanos, actualizar_botellas. simpl.
  induction (t_movimientos db) as [| m l IH]; simpl; [reflexivity |].
  rewrite IH. f_equal. f_equal.
  apply existsb_id_map. intro p.
  now destruct (Z.eqb (productos.id p) i).
Qed.

Lemma producto_por_nombre_existe (db : DB) (n : string)
    (p : productos.fila) :
  producto_por_nombre db n = Some p ->
  existsb (fun q => Z.eqb (productos.id q) (productos.id p))
          (t_productos db) = true.
Proof.
  intro H. apply find_some in H. apply existsb_exists.
  exists p. split; [tauto | apply Z.eqb_refl].
Qed.

(** X14.  A store where every movement refers to a stored product and a
    stored user stays so under the desktop handlers: the two deletions
    take the movements away with the row, and the weight registration and
    the bottle handlers record the movement for a product they found and
    for the user of the session, when that user is stored. *)
Theorem escritorio_conserva_referencias :
  forall (db : DB) (s : Sesion) (ahora : Z),
    sin_huerfanos db = true ->
    (forall seleccion confirmacion,
        sin_huerfanos (snd (eliminar_producto seleccion confirmacion db))
        = true) /\
    (forall seleccion confirmacion,
        sin_huerfanos (snd (eliminar_usuario seleccion confirmacion s db))
        = true) /\
    (existsb (fun u => Z.eqb (usuarios.id u) (user_id s)) (t_usuarios db)
     = true ->
     (forall seleccion entry_peso confirma,
         sin_huerfanos
           (snd (registrar_peso seleccion entry_peso confirma ahora s db))
         = true) /\
     (forall seleccion,
         sin_huerfanos (snd (agregar_botella_completa seleccion ahora s db))
         = true) /\
     (forall seleccion,
         sin_huerfanos (snd (quitar_botella_completa seleccion ahora s db))
         = true)).
Proof.
  intros db s ahora Hok. split; [| split].
  - intros seleccion confirmacion. unfold eliminar_producto.
    destruct seleccion as [[i n] |]; [| exact Hok].
    destruct confirmacion; [| exact Hok]. simpl.
    unfold sin_huerfanos in *. simpl.
    rewrite forallb_forall in *. intros m Hm.
    apply filter_In in Hm. destruct Hm as [Hm Hne].
    specialize (Hok m Hm). apply andb_true_iff in Hok.
    destruct Hok as [Hp Hu]. rewrite Hu, andb_true_r.
    apply existsb_exists in Hp. destruct Hp as [p [Hp E]].
    apply existsb_exists. exists p. split; [| exact E].
    apply filter_In. split; [exact Hp |].
    apply Z.eqb_eq in E. rewrite E. exact Hne.
  - intros seleccion confirmacion. unfold eliminar_usuario.
    destruct seleccion as [[i n] |]; [| exact Hok].
    destruct (Z.eqb i (user_id s)); [exact Hok |].
    destruct confirmacion; [| exact Hok]. simpl.
    unfold sin_huerfanos in *. simpl.
    rewrite forallb_forall in *. intros m Hm.
    apply filter_In in Hm. destruct Hm as [Hm Hne].
    specialize (Hok m Hm). apply andb_true_iff in Hok.
    destruct Hok as [Hp Hu]. rewrite Hp. simpl.
    apply existsb_exists in Hu. destruct Hu as [u [Hu E]].
    apply existsb_exists. exists u. split; [| exact E].
    apply filter_In. split; [exact Hu |].
    apply Z.eqb_eq in E. rewrite E. exact Hne.
  - intro Hs. split; [| split].
    + intros seleccion entry_peso confirma. unfold registrar_peso.
      destruct seleccion as [item |]; [| exact Hok].
      destruct entry_peso as [peso |]; [| exact Hok].
      destruct (producto_por_nombre db (f_nombre item)) as [p |] eqn:Ef;
        [| exact Hok].
      destruct (Qeq_bool (productos.densidad p) 0); [exact Hok |].
      destruct (determinar_tipo _ _ _); [| exact Hok].
      apply sin_huerfanos_insertar; auto.
      now apply (producto_por_nombre_existe db (f_nombre item)).
    + intros seleccion. unfold agregar_botella_completa.
      destruct seleccion as [item |]; [| exact Hok].
      destruct (producto_por_nombre db (f_nombre item)) as [p |] eqn:Ef;
        [| exact Hok].
      apply sin_huerfanos_insertar.
      * now rewrite sin_huerfanos_botellas.
      * simpl. rewrite existsb_id_map.
        -- now apply (producto_por_nombre_existe db (f_nombre item)).
        -- intro q. now destruct (Z.eqb (productos.id q) (productos.id p)).
      * exact Hs.
    + intros seleccion. unfold quitar_botella_completa.
      destruct seleccion as [item |]; [| exact Hok].
      destruct (f_botellas item <=? 0)%Z; [exact Hok |].
      destruct (producto_por_nombre db (f_nombre item)) as [p |] eqn:Ef;
        [| exact Hok].
      apply sin_huerfanos_insertar.
      * now rewrite sin_huerfanos_botellas.
      * simpl. rewrite existsb_id_map.
        -- now apply (producto_por_nombre_existe db (f_nombre item)).
        -- intro q. now destruct (Z.eqb (productos.id q) (productos.id p)).
      * exact Hs.
Qed.

Lemma escritorio_conserva_referencias_witness :
  sin_huerfanos db_bar = true /\
  sin_huerfanos
    (snd (eliminar_producto (Some (1%Z, "Ron"%string)) true db_bar)) = true /\
  sin_huerfanos
    (snd (agregar_botella_completa
            (Some (mkFilaInventario "Ron" "Bacardi" "Ron" None 0 true OK))
            40 admin db_bar)) = true.
Proof.
  split; [reflexivity |].
  destruct (escritorio_conserva_referencias db_bar admin 40 eq_refl)
    as [Hp [_ Hs]].
  split; [apply Hp |].
  apply (proj1 (proj2 (Hs eq_refl))).
Defined.

(** X15.  Deleting a location keeps every reference to a location valid: when
    each product and each user with a location refers to a stored
    location before, so it is after, whether the deletion is refused,
    declined or carried out. *)
Theorem eliminar_local_conserva_referencias :
  forall (db : DB) (seleccion : option (Z * string)) (confirmacion : bool),
    locales_referidos_existen db = true ->
    locales_referidos_existen (snd (eliminar_local seleccion confirmacion db))
    = true.
Proof.
  intros db seleccion confirmacion Hok. unfold eliminar_local.
  destruct seleccion as [[i n] |]; [| exact Hok].
  destruct (0 <? productos_del_local db i)%nat eqn:Ep; [exact Hok |].
  destruct (0 <? usuarios_del_local db i)%nat eqn:Eu; [exact Hok |].
  destruct confirmacion; [| exact Hok]. simpl.
  pose proof (proj1 (productos_del_local_cero db i) Ep) as Hp.
  pose proof (proj1 (usuarios_del_local_cero db i) Eu) as Hu.
  unfold locales_referidos_existen in *. simpl.
  apply andb_true_iff in Hok. destruct Hok as [H1 H2].
  rewrite forallb_forall in H1, H2.
  apply andb_true_iff. split; apply forallb_forall.
  - intros p Hin. specialize (H1 p Hin).
    apply existsb_exists in H1. destruct H1 as [l [Hl E]].
    apply existsb_exists. exists l. split; [| exact E].
    apply filter_In. split; [exact Hl |].
    apply Z.eqb_eq in E. rewrite E. apply negb_true_iff, Z.eqb_neq.
    now apply Hp.
  - intros u Hin. specialize (H2 u Hin).
    destruct (usuarios.local_id u) as [j |] eqn:Ej; [| reflexivity].
    apply existsb_exists in H2. destruct H2 as [l [Hl E]].
    apply existsb_exists. exists l. split; [| exact E].
    apply filter_In. split; [exact Hl |].
    apply Z.eqb_eq in E. rewrite E. apply negb_true_iff, Z.eqb_neq.
    intros ->. now apply (Hu u Hin).
Qed.

Lemma eliminar_local_conserva_witness :
  locales_referidos_existen db_locales = true /\
  locales_referidos_existen
    (snd (eliminar_local (Some (2%Z, "Sucursal"%string)) true db_locales))
  = true /\
  List.length
    (t_locales
       (snd (eliminar_local (Some (2%Z, "Sucursal"%string)) true db_locales)))
  = 1%nat.
Proof.
  split; [reflexivity |]. split; [| reflexivity].
  now apply eliminar_local_conserva_referencias.
Defined.


(** ** [GET /api/movimientos] *)

Lemma Sorted_firstn {A : Type} (R : A -> A -> Prop) (n : nat) (l : list A) :
  Sorted R l -> Sorted R (firstn n l).
Proof.
  revert l. induction n as [| n IH]; intros l Hs; simpl; [constructor |].
  destruct l as [| x l]; [constructor |].
  inversion Hs as [| ? ? Hs' Hhd]; subst.
  constructor; [now apply IH |].
  destruct n; simpl; [constructor |].
  destruct Hhd; constructor. assumption.
Qed.

Lemma LIMIT_incl {A : Type} (n : Z) (l : list A) (x : A) :
  In x (LIMIT n l) -> In x l.
Proof.
  unfold LIMIT. destruct (n <? 0)%Z; [auto |]. intro H.
  rewrite <- (firstn_skipn (Z.to_nat n) l). apply in_or_app. now left.
Qed.

Lemma LIMIT_sorted {A : Type} (R : A -> A -> Prop) (n : Z) (l : list A) :
  Sorted R l -> Sorted R (LIMIT n l).
Proof.
  unfold LIMIT. destruct (n <? 0)%Z; [auto |]. apply Sorted_firstn.
Qed.

Lemma LIMIT_length {A : Type} (n : Z) (l : list A) :
  (0 <= n)%Z -> (Z.of_nat (List.length (LIMIT n l)) <= n)%Z.
Proof.
  intro Hn. unfold LIMIT.
  destruct (Z.ltb_spec n 0) as [H | _]; [lia |].
  rewrite length_firstn. lia.
Qed.

Lemma JOIN_movimientos_In (db : DB) (m : movimientos.fila)
    (p : productos.fila) (u : usuarios.fila) :
  In (m, p, u) (JOIN_movimientos db) <->
  In m (t_movimientos db) /\
  (In p (t_productos db) /\ productos.id p = movimientos.producto_id m) /\
  (In u (t_usuarios db) /\ usuarios.id u = movimientos.user_id m).
Proof.
  unfold JOIN_movimientos. rewrite in_flat_map. split.
  - intros [m' [Hm H]]. apply in_flat_map in H.
    destruct H as [p' [Hp H]]. apply in_map_iff in H.
    destruct H as [u' [[= <- <- <-] Hu]].
    apply filter_In in Hp, Hu. rewrite Z.eqb_eq in Hp, Hu.
    intuition congruence.
  - intros [Hm [[Hp Ep] [Hu Eu]]]. exists m. split; [exact Hm |].
    apply in_flat_map. exists p. split.
    + apply filter_In. split; [exact Hp |]. now apply Z.eqb_eq.
    + apply in_map. apply filter_In. split; [exact Hu |]. now apply Z.eqb_eq.
Qed.

(** X16.  The answer of the endpoint holds at most [limit] objects when the
    limit is not negative, latest first; each one is a stored movement
    (of the requested product, when one is requested) with the names of
    the stored product and of the stored user it refers to.  A movement
    whose product or user is not stored is never answered. *)
Theorem movimientos_get_correcto :
  forall (arg_producto_id : option Z) (limit : Z) (db : DB),
    ((0 <= limit)%Z ->
     (Z.of_nat (List.length (movimientos_get arg_producto_id limit db))
      <= limit)%Z) /\
    Sorted mas_reciente_primero
           (map (fun o => movimientos.fecha (mj_movimiento o))
                (movimientos_get arg_producto_id limit db)) /\
    (forall o,
        In o (movimientos_get arg_producto_id limit db) ->
        In (mj_movimiento o) (t_movimientos db) /\
        (forall pid, arg_producto_id = Some pid ->
                     movimientos.producto_id (mj_movimiento o) = pid) /\
        (exists p, In p (t_productos db) /\
                   productos.id p = movimientos.producto_id (mj_movimiento o)
                   /\ productos.nombre p = mj_producto_nombre o) /\
        (exists u, In u (t_usuarios db) /\
                   usuarios.id u = movimientos.user_id (mj_movimiento o)
                   /\ usuarios.nombre u = mj_usuario_nombre o)).
Proof.
  intros arg limit db. unfold movimientos_get.
  set (filas := match arg with
                | Some producto_id =>
                    filter (fun r => Z.eqb (movimientos.producto_id
                                              (fst (fst r))) producto_id)
                           (JOIN_movimientos db)
                | None => JOIN_movimientos db
                end).
  split; [| split].
  - intro Hl. rewrite length_map. now apply LIMIT_length.
  - rewrite map_map. apply Sorted_map. apply LIMIT_sorted.
    unfold ORDER_BY_fecha_DESC.
    assert (Hs := ordenar_por_sorted
                    (fun a b => (fecha_de b <=? fecha_de a)%Z)).
    unfold mas_reciente_primero. simpl.
    eapply Sorted_ind with (P := fun l => Sorted _ l);
      [constructor | | apply Hs].
    + intros a l _ IH Hhd. constructor; [exact IH |].
      destruct Hhd; constructor. now apply Z.leb_le.
    + intros a b. destruct (Z.le_ge_cases (fecha_de b) (fecha_de a));
        [left | right]; now apply Z.leb_le.
  - intros o Ho. apply in_map_iff in Ho. destruct Ho as [[[m p] u] [<- Hr]].
    apply LIMIT_incl in Hr.
    apply (Permutation_in _ (ordenar_por_perm _ _)) in Hr.
    assert (Hj : In (m, p, u) (JOIN_movimientos db)
                 /\ forall pid, arg = Some pid ->
                                movimientos.producto_id m = pid).
    { subst filas. destruct arg as [pid |].
      - apply filter_In in Hr. destruct Hr as [Hr E]. simpl in E.
        apply Z.eqb_eq in E. split; [exact Hr |]. now intros ? [= <-].
      - split; [exact Hr | discriminate]. }
    destruct Hj as [Hj Harg]. apply JOIN_movimientos_In in Hj.
    destruct Hj as [Hm [[Hp Ep] [Hu Eu]]]. simpl.
    split; [exact Hm |]. split; [exact Harg |].
    split; [now exists p | now exists u].
Qed.


(** The rows that the join gains with a new movement. *)
Lemma JOIN_movimientos_insertar ahora pid uid t q pb n db :
  JOIN_movimientos (insertar_movimiento ahora pid uid t q pb n db) =
  JOIN_movimientos db ++
  flat_map
    (fun p =>
       map (fun u =>
              (movimientos.Fila (seq_movimientos db + 1) pid uid t q pb n
                                ahora, p, u))
           (filter (fun u => Z.eqb uid (usuarios.id u)) (t_usuarios db)))
    (filter (fun p => Z.eqb pid (productos.id p)) (t_productos db)).
Proof.
  unfold JOIN_movimientos, insertar_movimiento. simpl.
  rewrite flat_map_app. simpl. now rewrite app_nil_r.
Qed.

Lemma filter_ninguno {A : Type} (f : A -> Z) (i : Z) (l : list A) :
  existsb (fun x => Z.eqb (f x) i) l = false ->
  filter (fun x => Z.eqb i (f x)) l = [].
Proof.
  induction l as [| x l IH]; simpl; [reflexivity |].
  intro H. apply orb_false_iff in H. destruct H as [Hx Hl].
  rewrite Z.eqb_sym, Hx. now apply IH.
Qed.

Lemma flat_map_vacio {A B : Type} (l : list A) :
  flat_map (fun _ : A => @nil B) l = [].
Proof. induction l; simpl; auto. Qed.

Lemma JOIN_movimientos_huerfano ahora pid uid t q pb n db :
  existsb (fun p => Z.eqb (productos.id p) pid) (t_productos db)
    && existsb (fun u => Z.eqb (usuarios.id u) uid) (t_usuarios db)
  = false ->
  JOIN_movimientos (insertar_movimiento ahora pid uid t q pb n db)
  = JOIN_movimientos db.
Proof.
  intro H. rewrite JOIN_movimientos_insertar.
  apply andb_false_iff in H. destruct H as [H | H].
  - rewrite (filter_ninguno productos.id pid _ H). simpl.
    now rewrite app_nil_r.
  - rewrite (filter_ninguno usuarios.id uid _ H). simpl.
    now rewrite flat_map_vacio, app_nil_r.
Qed.

Lemma total_ml_api_tras_insertar ahora pid uid t q pb n db :
  total_ml_api (insertar_movimiento ahora pid uid t q pb n db) pid ==
  total_ml_api db pid
  + (if String.eqb t "entrada" then q else - q).
Proof.
  unfold total_ml_api. rewrite !COALESCE_SUM.
  rewrite movimientos_de_insertar, Z.eqb_refl, map_app, suma_app.
  unfold caso_api at 2. simpl. ring.
Qed.

(** X17.  A movement posted for a product or a user that is not stored (the
    two ids being integers within signed 64 bits) counts in the level of
    its product, at the endpoint and on the desktop, and yet appears in
    no list of movements: neither in the answer of
    [GET /api/movimientos] nor in the movements tree of the desktop. *)
Theorem huerfano_contado_e_invisible :
  forall (db : DB) (ahora producto_id user_id : Z) (tipo : string)
         (cantidad_ml : Q),
    en_int64 producto_id = true ->
    en_int64 user_id = true ->
    existsb (fun p => Z.eqb (productos.id p) producto_id) (t_productos db)
      && existsb (fun u => Z.eqb (usuarios.id u) user_id) (t_usuarios db)
    = false ->
    exists db',
      api_movimientos_post
        (cuerpo (JEntero producto_id) (JEntero user_id) (JTexto tipo)
                (JReal (Finito cantidad_ml))) ahora db
      = Respondido Creado db' /\
      (forall arg limit,
          movimientos_get arg limit db' = movimientos_get arg limit db) /\
      (forall s,
          cargar_movimientos_recientes s db'
          = cargar_movimientos_recientes s db) /\
      total_ml_api db' producto_id ==
      total_ml_api db producto_id
      + (if String.eqb tipo "entrada" then cantidad_ml else - cantidad_ml) /\
      exists total,
        total_ml db' producto_id = Some total /\
        total == COALESCE (total_ml db producto_id) 0 + cantidad_ml.
Proof.
  intros db ahora pid uid t q Hp Hu H.
  exists (insertar_movimiento ahora pid uid t q None
            (Some (Texto EmptyString)) db).
  split; [| split; [| split; [| split]]].
  - unfold api_movimientos_post, cuerpo. simpl. rewrite Hp, Hu. reflexivity.
  - intros arg limit. unfold movimientos_get.
    now rewrite (JOIN_movimientos_huerfano _ _ _ _ _ _ _ _ H).
  - intro s. unfold cargar_movimientos_recientes.
    now rewrite (JOIN_movimientos_huerfano _ _ _ _ _ _ _ _ H).
  - apply total_ml_api_tras_insertar.
  - apply total_ml_tras_insertar.
Qed.

(** 10 ml posted for the first product in the name of a user that does
    not exist. *)
Lemma huerfano_witness :
  exists db',
    api_movimientos_post
      (cuerpo (JEntero 1) (JEntero 77) (JTexto "entrada")
              (JReal (Finito 10))) 40 db_bar
    = Respondido Creado db' /\
    movimientos_get None 50 db' = movimientos_get None 50 db_bar /\
    total_ml_api db' 1 == 160 /\ total_ml_api db_bar 1 == 150.
Proof.
  destruct (huerfano_contado_e_invisible db_bar 40 1 77 "entrada" 10
              eq_refl eq_refl eq_refl)
    as [db' [Hr [Hg [_ [Ha _]]]]].
  exists db'. split; [exact Hr |]. split; [apply Hg |].
  split; [rewrite Ha |]; vm_compute; reflexivity.
Defined.

Lemma filter_unico {A : Type} (f : A -> Z) (x : A) (l : list A) :
  sin_repetidos (map f l) = true ->
  In x l ->
  filter (fun y => Z.eqb (f x) (f y)) l = [x].
Proof.
  induction l as [| y l IH]; simpl; intros Hnd Hin; [contradiction |].
  apply andb_true_iff in Hnd. destruct Hnd as [Hy Hl].
  apply negb_true_iff in Hy.
  destruct Hin as [-> | Hin].
  - rewrite Z.eqb_refl. f_equal.
    apply filter_ninguno with (f := f).
    rewrite <- Hy. clear. induction l as [| z l IH]; simpl; [reflexivity |].
    now rewrite IH, Z.eqb_sym.
  - destruct (Z.eqb_spec (f x) (f y)) as [E | _]; [| now apply IH].
    assert (Hc : existsb (Z.eqb (f y)) (map f l) = true).
    { apply existsb_eqb_In. rewrite <- E. now apply in_map. }
    congruence.
Qed.

Lemma ordenar_por_ultimo_primero {A : Type} (le : A -> A -> bool) (x : A)
    (l : list A) :
  (forall y, In y l -> le y x = false) ->
  ordenar_por le (l ++ [x]) = x :: ordenar_por le l.
Proof.
  unfold ordenar_por. rewrite fold_right_app. simpl.
  induction l as [| y l IH]; simpl; intro H; [reflexivity |].
  rewrite IH by (intros z Hz; apply H; now right).
  simpl. now rewrite (H y (or_introl eq_refl)).
Qed.

Lemma hd_error_map {A B : Type} (f : A -> B) (l : list A) :
  hd_error (map f l) = option_map f (hd_error l).
Proof. now destruct l. Qed.

Lemma hd_LIMIT {A : Type} (n : Z) (x : A) (l : list A) :
  n <> 0%Z -> hd_error (LIMIT n (x :: l)) = Some x.
Proof.
  intro Hn. unfold LIMIT. destruct (Z.ltb_spec n 0); [reflexivity |].
  destruct (Z.to_nat n) eqn:E; [lia | reflexivity].
Qed.

(** X18.  What is posted is read back: a movement posted for a stored product
    and a stored user, at a time later than every stored movement, is the
    first object of the next answer of [GET /api/movimientos], with the
    values as posted and the names of the product and of the user,
    whether the answer is asked for every product or for that one, and
    whatever the limit, other than 0. *)
Theorem post_y_luego_get :
  forall (db : DB) (ahora : Z) (p : productos.fila) (u : usuarios.fila)
         (tipo : string) (cantidad_ml : Q) (peso_bruto : option Q)
         (notas : option (option string)) (limit : Z),
    clave_primaria_productos db = true ->
    clave_primaria_usuarios db = true ->
    In p (t_productos db) ->
    In u (t_usuarios db) ->
    (forall m, In m (t_movimientos db) -> (movimientos.fecha m < ahora)%Z) ->
    limit <> 0%Z ->
    exists db',
      movimientos_post
        (mkMovimientoJson (Some (productos.id p)) (Some (usuarios.id u))
                          (Some tipo) (Some cantidad_ml) peso_bruto notas)
        ahora db
      = (Creado, db') /\
      hd_error (movimientos_get None limit db')
      = Some (objeto_nuevo db ahora p u tipo cantidad_ml peso_bruto notas) /\
      hd_error (movimientos_get (Some (productos.id p)) limit db')
      = Some (objeto_nuevo db ahora p u tipo cantidad_ml peso_bruto notas).
Proof.
  intros db ahora p u t q pb n limit Hpp Hpu Hp Hu Hant Hl.
  exists (insertar_movimiento ahora (productos.id p) (usuarios.id u) t q pb
                              (notas_de n) db).
  split; [reflexivity |].
  assert (Hjoin :
    JOIN_movimientos
      (insertar_movimiento ahora (productos.id p) (usuarios.id u) t q pb
                           (notas_de n) db)
    = JOIN_movimientos db ++
      [(movimientos.Fila (seq_movimientos db + 1) (productos.id p)
                         (usuarios.id u) t q pb (notas_de n) ahora, p, u)]).
  { rewrite JOIN_movimientos_insertar.
    rewrite (filter_unico productos.id p _ Hpp Hp).
    rewrite (filter_unico usuarios.id u _ Hpu Hu). simpl. reflexivity. }
  set (r := (movimientos.Fila (seq_movimientos db + 1) (productos.id p)
                               (usuarios.id u) t q pb (notas_de n) ahora,
             p, u)) in *.
  assert (Hantj : forall x, In x (JOIN_movimientos db) ->
                            (fecha_de r <=? fecha_de x)%Z = false).
  { intros [[m p'] u'] Hx. apply JOIN_movimientos_In in Hx.
    destruct Hx as [Hm _]. apply Z.leb_gt. simpl. now apply Hant. }
  unfold movimientos_get. rewrite Hjoin. split.
  - unfold ORDER_BY_fecha_DESC.
    rewrite ordenar_por_ultimo_primero by exact Hantj.
    rewrite hd_error_map, hd_LIMIT by exact Hl. reflexivity.
  - rewrite filter_app. simpl. rewrite Z.eqb_refl.
    unfold ORDER_BY_fecha_DESC.
    rewrite ordenar_por_ultimo_primero.
    + rewrite hd_error_map, hd_LIMIT by exact Hl. reflexivity.
    + intros x Hx. apply filter_In in Hx. now apply Hantj.
Qed.

(** The administrator posts 10 ml for the first product at time 40. *)
Lemma post_y_luego_get_witness :
  exists db',
    movimientos_post
      (mkMovimientoJson (Some 1%Z) (Some 2%Z) (Some "entrada"%string)
                        (Some 10) None None) 40 db_bar
    = (Creado, db') /\
    hd_error (movimientos_get None 50 db')
    = Some (mkMovimientoJoin
              (movimientos.Fila 4 1 2 "entrada" 10 None
                                (Some (Texto EmptyString)) 40)
              "Ron" "Ana").
Proof.
  destruct (post_y_luego_get db_bar 40 (ron 1 0 (2 # 10)) empleado
                             "entrada" 10 None None 50)
    as [db' [Hr [Hg _]]].
  - reflexivity.
  - reflexivity.
  - simpl. auto.
  - simpl. auto.
  - intros m [<- | [<- | [<- | []]]]; simpl; lia.
  - lia.
  - exists db'. split; [exact Hr |]. exact Hg.
Defined.


(** ** The login window *)

Lemma dict_get_In (k : string) (d : list (string * Z)) (v : Z) :
  dict_get k d = Some v -> In (k, v) d.
Proof.
  unfold dict_get.
  destruct (find (fun kv => String.eqb (fst kv) k) (rev d))
    as [[k' v'] |] eqn:E; simpl; [| discriminate].
  intros [= <-]. apply find_some in E. destruct E as [Hin Hk].
  simpl in Hk. apply String.eqb_eq in Hk. subst k'.
  now apply in_rev.
Qed.

Lemma cargar_locales_In (db : DB) (k : string) (v : Z) :
  In (k, v) (cargar_locales db) ->
  exists l, In l (t_locales db) /\ locales.activo l = 1%Z /\
            locales.id l = v /\
            k = etiqueta (locales.nombre l) (locales.id l).
Proof.
  unfold cargar_locales. intro H. apply in_map_iff in H.
  destruct H as [l [[= <- <-] Hl]].
  apply (Permutation_in _ (ordenar_por_perm _ _)) in Hl.
  apply filter_In in Hl. destruct Hl as [Hin Ha]. apply Z.eqb_eq in Ha.
  now exists l.
Qed.

Lemma acceso_al_local_iff (username password : string) (id_local : Z)
    (u : usuarios.fila) :
  acceso_al_local username password id_local u = true <->
  usuarios.username u = username /\ usuarios.password u = password /\
  (usuarios.local_id u = Some id_local \/ usuarios.rol u = "admin"%string) /\
  usuarios.activo u = 1%Z.
Proof.
  unfold acceso_al_local.
  rewrite !andb_true_iff, orb_true_iff, !String.eqb_eq, Z.eqb_eq.
  destruct (usuarios.local_id u) as [l |].
  - rewrite Z.eqb_eq. split.
    + intros [[[H1 H2] [H3 | H3]] H4]; repeat split; auto.
      left. now subst.
    + intros [H1 [H2 [[H3 | H3] H4]]]; repeat split; auto.
      left. now injection H3.
  - split.
    + intros [[[H1 H2] [H3 | H3]] H4]; [discriminate |]. auto.
    + intros [H1 [H2 [[H3 | H3] H4]]]; [discriminate |]. auto.
Qed.

(** X20.  The login window opens a session only for a stored, active user with
    the username and the password entered, at an active location chosen
    in the combobox, and only when the user belongs to that location or
    is an administrator.  The session carries the id and the role of that
    user and the id of the chosen location. *)
Theorem validar_login_correcto :
  forall (db : DB) (username password local_str : string) (s : Sesion)
         (user_name local_nombre : string),
    validar_login (cargar_locales db) username password local_str db
    = Abre s user_name local_nombre ->
    exists u l,
      In u (t_usuarios db) /\
      usuarios.username u = username /\ usuarios.password u = password /\
      usuarios.activo u = 1%Z /\
      In l (t_locales db) /\ locales.activo l = 1%Z /\
      local_str = etiqueta (locales.nombre l) (locales.id l) /\
      (usuarios.local_id u = Some (locales.id l)
       \/ usuarios.rol u = "admin"%string) /\
      s = mkSesion (usuarios.id u) (usuarios.rol u) (Some (locales.id l)) /\
      user_name = usuarios.nombre u.
Proof.
  intros db username password local_str s user_name local_nombre.
  unfold validar_login.
  destruct (vacio username || vacio password || vacio local_str);
    [discriminate |].
  destruct (dict_get local_str (cargar_locales db)) as [id_local |] eqn:Ed;
    [| discriminate].
  destruct (find (acceso_al_local username password id_local)
                 (t_usuarios db)) as [u |] eqn:Eu; [| discriminate].
  destruct (find (fun l => Z.eqb (locales.id l) id_local) (t_locales db))
    as [l' |]; [| discriminate].
  intros [= <- <- _].
  apply dict_get_In, cargar_locales_In in Ed.
  destruct Ed as [l [Hl [Ha [<- Hk]]]].
  apply find_some in Eu. destruct Eu as [Hu Hacc].
  apply acceso_al_local_iff in Hacc.
  destruct Hacc as [H1 [H2 [H3 H4]]].
  exists u, l. repeat split; auto.
Qed.

Lemma validar_login_witness :
  validar_login (cargar_locales db_bar) "ana" "clave" "Sucursal (ID: 2)"
                db_bar
  = Abre (mkSesion 2 "empleado" (Some 2%Z)) "Ana" "Sucursal" /\
  validar_login (cargar_locales db_bar) "ana" "clave"
                "Local Principal (ID: 1)" db_bar
  = CredencialesIncorrectas /\
  exists u l,
    In u (t_usuarios db_bar) /\ In l (t_locales db_bar) /\
    usuarios.local_id u = Some (locales.id l) /\
    mkSesion 2 "empleado" (Some 2%Z)
    = mkSesion (usuarios.id u) (usuarios.rol u) (Some (locales.id l)).
Proof.
  split; [reflexivity |]. split; [reflexivity |].
  destruct (validar_login_correcto db_bar "ana" "clave" "Sucursal (ID: 2)"
              (mkSesion 2 "empleado" (Some 2%Z)) "Ana" "Sucursal" eq_refl)
    as [u [l [Hu [_ [_ [_ [Hl [_ [_ [Hloc [Hs _]]]]]]]]]]].
  exists u, l. repeat split; auto.
  destruct Hloc as [H | H]; [exact H |].
  injection Hs as _ Hr _. rewrite H in Hr. discriminate.
Defined.

Lemma username_determina (l : list usuarios.fila) (u v : usuarios.fila) :
  sin_textos_repetidos (map usuarios.username l) = true ->
  In u l -> In v l ->
  usuarios.username u = usuarios.username v -> u = v.
Proof.
  induction l as [| x l IH]; simpl; intros Hnd Hu Hv E; [contradiction |].
  apply andb_true_iff in Hnd. destruct Hnd as [Hx Hl].
  apply negb_true_iff in Hx.
  assert (Hno : forall w, In w l ->
                          usuarios.username x <> usuarios.username w).
  { intros w Hw Ew.
    assert (Hc : existsb (String.eqb (usuarios.username x))
                         (map usuarios.username l) = true).
    { apply existsb_exists. exists (usuarios.username w).
      split; [now apply in_map | now apply String.eqb_eq]. }
    congruence. }
  destruct Hu as [<- | Hu], Hv as [<- | Hv]; auto.
  - exfalso. exact (Hno v Hv E).
  - exfalso. exact (Hno u Hu (eq_sym E)).
Qed.

(** X21.  Whoever gets in at the login window gets in at the endpoint with the
    same username and password: the endpoint answers 200, and, usernames
    being unique, the record of the very user of the session. *)
Theorem escritorio_implica_api :
  forall (db : DB) (locales_data : list (string * Z))
         (username password local_str : string) (s : Sesion)
         (user_name local_nombre : string),
    usernames_unicos db = true ->
    validar_login locales_data username password local_str db
    = Abre s user_name local_nombre ->
    exists local,
      login (mkLoginJson (Some username) (Some password)) db
      = (UsuarioJson (user_id s) user_name (user_role s) local, 200%Z).
Proof.
  intros db ld username password local_str s user_name local_nombre Huniq.
  unfold validar_login.
  destruct (vacio username || vacio password || vacio local_str);
    [discriminate |].
  destruct (dict_get local_str ld) as [id_local |]; [| discriminate].
  destruct (find (acceso_al_local username password id_local)
                 (t_usuarios db)) as [u |] eqn:Eu; [| discriminate].
  destruct (find (fun l => Z.eqb (locales.id l) id_local) (t_locales db))
    as [l' |]; [| discriminate].
  intros [= <- <- _].
  apply find_some in Eu. destruct Eu as [Hu Hacc].
  apply acceso_al_local_iff in Hacc. destruct Hacc as [H1 [H2 [_ H4]]].
  unfold login.
  destruct (find (credenciales_coinciden
                    (mkLoginJson (Some username) (Some password)))
                 (t_usuarios db)) as [v |] eqn:Ev.
  - apply find_some in Ev. destruct Ev as [Hv Hc].
    apply credenciales_coinciden_iff in Hc. destruct Hc as [[= Hc] _].
    assert (v = u).
    { apply (username_determina (t_usuarios db)); auto. congruence. }
    subst v. now exists (usuarios.local_id u).
  - pose proof (find_none _ _ Ev u Hu) as Hc.
    assert (Ht : credenciales_coinciden
                   (mkLoginJson (Some username) (Some password)) u = true).
    { apply credenciales_coinciden_iff. repeat split; simpl; congruence. }
    congruence.
Qed.

Lemma escritorio_implica_api_witness :
  usernames_unicos db_bar = true /\
  validar_login (cargar_locales db_bar) "ana" "clave" "Sucursal (ID: 2)"
                db_bar
  = Abre (mkSesion 2 "empleado" (Some 2%Z)) "Ana" "Sucursal" /\
  exists local,
    login (mkLoginJson (Some "ana"%string) (Some "clave"%string)) db_bar
    = (UsuarioJson 2 "Ana" "empleado" local, 200%Z).
Proof.
  split; [reflexivity |]. split; [reflexivity |].
  apply (escritorio_implica_api db_bar (cargar_locales db_bar) "ana" "clave"
           "Sucursal (ID: 2)" (mkSesion 2 "empleado" (Some 2%Z)) "Ana"
           "Sucursal" eq_refl eq_refl).
Defined.


(** ** The default administrator *)

Lemma find_app_nuevo {A : Type} (f : A -> bool) (l : list A) (x : A) :
  find f (l ++ [x]) =
  match find f l with
  | Some y => Some y
  | None => if f x then Some x else None
  end.
Proof.
  induction l as [| y l IH]; simpl; [reflexivity |].
  now destruct (f y).
Qed.

Lemma find_ninguno {A : Type} (f : A -> bool) (l : list A) :
  (forall x, In x l -> f x = false) -> find f l = None.
Proof.
  induction l as [| y l IH]; simpl; intro H; [reflexivity |].
  rewrite (H y (or_introl eq_refl)). apply IH.
  intros x Hx. apply H. now right.
Qed.

(** X22.  Running the bootstrap again changes nothing more.  After it a user
    named 'admin' is stored; the rows that were stored are all kept, in
    place, with at most one location and one user after them, and the
    products and the movements are as they were. *)
Theorem create_admin_user_idempotente :
  forall (a : Almacen),
    create_admin_user (create_admin_user a) = create_admin_user a /\
    (exists u, In u (t_usuarios (datos (create_admin_user a))) /\
               usuarios.username u = "admin"%string) /\
    (exists ls us,
        t_locales (datos (create_admin_user a)) = t_locales (datos a) ++ ls /\
        t_usuarios (datos (create_admin_user a))
        = t_usuarios (datos a) ++ us /\
        (List.length ls <= 1)%nat /\ (List.length us <= 1)%nat) /\
    t_productos (datos (create_admin_user a)) = t_productos (datos a) /\
    t_movimientos (datos (create_admin_user a)) = t_movimientos (datos a).
Proof.
  intro a.
  destruct (find (fun u => String.eqb (usuarios.username u) "admin")
                 (t_usuarios (datos a))) as [u |] eqn:Eu.
  - assert (H : create_admin_user a = a)
      by (unfold create_admin_user; now rewrite Eu).
    rewrite !H. split; [reflexivity |]. split.
    + apply find_some in Eu. destruct Eu as [Hin Hn].
      apply String.eqb_eq in Hn. now exists u.
    + split; [| split; reflexivity].
      exists [], []. rewrite !app_nil_r. repeat split; simpl; lia.
  - destruct (find (fun l => String.eqb (locales.nombre l) "Local Principal")
                   (t_locales (datos a))) as [l |] eqn:El.
    + assert (H : create_admin_user a =
                  mkAlmacen
                    (mkDB (t_locales (datos a))
                       (t_usuarios (datos a) ++
                          [usuarios.Fila (seq_usuarios a + 1) "admin"
                             "admin123" "Administrador" "admin"
                             (Some (locales.id l)) 1])
                       (t_productos (datos a)) (t_movimientos (datos a))
                       (seq_movimientos (datos a)))
                    (seq_locales a) (seq_usuarios a + 1) (seq_productos a))
        by (unfold create_admin_user; now rewrite Eu, El).
      rewrite !H. split.
      * unfold create_admin_user. simpl.
        now rewrite find_app_nuevo, Eu.
      * split.
        -- eexists. split; [simpl; apply in_or_app; right; left; reflexivity |].
           reflexivity.
        -- split; [| split; reflexivity].
           exists []. eexists. simpl. rewrite app_nil_r.
           repeat split; simpl; lia.
    + assert (H : create_admin_user a =
                  mkAlmacen
                    (mkDB (t_locales (datos a) ++
                             [locales.Fila (seq_locales a + 1)
                                "Local Principal" None None 1])
                       (t_usuarios (datos a) ++
                          [usuarios.Fila (seq_usuarios a + 1) "admin"
                             "admin123" "Administrador" "admin"
                             (Some (seq_locales a + 1)%Z) 1])
                       (t_productos (datos a)) (t_movimientos (datos a))
                       (seq_movimientos (datos a)))
                    (seq_locales a + 1) (seq_usuarios a + 1)
                    (seq_productos a))
        by (unfold create_admin_user; now rewrite Eu, El).
      rewrite !H. split.
      * unfold create_admin_user. simpl.
        now rewrite find_app_nuevo, Eu.
      * split.
        -- eexists. split; [simpl; apply in_or_app; right; left; reflexivity |].
           reflexivity.
        -- split; [| split; reflexivity].
           eexists. eexists. simpl. repeat split; simpl; lia.
Qed.

(** X23.  On a store without a user named 'admin', the bootstrap makes the
    default credentials work: the endpoint answers the new user, with the
    role 'admin' and the id of a stored location named 'Local
    Principal'. *)
Theorem arranque_permite_entrar :
  forall (a : Almacen),
    (forall u, In u (t_usuarios (datos a)) ->
               usuarios.username u <> "admin"%string) ->
    exists l,
      In l (t_locales (datos (create_admin_user a))) /\
      locales.nombre l = "Local Principal"%string /\
      login (mkLoginJson (Some "admin"%string) (Some "admin123"%string))
            (datos (create_admin_user a))
      = (UsuarioJson (seq_usuarios a + 1) "Administrador" "admin"
                     (Some (locales.id l)), 200%Z).
Proof.
  intros a Hno.
  assert (Hf : find (fun u => String.eqb (usuarios.username u) "admin")
                    (t_usuarios (datos a)) = None).
  { apply find_ninguno. intros u Hu. apply String.eqb_neq. now apply Hno. }
  assert (Hc : find (credenciales_coinciden
                       (mkLoginJson (Some "admin"%string)
                                    (Some "admin123"%string)))
                    (t_usuarios (datos a)) = None).
  { apply find_ninguno. intros u Hu.
    destruct (credenciales_coinciden _ u) eqn:E; [| reflexivity].
    apply credenciales_coinciden_iff in E. destruct E as [[= E] _].
    exfalso. exact (Hno u Hu (eq_sym E)). }
  unfold create_admin_user. rewrite Hf.
  destruct (find (fun l => String.eqb (locales.nombre l) "Local Principal")
                 (t_locales (datos a))) as [l |] eqn:El.
  - apply find_some in El. destruct El as [Hin Hn].
    apply String.eqb_eq in Hn.
    exists l. split; [exact Hin |]. split; [exact Hn |].
    unfold login. simpl. now rewrite find_app_nuevo, Hc.
  - eexists. split; [simpl; apply in_or_app; right; left; reflexivity |].
    split; [reflexivity |].
    unfold login. simpl. now rewrite find_app_nuevo, Hc.
Qed.

(** On the new file: the administrator is user 1 of location 1, and he
    gets in at the login window too. *)
Lemma arranque_witness :
  login (mkLoginJson (Some "admin"%string) (Some "admin123"%string))
        (datos (create_admin_user almacen_nuevo))
  = (UsuarioJson 1 "Administrador" "admin" (Some 1%Z), 200%Z) /\
  validar_login (cargar_locales (datos (create_admin_user almacen_nuevo)))
                "admin" "admin123" "Local Principal (ID: 1)"
                (datos (create_admin_user almacen_nuevo))
  = Abre (mkSesion 1 "admin" (Some 1%Z)) "Administrador" "Local Principal".
Proof.
  split; [| reflexivity].
  destruct (arranque_permite_entrar almacen_nuevo) as [l [Hl [_ Hr]]].
  - intros u [].
  - destruct Hl as [<- | []]. exact Hr.
Defined.

(** ** The products form *)

Lemma B64_validar_producto_rangos (ed ec ep em : option float)
    (d c p m : float) :
  B64.validar_producto ed ec ep em = inr (d, c, p, m) ->
  (d <=? 0)%float = false /\ (2 <? d)%float = false /\
  (c <=? 0)%float = false /\ (p <=? 0)%float = false /\
  (m <=? 0)%float = false /\ (1 <? m)%float = false.
Proof.
  unfold B64.validar_producto.
  destruct ed as [d' |], ec as [c' |], ep as [p' |], em as [m' |];
    try discriminate.
  destruct (d' <=? 0)%float eqn:E1; [discriminate |].
  destruct (2 <? d')%float eqn:E2; [discriminate |]. simpl.
  destruct (c' <=? 0)%float eqn:E3; [discriminate |].
  destruct (p' <=? 0)%float eqn:E4; [discriminate |].
  destruct (m' / 100 <=? 0)%float eqn:E5; [discriminate |].
  destruct (1 <? m' / 100)%float eqn:E6; [discriminate |]. simpl.
  intros [= <- <- <- <-]. auto 10.
Qed.

Lemma B64_rangos_de_la_fila (i l : Z) (n ma t : string) (d c p m : float)
    (a b f : Z) :
  (d <=? 0)%float = false -> (2 <? d)%float = false ->
  (c <=? 0)%float = false -> (p <=? 0)%float = false ->
  (m <=? 0)%float = false -> (1 <? m)%float = false ->
  B64.es_nan d || B64.es_nan c || B64.es_nan p = false ->
  B64.rangos_validos
    (B64.productos.Fila i l n ma t d c p a b (B64.REAL_o_NULL m) f).
Proof.
  intros H1 H2 H3 H4 H5 H6 Hn.
  apply orb_false_iff in Hn. destruct Hn as [Hn Hp].
  apply orb_false_iff in Hn. destruct Hn as [Hd Hc].
  assert (H0 : B64.es_nan 0 = false) by reflexivity.
  assert (H1' : B64.es_nan 1 = false) by reflexivity.
  assert (H2' : B64.es_nan 2 = false) by reflexivity.
  unfold B64.rangos_validos, B64.REAL_o_NULL. simpl.
  split; [now apply leb_false_ltb |].
  split; [now apply ltb_false_leb |].
  split; [now apply leb_false_ltb |].
  split; [now apply leb_false_ltb |].
  destruct (B64.es_nan m) eqn:Hm; [exact I |].
  split; [now apply leb_false_ltb | now apply ltb_false_leb].
Qed.

(** X24.  The products form keeps every stored product within the ranges
    it tests: a density above 0 and at most 2, a capacity and a container
    weight above 0, and a threshold that is above 0 and at most 1 or is
    NULL (what a threshold entered as 'nan' is stored as).  Whatever is
    entered, a store that satisfies them satisfies them afterwards. *)
Theorem guardar_producto_conserva_rangos :
  forall (db : B64.DB),
    (forall p, In p (B64.t_productos db) -> B64.rangos_validos p) ->
    forall (nombre marca tipo : string)
           (entry_densidad entry_capacidad entry_peso_envase
              entry_minimo : option float)
           (seleccion : option Z) (ahora : Z) (s : Sesion)
           (p : B64.productos.fila),
      In p (B64.t_productos
              (snd (B64.guardar_producto nombre marca tipo entry_densidad
                      entry_capacidad entry_peso_envase entry_minimo
                      seleccion ahora s db))) ->
      B64.rangos_validos p.
Proof.
  intros db Hok nombre marca tipo ed ec ep em seleccion ahora s p.
  unfold B64.guardar_producto.
  destruct (local_id s) as [local |]; [| apply Hok].
  destruct (B64.validar_producto ed ec ep em) as [m | [[[d c] pe] mi]] eqn:Ev;
    [apply Hok |].
  apply B64_validar_producto_rangos in Ev.
  destruct Ev as [H1 [H2 [H3 [H4 [H5 H6]]]]].
  destruct (B64.es_nan d || B64.es_nan c || B64.es_nan pe) eqn:Hn.
  - destruct seleccion as [i |].
    + rewrite andb_true_r.
      destruct (existsb (fun q => (B64.productos.id q =? i)%Z)
                        (B64.t_productos db)) eqn:Ex; [apply Hok |].
      simpl. intro Hin. apply in_map_iff in Hin.
      destruct Hin as [q [<- Hq]].
      destruct (Z.eqb (B64.productos.id q) i) eqn:Ei; [| now apply Hok].
      exfalso.
      assert (Hc : existsb (fun q => (B64.productos.id q =? i)%Z)
                           (B64.t_productos db) = true).
      { apply existsb_exists. now exists q. }
      congruence.
    + apply Hok.
  - destruct seleccion as [i |].
    + rewrite andb_false_r. simpl. intro Hin. apply in_map_iff in Hin.
      destruct Hin as [q [<- Hq]].
      destruct (Z.eqb (B64.productos.id q) i); [| now apply Hok].
      now apply B64_rangos_de_la_fila.
    + simpl. intro Hin. apply in_app_iff in Hin.
      destruct Hin as [Hin | [<- | []]]; [now apply Hok |].
      now apply B64_rangos_de_la_fila.
Qed.

(** A gin of density 0.95 entered with the threshold 'nan': the product
    is saved, and its threshold is NULL. *)
Lemma guardar_producto_witness :
  B64.guardar_producto "Gin" "Beefeater" "Ginebra" (Some 0.95%float)
    (Some 750%float) (Some 400%float) (Some PrimFloat.nan) None 50 admin
    B64.db_vacia
  = (Hecho,
     B64.mkDB [] []
       [B64.ron (Some 0.2%float); B64.whisky;
        B64.productos.Fila 3 1 "Gin" "Beefeater" "Ginebra" 0.95 750 400 1 0
                           None 50] [] 3 0) /\
  B64.rangos_validos
    (B64.productos.Fila 3 1 "Gin" "Beefeater" "Ginebra" 0.95 750 400 1 0
                        None 50).
Proof.
  split; [reflexivity |].
  apply (guardar_producto_conserva_rangos B64.db_vacia)
    with (nombre := "Gin"%string) (marca := "Beefeater"%string)
         (tipo := "Ginebra"%string) (entry_densidad := Some 0.95%float)
         (entry_capacidad := Some 750%float)
         (entry_peso_envase := Some 400%float)
         (entry_minimo := Some PrimFloat.nan) (seleccion := None)
         (ahora := 50%Z) (s := admin).
  - intros p [<- | [<- | []]]; unfold B64.rangos_validos; simpl;
      repeat split; reflexivity.
  - simpl. right. right. left. reflexivity.
Defined.

(** X25.  On a store whose products are within the ranges of the form, the
    weight registration never fails on the division by the density:
    whatever is selected, entered and answered, it ends with a notice, a
    declined dialog or a registered movement. *)
Theorem registrar_peso_no_divide_por_cero :
  forall (db : DB),
    (forall p, In p (t_productos db) -> rangos_validos p) ->
    forall (seleccion : option FilaInventario) (entry_peso : option Q)
           (confirma : bool) (ahora : Z) (s : Sesion),
      fst (registrar_peso seleccion entry_peso confirma ahora s db)
      <> Excepcion.
Proof.
  intros db Hok seleccion entry_peso confirma ahora s. unfold registrar_peso.
  destruct seleccion as [item |]; [| discriminate].
  destruct entry_peso as [peso |]; [| discriminate].
  destruct (producto_por_nombre db (f_nombre item)) as [p |] eqn:Ef;
    [| discriminate].
  apply find_some in Ef. destruct Ef as [Hin _].
  destruct (Hok p Hin) as [Hd _].
  destruct (Qeq_bool (productos.densidad p) 0) eqn:E.
  - apply Qeq_bool_iff in E. rewrite E in Hd. now apply Qlt_irrefl in Hd.
  - destruct (determinar_tipo _ _ _); discriminate.
Qed.

Lemma registrar_peso_no_divide_witness :
  (forall p, In p (t_productos db_bar) -> rangos_validos p) /\
  fst (registrar_peso
         (Some (mkFilaInventario "Ron" "Bacardi" "Ron" None 0 true OK))
         (Some 250) false 40 admin db_bar)
  <> Excepcion.
Proof.
  assert (H : forall p, In p (t_productos db_bar) -> rangos_validos p).
  { intros p [<- | [<- | []]]; unfold rangos_validos; simpl;
      repeat split; reflexivity || (intro H; discriminate H). }
  split; [exact H |].
  now apply registrar_peso_no_divide_por_cero.
Defined.

(** ** The users form and the uniqueness of usernames *)

Lemma sin_textos_repetidos_app_nuevo (l : list string) (x : string) :
  sin_textos_repetidos l = true ->
  existsb (String.eqb x) l = false ->
  sin_textos_repetidos (l ++ [x]) = true.
Proof.
  induction l as [| y l IH]; simpl; intros Hl Hx; [reflexivity |].
  apply andb_true_iff in Hl. destruct Hl as [Hy Hl].
  apply orb_false_iff in Hx. destruct Hx as [Hxy Hx].
  apply andb_true_iff. split; [| now apply IH].
  apply negb_true_iff. apply negb_true_iff in Hy.
  rewrite existsb_app, Hy. simpl.
  now rewrite String.eqb_sym, Hxy.
Qed.

Lemma existsb_username (us : list usuarios.fila) (x : string) :
  existsb (String.eqb x) (map usuarios.username us)
  = existsb (fun u => String.eqb (usuarios.username u) x) us.
Proof.
  induction us as [| u us IH]; simpl; [reflexivity |].
  now rewrite IH, String.eqb_sym.
Qed.

Lemma editar_sin_repetir (us : list usuarios.fila) (i : Z)
    (g : usuarios.fila -> usuarios.fila) (n : string) :
  (forall u, usuarios.username (g u) = n) ->
  sin_repetidos (map usuarios.id us) = true ->
  sin_textos_repetidos (map usuarios.username us) = true ->
  (forall u, In u us -> usuarios.id u <> i -> usuarios.username u <> n) ->
  sin_textos_repetidos
    (map usuarios.username
         (map (fun u => if Z.eqb (usuarios.id u) i then g u else u) us))
  = true.
Proof.
  intros Hg. induction us as [| x us IH]; simpl; intros Hid Hun Hotros;
    [reflexivity |].
  apply andb_true_iff in Hid. destruct Hid as [Hxid Hid].
  apply andb_true_iff in Hun. destruct Hun as [Hxun Hun].
  apply negb_true_iff in Hxid, Hxun.
  apply andb_true_iff. split.
  - apply negb_true_iff.
    match goal with
    | |- existsb ?f ?l = false => destruct (existsb f l) eqn:E
    end; [| reflexivity]. exfalso.
    apply existsb_exists in E. destruct E as [t [Ht Et]].
    apply String.eqb_eq in Et. subst t.
    rewrite map_map in Ht. apply in_map_iff in Ht.
    destruct Ht as [y [Ey Hy]].
    assert (Hxy : usuarios.id x <> usuarios.id y).
    { intro E. assert (Hc : existsb (Z.eqb (usuarios.id x))
                                    (map usuarios.id us) = true).
      { apply existsb_eqb_In. rewrite E. now apply in_map. }
      congruence. }
    assert (Hnxy : usuarios.username x <> usuarios.username y).
    { intro E. assert (Hc : existsb (String.eqb (usuarios.username x))
                                    (map usuarios.username us) = true).
      { apply existsb_exists. exists (usuarios.username y).
        split; [now apply in_map | now apply String.eqb_eq]. }
      congruence. }
    destruct (Z.eqb_spec (usuarios.id x) i) as [Ex | Nx],
             (Z.eqb_spec (usuarios.id y) i) as [Ey' | Ny].
    + congruence.
    + rewrite Hg in Ey.
      exact (Hotros y (or_intror Hy) Ny Ey).
    + rewrite Hg in Ey.
      exact (Hotros x (or_introl eq_refl) Nx (eq_sym Ey)).
    + congruence.
  - apply IH; auto; intros u Hu; apply Hotros; now right.
Qed.

Lemma map_sin_cambio {A : Type} (f : A -> A) (l : list A) :
  (forall x, In x l -> f x = x) -> map f l = l.
Proof.
  induction l as [| x l IH]; simpl; intro H; [reflexivity |].
  rewrite (H x (or_introl eq_refl)). f_equal. apply IH.
  intros y Hy. apply H. now right.
Qed.

(** X26.  Usernames stay unique: the bootstrap and the users form, whatever is
    entered, take a store with distinct user ids and distinct usernames
    to a store with distinct usernames.  A save that would give two users
    the same username fails on the UNIQUE constraint and leaves the store
    as it was. *)
Theorem usernames_siguen_unicos :
  forall (a : Almacen),
    clave_primaria_usuarios (datos a) = true ->
    usernames_unicos (datos a) = true ->
    usernames_unicos (datos (create_admin_user a)) = true /\
    forall (locales_usuarios_data : list (string * Z))
           (username password nombre rol local_str : string) (activo : bool)
           (seleccion : option Z),
      usernames_unicos
        (datos (snd (guardar_usuario locales_usuarios_data username password
                       nombre rol local_str activo seleccion a))) = true /\
      (fst (guardar_usuario locales_usuarios_data username password nombre
              rol local_str activo seleccion a) = Fallo ->
       snd (guardar_usuario locales_usuarios_data username password nombre
              rol local_str activo seleccion a) = a).
Proof.
  intros a Hpk Hun. split.
  - unfold create_admin_user.
    destruct (find (fun u => String.eqb (usuarios.username u) "admin")
                   (t_usuarios (datos a))) as [u |] eqn:Eu; [exact Hun |].
    assert (Hn : existsb (String.eqb "admin")
                         (map usuarios.username (t_usuarios (datos a)))
                 = false).
    { rewrite existsb_username.
      destruct (existsb _ _) eqn:E; [| reflexivity].
      apply existsb_exists in E. destruct E as [u [Hu Eq]].
      pose proof (find_none _ _ Eu u Hu) as Hc. simpl in Hc. congruence. }
    destruct (find _ (t_locales (datos a)));
      unfold usernames_unicos; simpl; rewrite map_app; simpl;
      now apply sin_textos_repetidos_app_nuevo.
  - intros ld username password nombre rol local_str activo seleccion.
    unfold guardar_usuario.
    destruct (vacio username || vacio password || vacio nombre || vacio rol);
      [split; [exact Hun | reflexivity] |].
    destruct (if vacio local_str then Some None
              else option_map Some (dict_get local_str ld)) as [local |];
      [| split; [exact Hun | reflexivity]].
    destruct seleccion as [i |].
    + destruct (existsb (fun u => Z.eqb (usuarios.id u) i)
                        (t_usuarios (datos a))) eqn:Ei; simpl.
      * destruct (existsb
                    (fun u => negb (Z.eqb (usuarios.id u) i)
                              && String.eqb (usuarios.username u) username)
                    (t_usuarios (datos a))) eqn:Eo; simpl;
          [split; [exact Hun | reflexivity] |].
        split; [| discriminate].
        unfold usernames_unicos. simpl.
        apply editar_sin_repetir with (n := username); auto.
        intros u Hu Hne Heq.
        assert (Hc : existsb
                       (fun u => negb (Z.eqb (usuarios.id u) i)
                                 && String.eqb (usuarios.username u) username)
                       (t_usuarios (datos a)) = true).
        { apply existsb_exists. exists u. split; [exact Hu |].
          apply andb_true_iff. split.
          - now apply negb_true_iff, Z.eqb_neq.
          - now apply String.eqb_eq. }
        congruence.
      * split; [| discriminate].
        unfold usernames_unicos. simpl.
        rewrite map_sin_cambio; [exact Hun |].
        intros u Hu. destruct (Z.eqb_spec (usuarios.id u) i) as [E | _];
          [| reflexivity].
        assert (Hc : existsb (fun u => Z.eqb (usuarios.id u) i)
                             (t_usuarios (datos a)) = true).
        { apply existsb_exists. exists u. split; [exact Hu |].
          now apply Z.eqb_eq. }
        congruence.
    + destruct (existsb (fun u => String.eqb (usuarios.username u) username)
                        (t_usuarios (datos a))) eqn:Ex;
        [split; [exact Hun | reflexivity] |].
      split; [| discriminate].
      unfold usernames_unicos. simpl. rewrite map_app. simpl.
      apply sin_textos_repetidos_app_nuevo; [exact Hun |].
      now rewrite existsb_username.
Qed.

(** A second 'ana' is refused by the constraint. *)
Lemma usernames_siguen_unicos_witness :
  clave_primaria_usuarios db_bar = true /\
  usernames_unicos db_bar = true /\
  guardar_usuario (cargar_locales_usuarios db_bar) "ana" "otra" "Ana Dos"
                  "empleado" EmptyString true None (mkAlmacen db_bar 2 2 2)
  = (Fallo, mkAlmacen db_bar 2 2 2) /\
  usernames_unicos
    (datos (snd (guardar_usuario (cargar_locales_usuarios db_bar) "luis"
                   "otra" "Luis" "gerente" "Sucursal (ID: 2)" true None
                   (mkAlmacen db_bar 2 2 2)))) = true.
Proof.
  split; [reflexivity |]. split; [reflexivity |]. split; [reflexivity |].
  apply (proj2 (usernames_siguen_unicos (mkAlmacen db_bar 2 2 2)
                  eq_refl eq_refl)).
Defined.

(** X27.  With unique usernames the answer of the login is decided by the one
    row that has the username: its record when its password is the one
    submitted and it is active, the rejection otherwise. *)
Theorem login_lo_decide_una_fila :
  forall (db : DB) (u : usuarios.fila) (pwd : string),
    usernames_unicos db = true ->
    In u (t_usuarios db) ->
    login (mkLoginJson (Some (usuarios.username u)) (Some pwd)) db
    = if String.eqb (usuarios.password u) pwd
         && Z.eqb (usuarios.activo u) 1
      then (UsuarioJson (usuarios.id u) (usuarios.nombre u) (usuarios.rol u)
                        (usuarios.local_id u), 200%Z)
      else rechazo.
Proof.
  intros db u pwd Hun Hu. unfold login.
  destruct (find (credenciales_coinciden
                    (mkLoginJson (Some (usuarios.username u)) (Some pwd)))
                 (t_usuarios db)) as [v |] eqn:Ev.
  - apply find_some in Ev. destruct Ev as [Hv Hc].
    pose proof Hc as Hc'.
    apply credenciales_coinciden_iff in Hc. destruct Hc as [[= Hc] _].
    assert (v = u) by (apply (username_determina (t_usuarios db)); auto).
    subst v. unfold credenciales_coinciden in Hc'. simpl in Hc'.
    rewrite String.eqb_refl in Hc'. simpl in Hc'. now rewrite Hc'.
  - pose proof (find_none _ _ Ev u Hu) as Hc.
    unfold credenciales_coinciden in Hc. simpl in Hc.
    rewrite String.eqb_refl in Hc. simpl in Hc. now rewrite Hc.
Qed.

Lemma login_lo_decide_witness :
  usernames_unicos db_bar = true /\
  login (mkLoginJson (Some "ana"%string) (Some "clave"%string)) db_bar
  = (UsuarioJson 2 "Ana" "empleado" (Some 2%Z), 200%Z) /\
  login (mkLoginJson (Some "ana"%string) (Some "Clave"%string)) db_bar
  = rechazo.
Proof.
  split; [reflexivity |].
  split; [apply (login_lo_decide_una_fila db_bar empleado "clave") |
          apply (login_lo_decide_una_fila db_bar empleado "Clave")];
    try reflexivity; simpl; auto.
Defined.


(** ** The movements tree of the desktop *)

Lemma ORDER_BY_fecha_DESC_sorted
    (l : list (movimientos.fila * productos.fila * usuarios.fila)) :
  Sorted (fun a b => mas_reciente_primero (fecha_de a) (fecha_de b))
         (ORDER_BY_fecha_DESC l).
Proof.
  unfold ORDER_BY_fecha_DESC, mas_reciente_primero.
  assert (Hs := ordenar_por_sorted
                  (fun a b => (fecha_de b <=? fecha_de a)%Z)).
  eapply Sorted_ind with (P := fun l => Sorted _ l);
    [constructor | | apply Hs].
  - intros a r _ IH Hhd. constructor; [exact IH |].
    destruct Hhd; constructor. now apply Z.leb_le.
  - intros a b. destruct (Z.le_ge_cases (fecha_de b) (fecha_de a));
      [left | right]; now apply Z.leb_le.
Qed.

(** X19.  The movements tree shows at most 50 rows, latest first.  Each row is
    a stored movement with the names of its product and of its user; for
    a session that is not an administrator's, the product is one of the
    session's location. *)
Theorem movimientos_recientes_correcto :
  forall (s : Sesion) (db : DB),
    (List.length (cargar_movimientos_recientes s db) <= 50)%nat /\
    Sorted mas_reciente_primero
           (map (fun f => fst (fst (fst (fst (fst f)))))
                (cargar_movimientos_recientes s db)) /\
    (forall f,
        In f (cargar_movimientos_recientes s db) ->
        exists m p u,
          f = fila_movimiento (m, p, u) /\
          In m (t_movimientos db) /\
          In p (t_productos db) /\
          productos.id p = movimientos.producto_id m /\
          In u (t_usuarios db) /\
          usuarios.id u = movimientos.user_id m /\
          (user_role s <> "admin"%string ->
           local_id s = Some (productos.local_id p))).
Proof.
  intros s db. unfold cargar_movimientos_recientes.
  set (filas := if String.eqb (user_role s) "admin"
                then JOIN_movimientos db
                else filter _ (JOIN_movimientos db)).
  split; [| split].
  - rewrite length_map.
    pose proof (LIMIT_length 50 (ORDER_BY_fecha_DESC filas)) as H. lia.
  - rewrite map_map. apply Sorted_map. apply LIMIT_sorted.
    apply ORDER_BY_fecha_DESC_sorted.
  - intros f Hf. apply in_map_iff in Hf. destruct Hf as [[[m p] u] [<- Hr]].
    apply LIMIT_incl in Hr.
    apply (Permutation_in _ (ordenar_por_perm _ _)) in Hr.
    assert (Hj : In (m, p, u) (JOIN_movimientos db)
                 /\ (user_role s <> "admin"%string ->
                     local_id s = Some (productos.local_id p))).
    { subst filas. destruct (String.eqb_spec (user_role s) "admin").
      - split; [exact Hr | congruence].
      - apply filter_In in Hr. destruct Hr as [Hr Hl]. simpl in Hl.
        split; [exact Hr |]. intros _.
        destruct (local_id s) as [l |]; [| discriminate].
        apply Z.eqb_eq in Hl. now rewrite Hl. }
    destruct Hj as [Hj Hloc]. apply JOIN_movimientos_In in Hj.
    destruct Hj as [Hm [[Hp Ep] [Hu Eu]]].
    exists m, p, u. repeat split; auto.
Qed.

(** The second product's movement is the latest of that product. *)
Lemma ultimo_query_witness :
  ultimo_query db_bar 1 = Some 50 /\
  exists m, In m (movimientos_de db_bar 1) /\
            movimientos.cantidad_ml m = 50 /\
            forall x, In x (movimientos_de db_bar 1) ->
                      (movimientos.fecha x <= movimientos.fecha m)%Z.
Proof.
  split; [reflexivity |].
  apply (ultimo_query_es_el_mas_reciente db_bar 1 50). reflexivity.
Defined.
